(** * fabric-dbt-runner: a shallow embedding and its verified properties

    The development follows the layout of the repository:

    - [Py]              the handful of Python primitives the sources rely on
                        (substring test, [str.join], truthiness, [x or d]);
    - [Streaming]       [src/dbtrunner.py]: the line-streaming runner with
                        its log sink, failure classifier and finalisation;
    - [Config]          [src/fabric_dbt_runner/config.py];
    - [VariableLibrary] [src/fabric_dbt_runner/variable_library.py];
    - [Runner]          [src/fabric_dbt_runner/runner.py]: command lines of
                        the dbt subcommands.

    Python strings are modelled as [string], Python [int] as [Z], lists as
    [list], [None]-able values as [option]. *)

From Stdlib Require Import Ascii.
From stdpp Require Import strings gmap list pretty.

Set Warnings "-register-all".

(* ===================================================================== *)
(** * Python primitives *)
(* ===================================================================== *)

Module Py.

(** The one-character string written ["\n"] in Python. *)
Definition newline : string := String (Ascii.ascii_of_nat 10) "".

(** [needle in hay] on [str]: case-sensitive substring containment. *)
Fixpoint str_in (needle hay : string) : bool :=
  String.prefix needle hay ||
  match hay with
  | "" => false
  | String _ hay' => str_in needle hay'
  end.

(** [s.startswith(p)]. *)
Definition startswith (s p : string) : bool := String.prefix p s.

(** [s[n:]]. *)
Fixpoint str_drop (n : nat) (s : string) : string :=
  match n, s with
  | O, _ => s
  | S _, "" => ""
  | S n', String _ s' => str_drop n' s'
  end.

(** [s.replace(a, b)] for one-character [a] and [b]. *)
Fixpoint replace_char (a b : Ascii.ascii) (s : string) : string :=
  match s with
  | "" => ""
  | String c s' =>
      String (if Ascii.eqb c a then b else c) (replace_char a b s')
  end.

(** [s * n]. *)
Fixpoint str_mul (s : string) (n : nat) : string :=
  match n with
  | O => ""
  | S n' => s +:+ str_mul s n'
  end.

(** ["".join(l)]. *)
Definition join (l : list string) : string := String.concat "" l.

(** [s.upper()] and [s.lower()] on ASCII text. *)
Definition upper_char (c : Ascii.ascii) : Ascii.ascii :=
  let n := Ascii.nat_of_ascii c in
  if (97 <=? n) && (n <=? 122) then Ascii.ascii_of_nat (n - 32) else c.

Definition lower_char (c : Ascii.ascii) : Ascii.ascii :=
  let n := Ascii.nat_of_ascii c in
  if (65 <=? n) && (n <=? 90) then Ascii.ascii_of_nat (n + 32) else c.

Fixpoint map_chars (f : Ascii.ascii → Ascii.ascii) (s : string) : string :=
  match s with
  | "" => ""
  | String c s' => String (f c) (map_chars f s')
  end.

Definition ascii_upper (s : string) : string := map_chars upper_char s.
Definition ascii_lower (s : string) : string := map_chars lower_char s.

(** [bool(s)] for a [str]: the empty string is the only falsy one. *)
Definition str_truthy (s : string) : bool := negb (String.eqb s "").

(** [x or d] where [x : Optional[str]]. *)
Definition or_str (x : option string) (d : string) : string :=
  match x with
  | Some s => if str_truthy s then s else d
  | None => d
  end.

(** [sep.join(l)]. *)
Definition join_with (sep : string) (l : list string) : string :=
  String.concat sep l.

(** [s.endswith(suffix)]: some tail of [s] is [suffix]. *)
Fixpoint endswith (s suffix : string) : bool :=
  String.eqb s suffix ||
  match s with
  | "" => false
  | String _ s' => endswith s' suffix
  end.

(** [posixpath.join(a, b)]: an absolute [b] replaces [a]; otherwise [b] is
    appended, after a slash unless [a] is empty or ends with one. *)
Definition path_join (a b : string) : string :=
  if startswith b "/" then b
  else if negb (str_truthy a) || endswith a "/" then a +:+ b
  else a +:+ "/" +:+ b.

(** [os.environ.get(key)] on the items of [os.environ]. *)
Fixpoint environ_get (environ : list (string * string)) (key : string)
  : option string :=
  match environ with
  | [] => None
  | (k, v) :: environ' =>
      if String.eqb k key then Some v else environ_get environ' key
  end.

(** [os.getenv(key, default)]. *)
Definition getenv (environ : list (string * string)) (key default : string)
  : string :=
  match environ_get environ key with
  | Some v => v
  | None => default
  end.

(** [str(b)] for a [bool]. *)
Definition str_of_bool (b : bool) : string :=
  if b then "True" else "False".

(** [str(n)] for an [int]. *)
Definition str_of_int (n : Z) : string := pretty n.

(** Python values of the kinds JSON has.  A [float] is kept as its
    [repr]; a [dict] as its items in insertion order. *)
Inductive value : Type :=
| PNone
| PBool (b : bool)
| PInt (n : Z)
| PFloat (repr : string)
| PStr (s : string)
| PList (l : list value)
| PDict (items : list (string * value)).

(** [isinstance(v, bool)]. *)
Definition isinstance_bool (v : value) : bool :=
  match v with PBool _ => true | _ => false end.

(** [bool(v)]. *)
Definition truthy (v : value) : bool :=
  match v with
  | PNone => false
  | PBool b => b
  | PInt n => negb (n =? 0)%Z
  | PFloat repr => negb (String.eqb repr "0.0" || String.eqb repr "-0.0")
  | PStr s => str_truthy s
  | PList l => match l with [] => false | _ :: _ => true end
  | PDict items => match items with [] => false | _ :: _ => true end
  end.

(** The exceptions that occur in the modelled code.  Every class but
    [KeyboardInterrupt] and [SystemExit] derives from [Exception]; those
    two derive from [BaseException] only. *)
Inductive exception : Type :=
| RuntimeError (msg : string)
| TypeError (msg : string)
| ValueError (msg : string)
| NameError (msg : string)
| OSError (msg : string)
| JSONDecodeError (msg : string)
| KeyboardInterrupt
| SystemExit.

(** [isinstance(e, Exception)]. *)
Definition isinstance_Exception (e : exception) : bool :=
  match e with
  | KeyboardInterrupt | SystemExit => false
  | _ => true
  end.

(** [str(e)]. *)
Definition str_of_exception (e : exception) : string :=
  match e with
  | RuntimeError m | TypeError m | ValueError m | NameError m | OSError m
  | JSONDecodeError m => m
  | KeyboardInterrupt | SystemExit => ""
  end.

End Py.

(* ===================================================================== *)
(** * The line-streaming runner ([src/dbtrunner.py]) *)
(* ===================================================================== *)

Module Streaming.

(** The values [failure_type] takes besides [None]. *)
Inductive FailureCategory : Type :=
| COMPILATION
| DATABASE
| RUNTIME
| TEST_FAILURE.

(** The Python string that stands for a category. *)
Definition category_name (c : FailureCategory) : string :=
  match c with
  | COMPILATION => "COMPILATION"
  | DATABASE => "DATABASE"
  | RUNTIME => "RUNTIME"
  | TEST_FAILURE => "TEST_FAILURE"
  end.

(** [DbtRunner.classify_failure]. *)
Definition classify_failure (line : string) : option FailureCategory :=
  if Py.str_in "Compilation Error" line then Some COMPILATION
  else if Py.str_in "Database Error" line then Some DATABASE
  else if Py.str_in "Runtime Error" line then Some RUNTIME
  else if Py.str_in "FAIL" line then Some TEST_FAILURE
  else None.

(** [needle] occurs in [hay]: between some left and right contexts. *)
Definition contains (needle hay : string) : Prop :=
  ∃ l r, hay = l +:+ needle +:+ r.

(** The category recorded after one more line. *)
Definition record_failure (ft : option FailureCategory) (line : string)
  : option FailureCategory :=
  match ft with
  | Some c => Some c
  | None => classify_failure line
  end.

(** The child process as the runner sees it: the lines of its combined
    output, in order, and the code [wait()] returns. *)
Record Process : Type := mkProcess {
  stdout : list string;
  returncode : Z
}.

(** [flush_every]'s default in [__init__]. *)
Definition default_flush_every : Z := 25.

(** [m] is made of the elements of [l] and of [r] and of nothing else,
    those of [l] in their order and those of [r] in theirs. *)
Inductive interleaved {A : Type} : list A → list A → list A → Prop :=
| interleaved_nil : interleaved [] [] []
| interleaved_left x l r m :
    interleaved l r m → interleaved (x :: l) r (x :: m)
| interleaved_right x l r m :
    interleaved l r m → interleaved l (x :: r) (x :: m).

(** The warning [flush] prints when the write raised [e]. *)
Definition flush_warning (e : Py.exception) : string :=
  "[WARN] Failed to flush logs: " +:+ Py.str_of_exception e +:+ Py.newline.

Section Model.

(** [datetime] values are kept abstract, together with the two
    renderings the code uses: [strftime("%Y-%m-%d %H:%M:%S")] and the
    [.1f] rendering of [(end - start).total_seconds()]. *)
Context {datetime : Type}.
Variable strftime : datetime → string.
Variable duration_1f : datetime → datetime → string.

(** The attributes of a [DbtRunner] object. *)
Record DbtRunner : Type := mkDbtRunner {
  lakehouse_log_path : string;
  flush_every : Z;
  buffer : list string;
  persisted_log : string;
  success : bool;
  failure_type : option FailureCategory;
  start_time : option datetime
}.

(** [DbtRunner.__init__]. *)
Definition init (lakehouse_log_path : string) (flush_every : Z) : DbtRunner :=
  {| lakehouse_log_path := lakehouse_log_path;
     flush_every := flush_every;
     buffer := [];
     persisted_log := "";
     success := true;
     failure_type := None;
     start_time := None |}.

Definition set_buffer (b : list string) (s : DbtRunner) : DbtRunner :=
  mkDbtRunner (lakehouse_log_path s) (flush_every s) b (persisted_log s)
              (success s) (failure_type s) (start_time s).
Definition set_persisted_log (p : string) (s : DbtRunner) : DbtRunner :=
  mkDbtRunner (lakehouse_log_path s) (flush_every s) (buffer s) p
              (success s) (failure_type s) (start_time s).
Definition set_success (b : bool) (s : DbtRunner) : DbtRunner :=
  mkDbtRunner (lakehouse_log_path s) (flush_every s) (buffer s)
              (persisted_log s) b (failure_type s) (start_time s).
Definition set_failure_type (f : option FailureCategory) (s : DbtRunner)
  : DbtRunner :=
  mkDbtRunner (lakehouse_log_path s) (flush_every s) (buffer s)
              (persisted_log s) (success s) f (start_time s).
Definition set_start_time (t : option datetime) (s : DbtRunner) : DbtRunner :=
  mkDbtRunner (lakehouse_log_path s) (flush_every s) (buffer s)
              (persisted_log s) (success s) (failure_type s) t.

(** ** The environment

    What the code takes from outside: the readings of [datetime.now()],
    the behaviour of [notebookutils.fs.put] and of [subprocess.Popen].
    Readings and writes are numbered in call order. *)
Record Env : Type := mkEnv {
  now : nat → datetime;
  (** [None]: the write succeeds; [Some e]: it raises [e]. *)
  fs_put : nat → option Py.exception;
  popen : string → Py.exception + Process
}.

(** What the code leaves outside. *)
Record World : Type := mkWorld {
  clock_reads : nat;                 (** calls of [datetime.now()] so far *)
  console : list string;             (** texts printed, oldest first *)
  put_log : list (string * string);  (** [(path, content)] of every call
                                         of [notebookutils.fs.put] *)
  lakehouse : gmap string string     (** the remote files *)
}.

Definition empty_world : World := mkWorld 0 [] [] ∅.

Record State : Type := mkState { self : DbtRunner; world : World }.

(** ** A state and exception monad

    A Python statement either completes or raises; the mutations it made
    stay in both cases. *)
Inductive result (A : Type) : Type :=
| Return (a : A)
| Raise (e : Py.exception).
Global Arguments Return {A} a.
Global Arguments Raise {A} e.

Definition M (A : Type) : Type := State → result A * State.

Global Instance M_ret : MRet M := λ A a st, (Return a, st).
Global Instance M_bind : MBind M := λ A B k m st,
  match m st with
  | (Return a, st') => k a st'
  | (Raise e, st') => (Raise e, st')
  end.

Definition raise {A} (e : Py.exception) : M A := λ st, (Raise e, st).

(** [try: body / except Exception as e: handler e]. *)
Definition try_except_Exception
    (body : M unit) (handler : Py.exception → M unit) : M unit := λ st,
  match body st with
  | (Raise e, st') =>
      if Py.isinstance_Exception e then handler e st' else (Raise e, st')
  | r => r
  end.

Definition get_self : M DbtRunner := λ st, (Return (self st), st).
Definition modify_self (f : DbtRunner → DbtRunner) : M unit := λ st,
  (Return (), mkState (f (self st)) (world st)).

Fixpoint for_each {A} (l : list A) (body : A → M unit) : M unit :=
  match l with
  | [] => mret ()
  | x :: l' => body x;; for_each l' body
  end.

Variable env : Env.

(** [datetime.now()]. *)
Definition datetime_now : M datetime := λ st,
  let w := world st in
  (Return (now env (clock_reads w)),
   mkState (self st)
     (mkWorld (S (clock_reads w)) (console w) (put_log w) (lakehouse w))).

(** [print(text, end="")]: [text] is everything that reaches stdout. *)
Definition print (text : string) : M unit := λ st,
  let w := world st in
  (Return (),
   mkState (self st)
     (mkWorld (clock_reads w) (console w ++ [text]) (put_log w)
              (lakehouse w))).

(** [notebookutils.fs.put(path, content, overwrite=True)]. *)
Definition notebookutils_fs_put (path content : string) : M unit := λ st,
  let w := world st in
  let attempted := put_log w ++ [(path, content)] in
  match fs_put env (length (put_log w)) with
  | None =>
      (Return (),
       mkState (self st)
         (mkWorld (clock_reads w) (console w) attempted
                  (<[path := content]> (lakehouse w))))
  | Some e =>
      (Raise e,
       mkState (self st)
         (mkWorld (clock_reads w) (console w) attempted (lakehouse w)))
  end.

(** [subprocess.Popen(shlex.split(cmd), ...)]. *)
Definition subprocess_Popen (cmd : string) : M Process := λ st,
  match popen env cmd with
  | inl e => (Raise e, st)
  | inr p => (Return p, st)
  end.

(** ** The methods *)

(** [DbtRunner.flush]. *)
Definition flush : M unit :=
  s ← get_self;
  match buffer s with
  | [] => mret ()
  | _ :: _ =>
      try_except_Exception
        (s ← get_self;
         let chunk := Py.join (buffer s) in
         modify_self (set_buffer []);;
         modify_self (λ s, set_persisted_log (persisted_log s +:+ chunk) s);;
         s ← get_self;
         notebookutils_fs_put (lakehouse_log_path s) (persisted_log s))
        (λ e, print ("[WARN] Failed to flush logs: "
                     +:+ Py.str_of_exception e +:+ Py.newline))
  end.

(** The text [log] builds from a clock reading, a level, a message and
    a terminator. *)
Definition format_entry (ts : datetime) (level message end_ : string)
  : string :=
  ("[" +:+ strftime ts +:+ "] [" +:+ level +:+ "] " +:+ message) +:+ end_.

(** [DbtRunner.log]. *)
Definition log (message level end_ : string) : M unit :=
  ts ← datetime_now;
  let timestamp := strftime ts in
  let formatted := "[" +:+ timestamp +:+ "] [" +:+ level +:+ "] " +:+ message in
  print (formatted +:+ end_);;
  modify_self (λ s, set_buffer (buffer s ++ [formatted +:+ end_]) s);;
  s ← get_self;
  if bool_decide (flush_every s ≤ Z.of_nat (length (buffer s)))%Z
  then flush else mret ().

(** [DbtRunner.finish]. *)
Definition finish : M unit :=
  t ← datetime_now;
  s ← get_self;
  match start_time s with
  | None =>
      raise (Py.TypeError
        "unsupported operand type(s) for -: 'datetime.datetime' and 'NoneType'")
  | Some t0 =>
      let duration := duration_1f t0 t in
      log "" "INFO" Py.newline;;
      log (Py.str_mul "=" 40) "INFO" Py.newline;;
      log "DBT Run Finished" "INFO" Py.newline;;
      s ← get_self;
      log ("Success: " +:+ Py.str_of_bool (success s)) "INFO" Py.newline;;
      log ("Duration: " +:+ duration +:+ "s") "INFO" Py.newline;;
      s ← get_self;
      match failure_type s with
      | Some f =>
          log ("Failure type: " +:+ category_name f) "ERROR" Py.newline
      | None => mret ()
      end;;
      log (Py.str_mul "=" 40) "INFO" Py.newline;;
      flush
  end.

(** The body of the [for line in process.stdout] loop of [run]. *)
Definition consume_line (line : string) : M unit :=
  log line "INFO" "";;
  s ← get_self;
  match failure_type s with
  | None =>
      match classify_failure line with
      | Some failure => modify_self (set_failure_type (Some failure))
      | None => mret ()
      end
  | Some _ => mret ()
  end.

(** [DbtRunner.run]. *)
Definition run (cmd : string) : M unit :=
  t ← datetime_now;
  modify_self (set_start_time (Some t));;
  log "Starting dbt run" "INFO" Py.newline;;
  process ← subprocess_Popen cmd;
  for_each (stdout process) consume_line;;
  let return_code := returncode process in
  (if bool_decide (return_code ≠ 0%Z)
   then modify_self (set_success false);;
        log ("dbt exited with return code " +:+ Py.str_of_int return_code)
            "ERROR" Py.newline
   else mret ());;
  flush;;
  finish;;
  s ← get_self;
  if negb (success s)
  then raise (Py.RuntimeError "dbt run failed")
  else mret ().

(** ** Vocabulary of the statements *)

(** The sink fails only with exceptions of class [Exception]: no write
    is cut short by [KeyboardInterrupt] or [SystemExit]. *)
Definition sink_recoverable : Prop :=
  ∀ n e, fs_put env n = Some e → Py.isinstance_Exception e = true.

(** Everything logged so far: what was flushed, then what is buffered. *)
Definition cumulative (s : DbtRunner) : string :=
  persisted_log s +:+ Py.join (buffer s).

(** The object after a flush. *)
Definition flushed (s : DbtRunner) : DbtRunner :=
  set_persisted_log (cumulative s) (set_buffer [] s).

(** The object after [log] appended [entry]. *)
Definition logged (entry : string) (s : DbtRunner) : DbtRunner :=
  let s1 := set_buffer (buffer s ++ [entry]) s in
  if bool_decide (flush_every s ≤ Z.of_nat (length (buffer s ++ [entry])))%Z
  then flushed s1 else s1.

(** The state after one more reading of the clock. *)
Definition tick (st : State) : State :=
  mkState (self st)
    (mkWorld (S (clock_reads (world st))) (console (world st))
             (put_log (world st)) (lakehouse (world st))).

(** A predicate on states that a computation cannot break, whether it
    completes or raises. *)
Definition stable {A} (Q : State → Prop) (m : M A) : Prop :=
  ∀ st, Q st → Q (m st).2.

(** A predicate on the object that does not look at the buffer or at the
    persisted log. *)
Definition log_blind (P : DbtRunner → Prop) : Prop :=
  ∀ s b pl, P s → P (set_persisted_log pl (set_buffer b s)).

(** The attributes of the object that a run fixes or sets, the lines logged
    so far, and the number of clock readings made. *)
Definition session_at (path : string) (fe : Z) (suc : bool)
    (ft : option FailureCategory) (stt : option datetime) (es : list string)
    (k : nat) (st : State) : Prop :=
  lakehouse_log_path (self st) = path
  ∧ flush_every (self st) = fe
  ∧ success (self st) = suc
  ∧ failure_type (self st) = ft
  ∧ start_time (self st) = stt
  ∧ cumulative (self st) = Py.join es
  ∧ clock_reads (world st) = k.

(** The arguments of one call of [log]. *)
Record log_args : Type := mkLogArgs {
  message : string;
  level : string;
  end_ : string
}.

(** A call on the sink. *)
Inductive sink_call : Type :=
| CallLog (a : log_args)
| CallFlush.

Definition exec_call (c : sink_call) : M unit :=
  match c with
  | CallLog a => log (message a) (level a) (end_ a)
  | CallFlush => flush
  end.

(** The calls of [cs] made one after the other, each in the state the
    previous one left, whether it completed or raised. *)
Definition exec_calls (cs : list sink_call) (st : State) : State :=
  foldl (λ st c, snd (exec_call c st)) st cs.

Definition logged_args (cs : list sink_call) : list log_args :=
  omap (λ c, match c with CallLog a => Some a | CallFlush => None end) cs.

(** The formatted lines of consecutive [log] calls, the first of which
    makes clock reading number [k]. *)
Fixpoint entries_from (k : nat) (calls : list log_args) : list string :=
  match calls with
  | [] => []
  | a :: calls' =>
      format_entry (now env k) (level a) (message a) (end_ a)
      :: entries_from (S k) calls'
  end.

Definition line_args (line : string) : log_args := mkLogArgs line "INFO" "".
Definition info (message : string) : log_args :=
  mkLogArgs message "INFO" Py.newline.
Definition error (message : string) : log_args :=
  mkLogArgs message "ERROR" Py.newline.

(** What [run] logs before finalisation: the banner, the lines of the
    child, and the exit code when it is not zero. *)
Definition body_calls (p : Process) : list log_args :=
  info "Starting dbt run"
  :: (line_args <$> stdout p)
  ++ (if bool_decide (returncode p ≠ 0%Z)
      then [error ("dbt exited with return code "
                   +:+ Py.str_of_int (returncode p))]
      else []).

(** What [finish] logs: the summary block. *)
Definition summary_calls (success : bool) (duration : string)
    (failure : option FailureCategory) : list log_args :=
  [ info "";
    info (Py.str_mul "=" 40);
    info "DBT Run Finished";
    info ("Success: " +:+ Py.str_of_bool success);
    info ("Duration: " +:+ duration +:+ "s") ]
  ++ match failure with
     | Some f => [error ("Failure type: " +:+ category_name f)]
     | None => []
     end
  ++ [ info (Py.str_mul "=" 40) ].

(** The category of the first line some rule matches. *)
Fixpoint first_match (lines : list string) : option FailureCategory :=
  match lines with
  | [] => None
  | line :: lines' =>
      match classify_failure line with
      | Some c => Some c
      | None => first_match lines'
      end
  end.

(** The lines that the loop of [run], started in [st] on [lines], hands to
    the classifier: those whose [log] call returned, up to the first whose
    [log] call raised. *)
Fixpoint fed (lines : list string) (st : State) : list string :=
  match lines with
  | [] => []
  | line :: lines' =>
      match (log line "INFO" "" st).1 with
      | Return _ => line :: fed lines' (consume_line line st).2
      | Raise _ => []
      end
  end.

(** Unless nothing is persisted yet, the last write attempted on the sink
    carried the whole persisted log, and the remote file holds it if that
    write succeeded. *)
Definition synced (st : State) : Prop :=
  persisted_log (self st) = ""
  ∨ ∃ earlier,
      put_log (world st)
      = earlier ++ [(lakehouse_log_path (self st), persisted_log (self st))]
      ∧ (fs_put env (length earlier) = None →
         lakehouse (world st) !! lakehouse_log_path (self st)
         = Some (persisted_log (self st))).

(** Every write so far went to [path] with a content that the persisted
    log extends, and each write's content extends those before it. *)
Definition writes_extend (path : string) (st : State) : Prop :=
  (∀ i p c, put_log (world st) !! i = Some (p, c) →
            p = path ∧ ∃ rest, persisted_log (self st) = c +:+ rest)
  ∧ (∀ i j pi ci pj cj,
       i ≤ j →
       put_log (world st) !! i = Some (pi, ci) →
       put_log (world st) !! j = Some (pj, cj) →
       ∃ rest, cj = ci +:+ rest).

(** The warnings printed for the [count] writes from write number [n] on:
    one for each write that raised an instance of [Exception]. *)
Definition warnings_of (n count : nat) : list string :=
  omap (λ i, match fs_put env i with
             | Some e =>
                 if Py.isinstance_Exception e then Some (flush_warning e)
                 else None
             | None => None
             end)
       (seq n count).

End Model.

End Streaming.

(* ===================================================================== *)
(** * Configuration ([src/fabric_dbt_runner/config.py]) *)
(* ===================================================================== *)

Module Config.

(** The attributes of a [DbtConfig] object.  [vars] is annotated as a
    [dict] but holds whatever truthy value the constructor is given, so it
    is a Python value here: a [dict] is [Py.PDict] of its items in
    insertion order. *)
Record DbtConfig : Type := mkDbtConfig {
  project_dir : string;
  profiles_dir : string;
  target : string;
  vars : Py.value
}.

Section Model.

(** [os.getcwd()] and [os.path.expanduser] at the time of the call, and
    [json.dumps]. *)
Variable getcwd : string.
Variable expanduser : string → string.
Variable json_dumps : Py.value → string.

(** [DbtConfig.__init__]. *)
Definition init (project_dir profiles_dir target : option string)
    (vars : option Py.value) : DbtConfig :=
  {| project_dir := Py.or_str project_dir getcwd;
     profiles_dir := Py.or_str profiles_dir (expanduser "~/.dbt");
     target := Py.or_str target "dev";
     vars := match vars with
             | Some v => if Py.truthy v then v else Py.PDict []
             | None => Py.PDict []
             end |}.

(** [DbtConfig.get_dbt_args]. *)
Definition get_dbt_args (self : DbtConfig) : list string :=
  let args := [] in
  let args :=
    if Py.str_truthy (project_dir self)
    then args ++ ["--project-dir"; project_dir self] else args in
  let args :=
    if Py.str_truthy (profiles_dir self)
    then args ++ ["--profiles-dir"; profiles_dir self] else args in
  let args :=
    if Py.str_truthy (target self)
    then args ++ ["--target"; target self] else args in
  let args :=
    if Py.truthy (vars self)
    then args ++ ["--vars"; json_dumps (vars self)] else args in
  args.

(** [DbtConfig.to_dict]. *)
Definition to_dict (self : DbtConfig) : gmap string Py.value :=
  <["project_dir" := Py.PStr (project_dir self)]>
    (<["profiles_dir" := Py.PStr (profiles_dir self)]>
       (<["target" := Py.PStr (target self)]>
          (<["vars" := vars self]> ∅))).

(** What [config_dict.get(key)] hands to a parameter annotated
    [Optional[str]]: [Some None] for a missing key, [None] and every other
    falsy value, which [x or default] all replace by the default;
    [Some (Some s)] for a string.  A truthy value that is not a string lies
    outside the annotation and is not followed: [None]. *)
Definition optional_str (v : option Py.value) : option (option string) :=
  match v with
  | None => Some None
  | Some (Py.PStr s) => Some (Some s)
  | Some v => if Py.truthy v then None else Some None
  end.

(** [DbtConfig.from_dict].  [config_dict.get("vars")] is handed on as it
    is: a missing key reads as [None], which [vars or {}] replaces like
    every falsy value.  The result is [None] only where a string field is
    given a truthy value that is not a string. *)
Definition from_dict (config_dict : gmap string Py.value) : option DbtConfig :=
  project_dir ← optional_str (config_dict !! "project_dir");
  profiles_dir ← optional_str (config_dict !! "profiles_dir");
  target ← optional_str (config_dict !! "target");
  let vars := config_dict !! "vars" in
  Some (init project_dir profiles_dir target vars).

End Model.

End Config.

(* ===================================================================== *)
(** * Variable libraries ([src/fabric_dbt_runner/variable_library.py]) *)
(* ===================================================================== *)

Module VariableLibrary.

(** The attributes of a [VariableLibraryManager] object. *)
Record VariableLibraryManager : Type := mkManager {
  library_name : string;
  _variables : gmap string string
}.

(** [VariableLibraryManager.__init__]. *)
Definition init (library_name : option string) : VariableLibraryManager :=
  {| library_name := Py.or_str library_name "dbt_config";
     _variables := ∅ |}.

(** [VariableLibraryManager.get_variable]. *)
Definition get_variable (self : VariableLibraryManager) (key : string)
    (default : option string) : option string :=
  match _variables self !! key with
  | Some v => Some v
  | None => default
  end.

Section Model.

(** [str.upper] and [str.lower]; [os.environ.items()] in iteration
    order; [json.loads], which raises [JSONDecodeError] on a text that
    is not JSON. *)
Variable upper lower : string → string.
Variable environ : list (string * string).
Variable json_loads : string → Py.exception + Py.value.

(** The prefix [load_from_fabric] looks for. *)
Definition prefix_of (self : VariableLibraryManager) : string :=
  upper (library_name self) +:+ "_".

(** One iteration of the loop of [load_from_fabric]. *)
Definition load_entry (prefix : string) (variables : gmap string string)
    (item : string * string) : gmap string string :=
  let '(key, value) := item in
  if Py.startswith key prefix then
    let var_name := lower (Py.str_drop (String.length prefix) key) in
    <[var_name := value]> variables
  else variables.

(** [VariableLibraryManager.load_from_fabric]: the result and the
    object afterwards. *)
Definition load_from_fabric (self : VariableLibraryManager)
  : gmap string string * VariableLibraryManager :=
  let prefix := prefix_of self in
  let variables := foldl (load_entry prefix) ∅ environ in
  (variables, mkManager (library_name self) variables).

(** [if key in variables: config[key] = variables[key]]. *)
Definition copy_key (key : string) (variables : gmap string string)
    (config : gmap string Py.value) : gmap string Py.value :=
  match variables !! key with
  | Some v => <[key := Py.PStr v]> config
  | None => config
  end.

(** [VariableLibraryManager.load_dbt_config]: the [dict] returned, or
    the exception raised, and the object afterwards. *)
Definition load_dbt_config (self : VariableLibraryManager)
  : (Py.exception + gmap string Py.value) * VariableLibraryManager :=
  let '(variables, self) := load_from_fabric self in
  let config := ∅ in
  let config := copy_key "project_dir" variables config in
  let config := copy_key "profiles_dir" variables config in
  let config := copy_key "target" variables config in
  match variables !! "vars" with
  | Some text =>
      match json_loads text with
      | inr parsed => (inr (<["vars" := parsed]> config), self)
      | inl (Py.JSONDecodeError _) =>
          (inr (<["vars" := Py.PDict []]> config), self)
      | inl e => (inl e, self)
      end
  | None => (inr config, self)
  end.

(** [VariableLibraryManager.set_variable], for a string value. *)
Definition set_variable (self : VariableLibraryManager) (key value : string)
  : VariableLibraryManager :=
  mkManager (library_name self) (<[key := value]> (_variables self)).

(** [VariableLibraryManager.get_all_variables]. *)
Definition get_all_variables (self : VariableLibraryManager)
  : gmap string string :=
  _variables self.

End Model.

End VariableLibrary.

(* ===================================================================== *)
(** * Lakehouse metadata ([src/fabric_dbt_runner/lakehouse.py]) *)
(* ===================================================================== *)

Module Lakehouse.

(** The attributes of a [LakehouseMetadata] object. *)
Record LakehouseMetadata : Type := mkLakehouse {
  lakehouse_name : string;
  lakehouse_path : string
}.

(** [LakehouseMetadata.__init__], with the items of [os.environ]. *)
Definition init (environ : list (string * string))
    (lakehouse_name : option string) : LakehouseMetadata :=
  {| lakehouse_name :=
       Py.or_str lakehouse_name
         (Py.getenv environ "FABRIC_LAKEHOUSE_NAME" "default");
     lakehouse_path :=
       Py.getenv environ "FABRIC_LAKEHOUSE_PATH" "/lakehouse/default" |}.

(** [LakehouseMetadata.get_lakehouse_path]. *)
Definition get_lakehouse_path (self : LakehouseMetadata) : string :=
  lakehouse_path self.

(** [LakehouseMetadata.get_tables_path]. *)
Definition get_tables_path (self : LakehouseMetadata) : string :=
  Py.path_join (lakehouse_path self) "Tables".

(** [LakehouseMetadata.get_files_path]. *)
Definition get_files_path (self : LakehouseMetadata) : string :=
  Py.path_join (lakehouse_path self) "Files".

(** [LakehouseMetadata.get_table_location]. *)
Definition get_table_location (self : LakehouseMetadata) (table_name : string)
  : string :=
  Py.path_join (get_tables_path self) table_name.

(** [LakehouseMetadata.get_lakehouse_config]. *)
Definition get_lakehouse_config (self : LakehouseMetadata)
  : gmap string Py.value :=
  <["lakehouse_name" := Py.PStr (lakehouse_name self)]>
    (<["lakehouse_path" := Py.PStr (lakehouse_path self)]>
       (<["tables_path" := Py.PStr (get_tables_path self)]>
          (<["files_path" := Py.PStr (get_files_path self)]> ∅))).

(** The file system as [list_tables] sees it: [os.path.exists],
    [os.listdir], which may raise, and [os.path.isdir]. *)
Record FileSystem : Type := mkFileSystem {
  path_exists : string → bool;
  listdir : string → Py.exception + list string;
  isdir : string → bool
}.

(** [LakehouseMetadata.list_tables]: the list returned or the exception
    that [except Exception] lets through. *)
Definition list_tables (fs : FileSystem) (self : LakehouseMetadata)
  : Py.exception + list string :=
  let tables_path := get_tables_path self in
  if negb (path_exists fs tables_path) then inr []
  else
    match listdir fs tables_path with
    | inr names =>
        inr (filter (λ name, isdir fs (Py.path_join tables_path name) = true)
                    names)
    | inl e => if Py.isinstance_Exception e then inr [] else inl e
    end.

End Lakehouse.

(* ===================================================================== *)
(** * Subcommand command lines ([src/fabric_dbt_runner/runner.py]) *)
(* ===================================================================== *)

Module Runner.

(** [key.replace('_', '-')] preceded by two dashes. *)
Definition flag_of (key : string) : string :=
  "--" +:+ Py.replace_char "_"%char "-"%char key.

Section Model.

(** [str(value)], [json.dumps], and the [DbtConfig] of the runner. *)
Variable str : Py.value → string.
Variable json_dumps : Py.value → string.
Variable config : Config.DbtConfig.

(** One iteration of [for key, value in kwargs.items()], the same in
    the six methods that take [**kwargs]. *)
Definition add_kwarg (cmd : list string) (item : string * Py.value)
  : list string :=
  let '(key, value) := item in
  if Py.isinstance_bool value
     && match value with Py.PBool b => b | _ => false end
  then cmd ++ [flag_of key]
  else if negb (Py.isinstance_bool value)
  then cmd ++ [flag_of key; str value]
  else cmd.

Definition add_kwargs (cmd : list string) (kwargs : list (string * Py.value))
  : list string :=
  foldl add_kwarg cmd kwargs.

(** How a command line, as a function of the keyword arguments, renders
    them: a [False] anywhere adds nothing; a final [True] adds the bare
    flag; a final value that is not a [bool] adds the flag and its [str]. *)
Definition renders_kwargs
    (command : list (string * Py.value) → list string) : Prop :=
  (∀ pre key post,
     command (pre ++ (key, Py.PBool false) :: post) = command (pre ++ post))
  ∧ (∀ kwargs key,
       command (kwargs ++ [(key, Py.PBool true)])
       = command kwargs ++ [flag_of key])
  ∧ (∀ kwargs key value,
       Py.isinstance_bool value = false →
       command (kwargs ++ [(key, value)])
       = command kwargs ++ [flag_of key; str value]).

(** [if models: for model in models: cmd.extend(["--models", model])]. *)
Definition add_models (cmd : list string) (models : option (list string))
  : list string :=
  match models with
  | Some ms => foldl (λ cmd model, cmd ++ ["--models"; model]) cmd ms
  | None => cmd
  end.

(** [if x: cmd.extend([flag, x])] for [x : Optional[str]]. *)
Definition add_option (flag : string) (cmd : list string) (x : option string)
  : list string :=
  match x with
  | Some s => if Py.str_truthy s then cmd ++ [flag; s] else cmd
  | None => cmd
  end.

(** [if full_refresh: cmd.append("--full-refresh")]. *)
Definition add_full_refresh (cmd : list string) (full_refresh : bool)
  : list string :=
  if full_refresh then cmd ++ ["--full-refresh"] else cmd.

(** The list each method hands to [_execute_command]. *)

(** [DbtRunner.run]. *)
Definition run (models : option (list string)) (select exclude : option string)
    (full_refresh : bool) (kwargs : list (string * Py.value)) : list string :=
  let cmd := ["dbt"; "run"] in
  let cmd := cmd ++ Config.get_dbt_args json_dumps config in
  let cmd := add_models cmd models in
  let cmd := add_option "--select" cmd select in
  let cmd := add_option "--exclude" cmd exclude in
  let cmd := add_full_refresh cmd full_refresh in
  add_kwargs cmd kwargs.

(** [DbtRunner.test]. *)
Definition test (models : option (list string)) (select : option string)
    (kwargs : list (string * Py.value)) : list string :=
  let cmd := ["dbt"; "test"] in
  let cmd := cmd ++ Config.get_dbt_args json_dumps config in
  let cmd := add_models cmd models in
  let cmd := add_option "--select" cmd select in
  add_kwargs cmd kwargs.

(** [DbtRunner.build]. *)
Definition build (select exclude : option string) (full_refresh : bool)
    (kwargs : list (string * Py.value)) : list string :=
  let cmd := ["dbt"; "build"] in
  let cmd := cmd ++ Config.get_dbt_args json_dumps config in
  let cmd := add_option "--select" cmd select in
  let cmd := add_option "--exclude" cmd exclude in
  let cmd := add_full_refresh cmd full_refresh in
  add_kwargs cmd kwargs.

(** [DbtRunner.compile]. *)
Definition compile (models : option (list string)) (select : option string)
    (kwargs : list (string * Py.value)) : list string :=
  let cmd := ["dbt"; "compile"] in
  let cmd := cmd ++ Config.get_dbt_args json_dumps config in
  let cmd := add_models cmd models in
  let cmd := add_option "--select" cmd select in
  add_kwargs cmd kwargs.

(** [DbtRunner.seed]. *)
Definition seed (select : option string) (full_refresh : bool)
    (kwargs : list (string * Py.value)) : list string :=
  let cmd := ["dbt"; "seed"] in
  let cmd := cmd ++ Config.get_dbt_args json_dumps config in
  let cmd := add_option "--select" cmd select in
  let cmd := add_full_refresh cmd full_refresh in
  add_kwargs cmd kwargs.

(** [DbtRunner.snapshot]. *)
Definition snapshot (select : option string)
    (kwargs : list (string * Py.value)) : list string :=
  let cmd := ["dbt"; "snapshot"] in
  let cmd := cmd ++ Config.get_dbt_args json_dumps config in
  let cmd := add_option "--select" cmd select in
  add_kwargs cmd kwargs.

End Model.

(** [subprocess.CompletedProcess] as [_execute_command] uses it. *)
Record CompletedProcess : Type := mkCompleted {
  args : list string;
  returncode : Z;
  stdout : string;
  stderr : string
}.

(** The attributes of a [DbtRunner] object. *)
Record DbtRunner : Type := mkDbtRunner {
  variable_manager : VariableLibrary.VariableLibraryManager;
  lakehouse : Lakehouse.LakehouseMetadata;
  config : Config.DbtConfig;
  _last_result : option CompletedProcess
}.

(** Where a [print] goes. *)
Inductive stream : Type := Stdout | Stderr.

(** [DbtRunner.get_last_result]. *)
Definition get_last_result (self : DbtRunner) : option CompletedProcess :=
  _last_result self.

(** The message of the error [_execute_command] raises. *)
Definition failure_message (cmd : list string) (result : CompletedProcess)
  : string :=
  "dbt command failed with exit code " +:+ Py.str_of_int (returncode result)
  +:+ Py.newline
  +:+ "Command: " +:+ Py.join_with " " cmd +:+ Py.newline
  +:+ "Error: " +:+ stderr result.

Section Object.

(** [str.upper], [str.lower], the items of [os.environ], [json.loads],
    [os.getcwd()], [os.path.expanduser], [json.dumps], and
    [subprocess.run(cmd, capture_output=True, text=True, cwd=...)], which
    raises when the command cannot be started. *)
Variable upper lower : string → string.
Variable environ : list (string * string).
Variable json_loads : string → Py.exception + Py.value.
Variable getcwd : string.
Variable expanduser : string → string.
Variable json_dumps : Py.value → string.
Variable subprocess_run :
  list string → string → Py.exception + CompletedProcess.

(** [DbtRunner.__init__]: the new object or the exception raised.  It is
    [None] where [DbtConfig.from_dict] is, which the dictionary of
    [load_dbt_config] never makes it: its string fields are strings of
    the environment. *)
Definition init (config : option Config.DbtConfig)
    (variable_library lakehouse_name : option string)
  : option (Py.exception + DbtRunner) :=
  let variable_manager := VariableLibrary.init variable_library in
  let lakehouse := Lakehouse.init environ lakehouse_name in
  match config with
  | Some config =>
      Some (inr (mkDbtRunner variable_manager lakehouse config None))
  | None =>
      let '(loaded, variable_manager) :=
        VariableLibrary.load_dbt_config upper lower environ json_loads
          variable_manager in
      match loaded with
      | inl e => Some (inl e)
      | inr var_config =>
          if bool_decide (var_config ≠ ∅) then
            config ← Config.from_dict getcwd expanduser var_config;
            Some (inr (mkDbtRunner variable_manager lakehouse config None))
          else
            Some (inr (mkDbtRunner variable_manager lakehouse
                         (Config.init getcwd expanduser None None None None)
                         None))
      end
  end.

(** [DbtRunner._execute_command]: what is returned or raised, the object
    afterwards, and what was printed, in order. *)
Definition _execute_command (self : DbtRunner) (cmd : list string)
  : (Py.exception + CompletedProcess) * DbtRunner * list (stream * string) :=
  let printed := [(Stdout, "Executing: " +:+ Py.join_with " " cmd
                           +:+ Py.newline)] in
  match subprocess_run cmd (Config.project_dir (config self)) with
  | inl e => (inl e, self, printed)
  | inr result =>
      let printed :=
        if Py.str_truthy (stdout result)
        then printed ++ [(Stdout, stdout result +:+ Py.newline)]
        else printed in
      let printed :=
        if Py.str_truthy (stderr result)
        then printed ++ [(Stderr, stderr result +:+ Py.newline)]
        else printed in
      let self :=
        mkDbtRunner (variable_manager self) (lakehouse self) (config self)
                    (Some result) in
      if bool_decide (returncode result ≠ 0%Z)
      then (inl (Py.RuntimeError (failure_message cmd result)), self, printed)
      else (inr result, self, printed)
  end.

(** The object after [_execute_command] has been called on it with each
    command of [cmds] in turn, the caller going on to the next call whether
    the call returned or raised. *)
Definition execute_all (self : DbtRunner) (cmds : list (list string))
  : DbtRunner :=
  foldl (λ self cmd, (_execute_command self cmd).1.2) self cmds.

(** The list [DbtRunner.debug] hands to [_execute_command]. *)
Definition debug (config : Config.DbtConfig) : list string :=
  let cmd := ["dbt"; "debug"] in
  cmd ++ Config.get_dbt_args json_dumps config.

(** The list [DbtRunner.deps] hands to [_execute_command]. *)
Definition deps (config : Config.DbtConfig) : list string :=
  let cmd := ["dbt"; "deps"] in
  cmd ++ Config.get_dbt_args json_dumps config.

(** [DbtRunner.get_lakehouse_info]. *)
Definition get_lakehouse_info (fs : Lakehouse.FileSystem) (self : DbtRunner)
  : Py.exception + gmap string Py.value :=
  match Lakehouse.list_tables fs (lakehouse self) with
  | inl e => inl e
  | inr tables =>
      inr (<["tables" := Py.PList (Py.PStr <$> tables)]>
             (Lakehouse.get_lakehouse_config (lakehouse self)))
  end.

End Object.

End Runner.

(* ===================================================================== *)
(** * A concrete scenario *)
(* ===================================================================== *)

(** The child prints a compilation error and then a test failure.  Clock
    readings are whole seconds since the start of the notebook session. *)
Module Demo.

Definition strftime (t : nat) : string := pretty t.

Definition duration_1f (t0 t1 : nat) : string := pretty (t1 - t0) +:+ ".0".

Definition lines : list string :=
  [ "Compilation Error: syntax" +:+ Py.newline;
    "FAIL 3 tests" +:+ Py.newline ].

Definition spawn (code : Z) (cmd : string) : Py.exception + Streaming.Process :=
  inr (Streaming.mkProcess lines code).

(** A sink that fails every other write. *)
Definition flaky (n : nat) : option Py.exception :=
  if Nat.even n then Some (Py.OSError "lakehouse unavailable") else None.

(** A sink whose writes are all interrupted. *)
Definition interrupted (n : nat) : option Py.exception :=
  Some Py.KeyboardInterrupt.

Definition env_failing : @Streaming.Env nat :=
  Streaming.mkEnv id flaky (spawn 1).

Definition env_passing : @Streaming.Env nat :=
  Streaming.mkEnv id flaky (spawn 0).

Definition env_interrupted : @Streaming.Env nat :=
  Streaming.mkEnv id interrupted (spawn 0).

Definition log_path : string := "/lakehouse/Files/dbt.log".

(** An environment whose [vars] entry is not JSON. *)
Definition environ : list (string * string) :=
  [ ("PATH", "/usr/bin");
    ("DBT_CONFIG_TARGET", "prod");
    ("DBT_CONFIG_VARS", "{run_date: today") ].

Definition json_loads (text : string) : Py.exception + Py.value :=
  inl (Py.JSONDecodeError "Expecting property name enclosed in double quotes").

Definition new_session : @Streaming.State nat :=
  Streaming.mkState (Streaming.init log_path Streaming.default_flush_every)
                    Streaming.empty_world.

Definition one_line_logged (env : @Streaming.Env nat) : @Streaming.State nat :=
  (Streaming.log strftime env "dbt output" "INFO" Py.newline new_session).2.

(** [str] on scalar values. *)
Definition str_simple (v : Py.value) : string :=
  match v with
  | Py.PNone => "None"
  | Py.PBool b => Py.str_of_bool b
  | Py.PInt n => Py.str_of_int n
  | Py.PFloat repr => repr
  | Py.PStr s => s
  | Py.PList _ | Py.PDict _ => ""
  end.

(** A failing child under a sink whose writes are all interrupted. *)
Definition env_interrupted_failing : @Streaming.Env nat :=
  Streaming.mkEnv id interrupted (spawn 1).

(** A new session that flushes every second line. *)
Definition eager_session : @Streaming.State nat :=
  Streaming.mkState (Streaming.init log_path 2) Streaming.empty_world.

(** A child that cannot be started. *)
Definition unspawnable (cmd : string) : Py.exception + Streaming.Process :=
  inl (Py.OSError "Cannot allocate memory").

Definition env_unspawnable : @Streaming.Env nat :=
  Streaming.mkEnv id flaky unspawnable.

(** A sink that never fails. *)
Definition env_quiet : @Streaming.Env nat :=
  Streaming.mkEnv id (λ _, None) (spawn 0).

(** The session as a failed run leaves it. *)
Definition failed_session : @Streaming.State nat :=
  (Streaming.run strftime duration_1f env_failing "dbt run" new_session).2.

(** A lakehouse whose tables directory holds two tables and a file. *)
Definition sales : Lakehouse.LakehouseMetadata :=
  Lakehouse.init [] (Some "sales").

Definition fs : Lakehouse.FileSystem :=
  Lakehouse.mkFileSystem
    (λ path, bool_decide (path = "/lakehouse/default/Tables"))
    (λ path, inr ["orders"; "_delta_log.json"; "customers"])
    (λ path, bool_decide (path = "/lakehouse/default/Tables/orders")
             || bool_decide (path = "/lakehouse/default/Tables/customers")).

(** A [subprocess.run] under which "dbt deps" fails, every other dbt
    command passes and nothing but dbt can be started. *)
Definition subprocess_run (cmd : list string) (cwd : string)
  : Py.exception + Runner.CompletedProcess :=
  if bool_decide (take 2 cmd = ["dbt"; "deps"])
  then inr (Runner.mkCompleted cmd 2 "" "Could not resolve package")
  else if bool_decide (head cmd = Some "dbt")
  then inr (Runner.mkCompleted cmd 0 "Done." "")
  else inl (Py.OSError "No such file or directory").

Definition runner : Runner.DbtRunner :=
  Runner.mkDbtRunner (VariableLibrary.init None) sales
    (Config.mkDbtConfig "/project" "/profiles" "dev" (Py.PDict [])) None.

End Demo.

(* ===================================================================== *)
(** * Facts about the Python primitives *)
(* ===================================================================== *)

Module PyFacts.
Import Py.



Lemma app_nil_l (s : string) : "" +:+ s = s.
Proof. reflexivity. Qed.

Lemma app_cons (c : Ascii.ascii) (s t : string) :
  String c s +:+ t = String c (s +:+ t).
Proof. reflexivity. Qed.

Lemma app_nil_r (s : string) : s +:+ "" = s.
Proof. induction s as [|c s IH]; [done|]. by rewrite app_cons, IH. Qed.

Lemma app_assoc (s1 s2 s3 : string) :
  s1 +:+ (s2 +:+ s3) = (s1 +:+ s2) +:+ s3.
Proof. induction s1 as [|c s1 IH]; [done|]. by rewrite !app_cons, IH. Qed.

Lemma join_nil : join [] = "".
Proof. done. Qed.

Lemma join_cons (x : string) (l : list string) : join (x :: l) = x +:+ join l.
Proof.
  unfold join. destruct l as [|y l]; cbn [String.concat];
    [by rewrite app_nil_r|done].
Qed.

Lemma join_app (l1 l2 : list string) : join (l1 ++ l2) = join l1 +:+ join l2.
Proof.
  induction l1 as [|x l1 IH]; [done|].
  rewrite <- app_comm_cons, !join_cons, IH. apply app_assoc.
Qed.

Lemma join_singleton (x : string) : join [x] = x.
Proof. done. Qed.

Lemma prefix_spec (p s : string) :
  String.prefix p s = true ↔ ∃ r, s = p +:+ r.
Proof.
  revert s. induction p as [|c p IH]; intros s.
  - split; [intros _; by exists s|]. by destruct s.
  - destruct s as [|d s]; cbn [String.prefix].
    + split; [done|]. by intros [r Hr].
    + destruct (Ascii.ascii_dec c d) as [->|Hne].
      * rewrite IH. split; intros [r Hr]; exists r;
          rewrite app_cons in *; congruence.
      * split; [done|]. intros [r Hr]. rewrite app_cons in Hr. congruence.
Qed.

(** [str_in] is substring containment: the needle occurs between some
    (possibly empty) left and right contexts. *)
Lemma str_in_spec (needle hay : string) :
  str_in needle hay = true ↔ ∃ l r, hay = l +:+ needle +:+ r.
Proof.
  induction hay as [|c hay IH]; cbn [str_in].
  - rewrite orb_false_r, prefix_spec. split.
    + intros [r Hr]. by exists "", r.
    + intros [l [r Hr]]. destruct l; [by exists r|done].
  - rewrite orb_true_iff, prefix_spec, IH. split.
    + intros [[r Hr]|[l [r Hr]]].
      * by exists "", r.
      * exists (String c l), r. by rewrite app_cons, Hr.
    + intros [l [r Hr]]. destruct l as [|d l].
      * left. by exists r.
      * right. exists l, r. rewrite app_cons in Hr. congruence.
Qed.

Lemma app_eq_nil (s t : string) : s +:+ t = "" → s = "" ∧ t = "".
Proof. destruct s; [done|]. by rewrite app_cons. Qed.

End PyFacts.

(* ===================================================================== *)
(** * Facts about the line-streaming runner *)
(* ===================================================================== *)

Module StreamingFacts.
Import Streaming.

(** ** The classifier *)

Lemma classify_failure_table (line : string) :
  (classify_failure line = Some COMPILATION
     ↔ contains "Compilation Error" line)
  ∧ (classify_failure line = Some DATABASE
     ↔ ¬ contains "Compilation Error" line ∧ contains "Database Error" line)
  ∧ (classify_failure line = Some RUNTIME
     ↔ ¬ contains "Compilation Error" line ∧ ¬ contains "Database Error" line
       ∧ contains "Runtime Error" line)
  ∧ (classify_failure line = Some TEST_FAILURE
     ↔ ¬ contains "Compilation Error" line ∧ ¬ contains "Database Error" line
       ∧ ¬ contains "Runtime Error" line ∧ contains "FAIL" line)
  ∧ (classify_failure line = None
     ↔ ¬ contains "Compilation Error" line ∧ ¬ contains "Database Error" line
       ∧ ¬ contains "Runtime Error" line ∧ ¬ contains "FAIL" line).
Proof.
  unfold classify_failure, contains.
  rewrite <- !PyFacts.str_in_spec.
  destruct (Py.str_in "Compilation Error" line),
           (Py.str_in "Database Error" line),
           (Py.str_in "Runtime Error" line),
           (Py.str_in "FAIL" line); intuition congruence.
Qed.

(** The matching is case-sensitive and not by whole words, and the first
    rule that applies decides. *)
Example classify_lowercase : classify_failure "1 test fail" = None.
Proof. reflexivity. Qed.

Example classify_inside_word :
  classify_failure "FAILOVER enabled" = Some TEST_FAILURE.
Proof. reflexivity. Qed.

Example classify_rule_order :
  classify_failure "FAIL: Database Error after Compilation Error"
  = Some COMPILATION.
Proof. reflexivity. Qed.

(** The scenario run to its end under a sink that never fails: the first
    matching line decides the category although the second matches too. *)
Example scenario_outcome :
  let r := run Demo.strftime Demo.duration_1f
               (mkEnv id (λ _, None) (Demo.spawn 1)) "dbt run"
               Demo.new_session in
  r.1 = Raise (Py.RuntimeError "dbt run failed")
  ∧ success (self r.2) = false
  ∧ failure_type (self r.2) = Some COMPILATION
  ∧ Py.str_in "[11] [ERROR] Failure type: COMPILATION" (persisted_log (self r.2))
    = true
  ∧ Py.str_in "[9] [INFO] Success: False" (persisted_log (self r.2)) = true
  ∧ Py.str_in "[4] [ERROR] dbt exited with return code 1"
              (persisted_log (self r.2)) = true
  ∧ lakehouse (world r.2) !! Demo.log_path = Some (persisted_log (self r.2)).
Proof. vm_compute. by split_and!. Qed.

Section Facts.

Context {datetime : Type}.
Variable strftime : datetime → string.
Variable duration_1f : datetime → datetime → string.
Variable env : @Env datetime.

Local Abbreviation DbtRunner := (@Streaming.DbtRunner datetime).
Local Abbreviation State := (@Streaming.State datetime).
Local Abbreviation M := (@Streaming.M datetime).
Local Abbreviation flush := (Streaming.flush env).
Local Abbreviation log := (Streaming.log strftime env).
Local Abbreviation finish := (Streaming.finish strftime duration_1f env).
Local Abbreviation consume_line := (Streaming.consume_line strftime env).
Local Abbreviation run := (Streaming.run strftime duration_1f env).
Local Abbreviation entry_at k a :=
  (format_entry strftime (now env k) (level a) (message a) (end_ a)).
Local Abbreviation entries_from := (Streaming.entries_from strftime env).
Local Abbreviation exec_calls := (Streaming.exec_calls strftime env).
Local Abbreviation fed := (Streaming.fed strftime env).
Local Abbreviation synced := (Streaming.synced env).
Local Abbreviation sink_recoverable := (Streaming.sink_recoverable env).

(** ** The equations of [flush] and [log] *)

Lemma flush_empty (st : State) :
  buffer (self st) = [] → flush st = (Return (), st).
Proof. intros H. unfold Streaming.flush, mbind, M_bind, get_self. by rewrite H. Qed.

Lemma flushed_empty (s : DbtRunner) : buffer s = [] → flushed s = s.
Proof.
  destruct s as [p fe b pl su ft t0]; cbn. intros ->.
  unfold flushed, cumulative; cbn. by rewrite PyFacts.app_nil_r.
Qed.

Lemma flush_nonempty (st : State) :
  buffer (self st) ≠ [] →
  let s' := flushed (self st) in
  let w := world st in
  let attempted :=
    put_log w ++ [(lakehouse_log_path s', persisted_log s')] in
  flush st =
    match fs_put env (length (put_log w)) with
    | None =>
        (Return (),
         mkState s' (mkWorld (clock_reads w) (console w) attempted
           (<[lakehouse_log_path s' := persisted_log s']> (lakehouse w))))
    | Some e =>
        if Py.isinstance_Exception e
        then (Return (),
              mkState s' (mkWorld (clock_reads w)
                (console w ++ ["[WARN] Failed to flush logs: "
                               +:+ Py.str_of_exception e +:+ Py.newline])
                attempted (lakehouse w)))
        else (Raise e,
              mkState s' (mkWorld (clock_reads w) (console w) attempted
                                  (lakehouse w)))
    end.
Proof.
  intros H. destruct st as [s w]. cbn in *.
  unfold Streaming.flush, mbind, M_bind, get_self. cbn.
  destruct (buffer s) as [|x xs] eqn:Hb; [done|].
  unfold try_except_Exception, notebookutils_fs_put, modify_self, print. cbn.
  unfold flushed, cumulative. rewrite Hb. cbn.
  destruct (fs_put env (length (put_log w))) as [e|]; [|done].
  by destruct (Py.isinstance_Exception e).
Qed.

Lemma log_unfold (st : State) (a : log_args) :
  let w := world st in
  let entry := entry_at (clock_reads w) a in
  let st1 :=
    mkState (set_buffer (buffer (self st) ++ [entry]) (self st))
            (mkWorld (S (clock_reads w)) (console w ++ [entry]) (put_log w)
                     (lakehouse w)) in
  log (message a) (level a) (end_ a) st =
    if bool_decide (flush_every (self st)
                    ≤ Z.of_nat (length (buffer (self st) ++ [entry])))%Z
    then flush st1 else (Return (), st1).
Proof.
  unfold Streaming.log, mbind, M_bind, datetime_now, print, modify_self,
    get_self. cbn.
  by destruct (bool_decide _).
Qed.

(** ** Sequencing *)

Lemma bind_return {A B} (m : M A) (k : A → M B) (st st1 : State) (a : A) :
  m st = (Return a, st1) → (m ≫= k) st = k a st1.
Proof. intros H. unfold mbind, M_bind. by rewrite H. Qed.

Lemma bind_raise {A B} (m : M A) (k : A → M B) (st st1 : State) e :
  m st = (Raise e, st1) → (m ≫= k) st = (Raise e, st1).
Proof. intros H. unfold mbind, M_bind. by rewrite H. Qed.

Lemma bind_get {B} (k : DbtRunner → M B) (st : State) :
  (get_self ≫= k) st = k (self st) st.
Proof. reflexivity. Qed.

Lemma bind_modify {B} (f : DbtRunner → DbtRunner) (k : unit → M B) (st : State) :
  (modify_self f ≫= k) st = k () (mkState (f (self st)) (world st)).
Proof. reflexivity. Qed.

Lemma stable_bind {A B} (Q : State → Prop) (m : M A) (k : A → M B) :
  stable Q m → (∀ a, stable Q (k a)) → stable Q (m ≫= k).
Proof.
  intros Hm Hk st HQ. unfold mbind, M_bind.
  specialize (Hm st HQ). destruct (m st) as [[a|e] st1]; cbn in *; [|done].
  by apply Hk.
Qed.

Lemma stable_ret {A} (Q : State → Prop) (a : A) : stable Q (mret a).
Proof. by intros st HQ. Qed.

Lemma stable_raise {A} (Q : State → Prop) e : stable Q (@raise datetime A e).
Proof. by intros st HQ. Qed.

Lemma stable_get (Q : State → Prop) : stable Q get_self.
Proof. by intros st HQ. Qed.

Lemma stable_for_each {A} (Q : State → Prop) (l : list A) (body : A → M unit) :
  (∀ x, stable Q (body x)) → stable Q (for_each l body).
Proof.
  intros Hb. induction l as [|x l IH]; cbn [for_each].
  - apply stable_ret.
  - apply stable_bind; [apply Hb|]. by intros _.
Qed.

(** ** What [flush] and [log] do to the object and to the world *)

Lemma synced_ext (st st' : State) :
  lakehouse_log_path (self st') = lakehouse_log_path (self st) →
  persisted_log (self st') = persisted_log (self st) →
  put_log (world st') = put_log (world st) →
  lakehouse (world st') = lakehouse (world st) →
  synced st → synced st'.
Proof. unfold Streaming.synced. by intros -> -> -> ->. Qed.

Lemma flush_facts (st : State) :
  self (flush st).2 = flushed (self st)
  ∧ clock_reads (world (flush st).2) = clock_reads (world st)
  ∧ (sink_recoverable → (flush st).1 = Return ())
  ∧ (synced st → synced (flush st).2).
Proof.
  destruct (decide (buffer (self st) = [])) as [Hb|Hb].
  - rewrite (flush_empty _ Hb). cbn. by rewrite (flushed_empty _ Hb).
  - rewrite (flush_nonempty _ Hb).
    assert (∀ cl co, fs_put env (length (put_log (world st))) ≠ None →
      synced (mkState (flushed (self st))
        (mkWorld cl co
           (put_log (world st) ++
              [(lakehouse_log_path (flushed (self st)),
                persisted_log (flushed (self st)))])
           (lakehouse (world st))))) as Hfail.
    { intros cl co Hne. right. exists (put_log (world st)). by cbn. }
    destruct (fs_put env (length (put_log (world st)))) as [e|] eqn:Hput.
    + destruct (Py.isinstance_Exception e) eqn:He; cbn.
      * repeat split; try done. intros _. by apply Hfail.
      * repeat split; try done.
        -- intros Hrec. apply Hrec in Hput. congruence.
        -- intros _. by apply Hfail.
    + cbn. repeat split; try done. intros _. right.
      exists (put_log (world st)). cbn. split; [done|].
      intros _. apply lookup_insert_eq.
Qed.

Lemma log_facts (st : State) (a : log_args) :
  let r := log (message a) (level a) (end_ a) st in
  self r.2 = logged (entry_at (clock_reads (world st)) a) (self st)
  ∧ clock_reads (world r.2) = S (clock_reads (world st))
  ∧ (sink_recoverable → r.1 = Return ())
  ∧ (synced st → synced r.2).
Proof.
  cbv zeta. rewrite log_unfold. cbv zeta. unfold logged.
  set (entry := entry_at (clock_reads (world st)) a).
  set (st1 := mkState _ _).
  assert (synced st → synced st1) as Hs by (by apply synced_ext).
  destruct (bool_decide _).
  - destruct (flush_facts st1) as (H1 & H2 & H3 & H4). rewrite H1, H2.
    repeat split; try done; intros ?; by apply H4, Hs.
  - by cbn.
Qed.

Lemma cumulative_flushed (s : DbtRunner) :
  cumulative (flushed s) = cumulative s.
Proof. unfold flushed, cumulative. cbn. apply PyFacts.app_nil_r. Qed.

Lemma cumulative_logged (entry : string) (s : DbtRunner) :
  cumulative (logged entry s) = cumulative s +:+ entry.
Proof.
  unfold logged. destruct (bool_decide _); [rewrite cumulative_flushed|];
    unfold cumulative; cbn;
    by rewrite PyFacts.join_app, PyFacts.join_singleton, PyFacts.app_assoc.
Qed.

Lemma flushed_fields (s : DbtRunner) :
  lakehouse_log_path (flushed s) = lakehouse_log_path s
  ∧ flush_every (flushed s) = flush_every s
  ∧ success (flushed s) = success s
  ∧ failure_type (flushed s) = failure_type s
  ∧ start_time (flushed s) = start_time s
  ∧ buffer (flushed s) = []
  ∧ persisted_log (flushed s) = cumulative s.
Proof. done. Qed.

Lemma logged_fields (entry : string) (s : DbtRunner) :
  lakehouse_log_path (logged entry s) = lakehouse_log_path s
  ∧ flush_every (logged entry s) = flush_every s
  ∧ success (logged entry s) = success s
  ∧ failure_type (logged entry s) = failure_type s
  ∧ start_time (logged entry s) = start_time s.
Proof. unfold logged. by destruct (bool_decide _). Qed.

(** ** The session along a run that is not interrupted *)

Lemma log_at path fe suc ft stt es k (st : State) (a : log_args) :
  sink_recoverable →
  session_at path fe suc ft stt es k st →
  ∃ st', log (message a) (level a) (end_ a) st = (Return (), st')
         ∧ session_at path fe suc ft stt (es ++ [entry_at k a]) (S k) st'.
Proof.
  intros Hrec (Hp & Hfe & Hsuc & Hft & Hstt & Hcum & Hk).
  destruct (log_facts st a) as (Hself & Hclock & Hres & _).
  destruct (logged_fields (entry_at (clock_reads (world st)) a) (self st))
    as (L1 & L2 & L3 & L4 & L5).
  specialize (Hres Hrec).
  destruct (log (message a) (level a) (end_ a) st) as [res st'].
  cbn in *. subst res. exists st'. split; [done|].
  unfold session_at. rewrite Hself, L1, L2, L3, L4, L5, cumulative_logged, Hcum.
  rewrite PyFacts.join_app, PyFacts.join_singleton, Hclock, Hk.
  by subst.
Qed.

Lemma flush_at path fe suc ft stt es k (st : State) :
  sink_recoverable →
  session_at path fe suc ft stt es k st →
  ∃ st', flush st = (Return (), st')
         ∧ session_at path fe suc ft stt es k st'
         ∧ buffer (self st') = [].
Proof.
  intros Hrec (Hp & Hfe & Hsuc & Hft & Hstt & Hcum & Hk).
  destruct (flush_facts st) as (Hself & Hclock & Hres & _).
  specialize (Hres Hrec).
  destruct (flush st) as [res st'].
  cbn in *. subst res. exists st'. split; [done|].
  unfold session_at. rewrite Hself, cumulative_flushed, Hclock. by subst.
Qed.

Lemma consume_line_at path fe suc ft stt es k (st : State) (line : string) :
  sink_recoverable →
  session_at path fe suc ft stt es k st →
  ∃ st', consume_line line st = (Return (), st')
         ∧ session_at path fe suc (record_failure ft line) stt
             (es ++ [entry_at k (line_args line)]) (S k) st'.
Proof.
  intros Hrec Hat. unfold Streaming.consume_line.
  destruct (log_at _ _ _ _ _ _ _ _ (line_args line) Hrec Hat) as (st1 & E1 & H1).
  cbn in E1. rewrite (bind_return _ _ _ _ _ E1), bind_get.
  destruct H1 as (Hp & Hfe & Hsuc & Hft & Hstt & Hcum & Hk).
  rewrite Hft. unfold record_failure.
  destruct ft as [c|]; [by exists st1|].
  destruct (classify_failure line) as [c|]; [|by exists st1].
  eexists. split; [reflexivity|]. by destruct st1.
Qed.

Lemma first_match_record (ft : option FailureCategory) (lines : list string) :
  foldl record_failure ft lines
  = match ft with Some c => Some c | None => first_match lines end.
Proof.
  revert ft. induction lines as [|line lines IH]; intros ft; cbn.
  - by destruct ft.
  - rewrite IH. destruct ft; [done|]. cbn. by destruct (classify_failure line).
Qed.

Lemma loop_at path fe suc ft stt es k (st : State) (lines : list string) :
  sink_recoverable →
  session_at path fe suc ft stt es k st →
  ∃ st', for_each lines consume_line st = (Return (), st')
         ∧ session_at path fe suc (foldl record_failure ft lines) stt
             (es ++ entries_from k (line_args <$> lines))
             (k + length lines) st'.
Proof.
  intros Hrec. revert ft es k st.
  induction lines as [|line lines IH]; intros ft es k st Hat; cbn [for_each].
  - exists st. split; [done|]. cbn. by rewrite app_nil_r, Nat.add_0_r.
  - destruct (consume_line_at _ _ _ _ _ _ _ _ line Hrec Hat) as (st1 & E1 & H1).
    rewrite (bind_return _ _ _ _ _ E1).
    destruct (IH _ _ _ _ H1) as (st2 & E2 & H2).
    exists st2. split; [done|]. cbn.
    rewrite <- app_assoc in H2. cbn in H2.
    by replace (k + S (length lines)) with (S k + length lines) by lia.
Qed.

Lemma bind_now {B} (k : datetime → M B) (st : State) :
  (datetime_now env ≫= k) st = k (now env (clock_reads (world st))) (tick st).
Proof. reflexivity. Qed.

Lemma bind_ret {A B} (a : A) (k : A → M B) (st : State) :
  (mret a ≫= k) st = k a st.
Proof. reflexivity. Qed.

Lemma tick_at path fe suc ft stt es k (st : State) :
  session_at path fe suc ft stt es k st →
  session_at path fe suc ft stt es (S k) (tick st).
Proof. intros (?&?&?&?&?&?&?). unfold session_at. cbn. by subst. Qed.

Lemma log_at' path fe suc ft stt es k (st : State) (m l e : string) :
  sink_recoverable →
  session_at path fe suc ft stt es k st →
  ∃ st', log m l e st = (Return (), st')
         ∧ session_at path fe suc ft stt
             (es ++ [entry_at k (mkLogArgs m l e)]) (S k) st'.
Proof. intros Hrec Hat. apply (log_at _ _ _ _ _ _ _ _ (mkLogArgs m l e) Hrec Hat). Qed.

(** One [log] call at the head of the computation in the goal. *)
Ltac step_log Hrec :=
  match goal with
  | H : session_at _ _ _ _ _ _ _ ?st
    |- context [ (Streaming.log _ _ ?m ?l ?e ≫= _) ?st ] =>
      let st' := fresh "st" in
      let E := fresh "E" in
      let H' := fresh "Hat" in
      destruct (log_at' _ _ _ _ _ _ _ _ m l e Hrec H) as (st' & E & H');
      rewrite (bind_return _ _ _ _ _ E); clear E H; rename H' into H
  end.

Lemma finish_at path fe suc ft t0 es k (st : State) :
  sink_recoverable →
  session_at path fe suc ft (Some t0) es k st →
  let summary := summary_calls suc (duration_1f t0 (now env k)) ft in
  ∃ st', finish st = (Return (), st')
         ∧ session_at path fe suc ft (Some t0)
             (es ++ entries_from (S k) summary) (length summary + S k) st'
         ∧ buffer (self st') = [].
Proof.
  intros Hrec Hat summary. unfold Streaming.finish.
  rewrite bind_now, bind_get.
  pose proof Hat as (_ & _ & _ & _ & Hstt & _ & Hk).
  change (self (tick st)) with (self st). rewrite Hstt, Hk.
  apply tick_at in Hat.
  do 3 step_log Hrec.
  rewrite bind_get.
  pose proof Hat as (_ & _ & Hsuc & _). rewrite Hsuc.
  do 2 step_log Hrec.
  rewrite bind_get.
  pose proof Hat as (_ & _ & _ & Hft & _). rewrite Hft.
  subst summary. destruct ft as [f|].
  - do 2 step_log Hrec.
    destruct (flush_at _ _ _ _ _ _ _ _ Hrec Hat) as (st' & E & H' & Hb).
    exists st'. split; [done|]. split; [|done].
    repeat rewrite <- app_assoc in H'. exact H'.
  - rewrite bind_ret. step_log Hrec.
    destruct (flush_at _ _ _ _ _ _ _ _ Hrec Hat) as (st' & E & H' & Hb).
    exists st'. split; [done|]. split; [|done].
    repeat rewrite <- app_assoc in H'. exact H'.
Qed.

Lemma entries_from_app (k : nat) (l1 l2 : list log_args) :
  entries_from k (l1 ++ l2)
  = entries_from k l1 ++ entries_from (length l1 + k) l2.
Proof.
  revert k. induction l1 as [|a l1 IH]; intros k; [done|].
  cbn. rewrite IH. by replace (length l1 + S k) with (S (length l1 + k)) by lia.
Qed.

Lemma length_entries_from (k : nat) (l : list log_args) :
  length (entries_from k l) = length l.
Proof. revert k. induction l as [|a l IH]; intros k; cbn; by rewrite ?IH. Qed.

Lemma bind_popen {B} (cmd : string) (p : Process) (k : Process → M B)
    (st : State) :
  popen env cmd = inr p → (subprocess_Popen env cmd ≫= k) st = k p st.
Proof. intros H. unfold mbind, M_bind, subprocess_Popen. by rewrite H. Qed.

(** The outcome of [run] on a new object when the child was spawned and
    the sink fails only in recoverable ways: what is raised, every
    attribute of the object, and the number of clock readings. *)
Lemma run_at (path : string) (fe : Z) (w0 : World) (cmd : string) (p : Process) :
  sink_recoverable →
  popen env cmd = inr p →
  let k := clock_reads w0 in
  let suc := bool_decide (returncode p = 0%Z) in
  let ft := first_match (stdout p) in
  let body := body_calls p in
  let t_end := now env (length body + S k) in
  let summary := summary_calls suc (duration_1f (now env k) t_end) ft in
  ∃ st',
    run cmd (mkState (init path fe) w0)
    = (if suc then Return () else Raise (Py.RuntimeError "dbt run failed"), st')
    ∧ session_at path fe suc ft (Some (now env k))
        (entries_from (S k) body
         ++ entries_from (S (length body + S k)) summary)
        (length summary + S (length body + S k)) st'
    ∧ buffer (self st') = [].
Proof.
  intros Hrec Hp k suc ft body t_end summary. unfold Streaming.run.
  rewrite bind_now, bind_modify.
  assert (session_at path fe true None (Some (now env k)) [] (S k)
            (mkState (set_start_time (Some (now env (clock_reads w0)))
                        (self (tick (mkState (init path fe) w0 : State))))
                     (world (tick (mkState (init path fe) w0 : State)))))
    as Hat
    by done.
  step_log Hrec.
  rewrite (bind_popen _ _ _ _ Hp).
  destruct (loop_at _ _ _ _ _ _ _ _ (stdout p) Hrec Hat) as (st1 & E1 & H1).
  rewrite (bind_return _ _ _ _ _ E1). clear E1 Hat.
  rewrite first_match_record in H1. fold ft in H1.
  assert (∃ st2,
    (if bool_decide (returncode p ≠ 0%Z)
     then modify_self (set_success false);;
          log ("dbt exited with return code "
               +:+ Py.str_of_int (returncode p)) "ERROR" Py.newline
     else mret ()) st1 = (Return (), st2)
    ∧ session_at path fe suc ft (Some (now env k))
        (entries_from (S k) body) (length body + S k) st2)
    as (st2 & E2 & H2).
  { subst body suc. unfold body_calls.
    destruct (decide (returncode p = 0%Z)) as [Hrc|Hrc].
    - rewrite (bool_decide_eq_false_2 _ (λ H, H Hrc)).
      rewrite (bool_decide_eq_true_2 _ Hrc).
      exists st1. split; [done|].
      rewrite app_nil_r. cbn. rewrite length_fmap.
      by replace (S (length (stdout p) + S k))
        with (S (S k) + length (stdout p)) by lia.
    - rewrite (bool_decide_eq_true_2 _ Hrc).
      rewrite (bool_decide_eq_false_2 _ Hrc).
      rewrite bind_modify.
      assert (session_at path fe false ft (Some (now env k))
                ([] ++ [entry_at (S k) (info "Starting dbt run")]
                 ++ entries_from (S (S k)) (line_args <$> stdout p))
                (S (S k) + length (stdout p))
                (mkState (set_success false (self st1)) (world st1))) as Hat.
      { destruct H1 as (?&?&?&?&?&?&?). unfold session_at. cbn.
        split_and!; done. }
      destruct (log_at' _ _ _ _ _ _ _ _
                  ("dbt exited with return code "
                   +:+ Py.str_of_int (returncode p)) "ERROR" Py.newline
                  Hrec Hat) as (st2 & E2 & H2).
      exists st2. split; [done|].
      cbn. rewrite entries_from_app, length_app, length_fmap. cbn.
      rewrite <- app_assoc in H2. cbn in H2.
      replace (length (stdout p) + S (S k)) with (S (S k) + length (stdout p))
        by lia.
      by replace (S (length (stdout p) + 1 + S k))
        with (S (S (S k) + length (stdout p))) by lia. }
  rewrite (bind_return _ _ _ _ _ E2). clear E2 H1.
  destruct (flush_at _ _ _ _ _ _ _ _ Hrec H2) as (st3 & E3 & H3 & _).
  rewrite (bind_return _ _ _ _ _ E3). clear E3 H2.
  destruct (finish_at _ _ _ _ _ _ _ _ Hrec H3) as (st4 & E4 & H4 & Hb).
  rewrite (bind_return _ _ _ _ _ E4), bind_get. clear E4 H3.
  pose proof H4 as (_ & _ & Hsuc & _). rewrite Hsuc.
  exists st4. split; [by destruct suc|]. by split.
Qed.

(** ** Predicates that survive a run, interrupted or not *)

Lemma stable_popen {B} (Q : State → Prop) (cmd : string) (k : Process → M B) :
  (∀ p, popen env cmd = inr p → stable Q (k p)) →
  stable Q (subprocess_Popen env cmd ≫= k).
Proof.
  intros Hk st HQ. unfold mbind, M_bind, subprocess_Popen.
  destruct (popen env cmd) as [e|p]; [done|]. by apply Hk.
Qed.

Section Stable.

Variable Q : State → Prop.
Hypothesis Q_tick : ∀ st, Q st → Q (tick st).
Hypothesis Q_log : ∀ m l e, stable Q (log m l e).
Hypothesis Q_flush : stable Q flush.

Lemma stable_now : stable Q (datetime_now env).
Proof. intros st HQ. by apply Q_tick. Qed.

Lemma stable_finish : stable Q finish.
Proof.
  unfold Streaming.finish.
  apply stable_bind; [apply stable_now|intros t].
  apply stable_bind; [apply stable_get|intros s].
  destruct (start_time s) as [t0|]; [|apply stable_raise].
  repeat (apply stable_bind; [first [apply Q_log | apply stable_get]|intros ?]).
  apply stable_bind.
  { destruct (failure_type _); [apply Q_log|apply stable_ret]. }
  intros _. apply stable_bind; [apply Q_log|]. intros _. apply Q_flush.
Qed.

Hypothesis Q_start : ∀ t, stable Q (modify_self (set_start_time t)).
Hypothesis Q_line : ∀ line, stable Q (consume_line line).

Lemma stable_run (cmd : string) :
  (∀ p, popen env cmd = inr p → returncode p ≠ 0%Z →
        stable Q (modify_self (set_success false))) →
  stable Q (run cmd).
Proof.
  intros Q_fail. unfold Streaming.run.
  apply stable_bind; [apply stable_now|intros t].
  apply stable_bind; [apply Q_start|intros _].
  apply stable_bind; [apply Q_log|intros _].
  apply stable_popen. intros p Hp.
  apply stable_bind; [by apply stable_for_each|intros _].
  apply stable_bind.
  { case_bool_decide as Hrc; [|apply stable_ret].
    apply stable_bind; [by apply (Q_fail p)|]. intros _. apply Q_log. }
  intros _. apply stable_bind; [apply Q_flush|intros _].
  apply stable_bind; [apply stable_finish|intros _].
  apply stable_bind; [apply stable_get|intros s].
  destruct (negb (success s)); [apply stable_raise|apply stable_ret].
Qed.

End Stable.

Lemma log_blind_flushed (P : DbtRunner → Prop) (s : DbtRunner) :
  log_blind P → P s → P (flushed s).
Proof. intros HP Hs. by apply HP. Qed.

Lemma log_blind_logged (P : DbtRunner → Prop) (entry : string) (s : DbtRunner) :
  log_blind P → P s → P (logged entry s).
Proof.
  intros HP Hs. unfold logged. case_bool_decide.
  - apply HP. specialize (HP s (buffer s ++ [entry]) (persisted_log s) Hs).
    by destruct s.
  - specialize (HP s (buffer s ++ [entry]) (persisted_log s) Hs).
    by destruct s.
Qed.

Lemma blind_flush (P : DbtRunner → Prop) :
  log_blind P → stable (λ st, P (self st)) flush.
Proof.
  intros HP st Hs. destruct (flush_facts st) as (-> & _).
  by apply log_blind_flushed.
Qed.

Lemma blind_log (P : DbtRunner → Prop) (m l e : string) :
  log_blind P → stable (λ st, P (self st)) (log m l e).
Proof.
  intros HP st Hs.
  destruct (log_facts st (mkLogArgs m l e)) as (Hself & _). cbn in Hself.
  rewrite Hself. by apply log_blind_logged.
Qed.

(** A recorded category is never overwritten by the loop's body. *)
Lemma consume_line_keeps_failure (c : FailureCategory) (line : string) :
  stable (λ st, failure_type (self st) = Some c) (consume_line line).
Proof.
  intros st Hs. unfold Streaming.consume_line.
  pose proof (blind_log (λ s, failure_type s = Some c) line "INFO" ""
                (λ s b pl H, H) st Hs) as H1.
  unfold mbind, M_bind.
  destruct (log line "INFO" "" st) as [[[]|e] st1]; cbn in *; [|done].
  by rewrite H1.
Qed.

Lemma success_blind : log_blind (λ s : DbtRunner, success s = true).
Proof. by intros s b pl H. Qed.

Lemma consume_line_keeps_success (line : string) :
  stable (λ st, success (self st) = true) (consume_line line).
Proof.
  unfold Streaming.consume_line.
  apply stable_bind;
    [apply (blind_log (λ s, success s = true)), success_blind|intros _].
  apply stable_bind; [apply stable_get|intros s].
  destruct (failure_type s); [apply stable_ret|].
  destruct (classify_failure line); [by intros st H|apply stable_ret].
Qed.

Lemma run_keeps_success (cmd : string) (p : Process) :
  popen env cmd = inr p → returncode p = 0%Z →
  stable (λ st, success (self st) = true) (run cmd).
Proof.
  intros Hp Hrc. apply stable_run.
  - by intros st H.
  - intros m l e. apply (blind_log (λ s, success s = true)), success_blind.
  - apply (blind_flush (λ s, success s = true)), success_blind.
  - by intros t st H.
  - apply consume_line_keeps_success.
  - intros p' Hp' Hrc'. congruence.
Qed.

Lemma synced_log (m l e : string) : stable synced (log m l e).
Proof. intros st Hs. by apply (log_facts st (mkLogArgs m l e)). Qed.

Lemma synced_flush : stable synced flush.
Proof. intros st Hs. by apply (flush_facts st). Qed.

Lemma synced_consume_line (line : string) : stable synced (consume_line line).
Proof.
  unfold Streaming.consume_line.
  apply stable_bind; [apply synced_log|intros _].
  apply stable_bind; [apply stable_get|intros s].
  destruct (failure_type s); [apply stable_ret|].
  destruct (classify_failure line); [|apply stable_ret].
  intros st. by apply synced_ext.
Qed.

Lemma synced_run (cmd : string) : stable synced (run cmd).
Proof.
  apply stable_run.
  - intros st. by apply synced_ext.
  - apply synced_log.
  - apply synced_flush.
  - intros t st. by apply synced_ext.
  - apply synced_consume_line.
  - intros _ _ _ st. by apply synced_ext.
Qed.

(** ** The first matching line *)

Lemma first_match_none (lines : list string) :
  (∀ line, line ∈ lines → classify_failure line = None) →
  first_match lines = None.
Proof.
  induction lines as [|line lines IH]; intros H; [done|]. cbn.
  rewrite (H line) by apply list_elem_of_here.
  apply IH. intros l Hl. apply H. by apply list_elem_of_further.
Qed.

Lemma first_match_some (lines : list string) (i : nat) (line : string)
    (c : FailureCategory) :
  lines !! i = Some line →
  classify_failure line = Some c →
  (∀ j l, j < i → lines !! j = Some l → classify_failure l = None) →
  first_match lines = Some c.
Proof.
  revert i. induction lines as [|x lines IH]; intros i Hi Hc Hbefore; [done|].
  destruct i as [|i]; cbn in *.
  - injection Hi as ->. by rewrite Hc.
  - rewrite (Hbefore 0 x) by (done || lia).
    apply (IH i); [done..|].
    intros j l Hj Hl. apply (Hbefore (S j) l); [lia|done].
Qed.

Lemma session_closed path fe suc ft stt es k (st : State) :
  session_at path fe suc ft stt es k st →
  buffer (self st) = [] →
  self st = mkDbtRunner path fe [] (Py.join es) suc ft stt.
Proof.
  intros (?&?&?&?&?&Hcum&?) Hb. destruct st as [[p f b pl su fl t0] w].
  unfold cumulative in Hcum. cbn in *. subst.
  change (Py.join []) with "" in Hcum.
  rewrite PyFacts.app_nil_r in Hcum. by subst.
Qed.

Lemma join_entries_nonempty (k : nat) (a : log_args) (l : list log_args)
    (rest : list string) :
  Py.join (entries_from k (a :: l) ++ rest) ≠ "".
Proof.
  cbn [Streaming.entries_from]. rewrite <- app_comm_cons, PyFacts.join_cons.
  intros H. apply PyFacts.app_eq_nil in H as [H _].
  unfold format_entry in H. apply PyFacts.app_eq_nil in H as [H _].
  by rewrite PyFacts.app_cons in H.
Qed.

(** The body of the loop either raises out of [log], before it looked at
    the line, or completes having recorded the line's category if none was
    recorded. *)
Lemma consume_line_cases (line : string) (st : State) :
  let r := consume_line line st in
  ((∃ e, r.1 = Raise e)
   ∧ failure_type (self r.2) = failure_type (self st))
  ∨ (r.1 = Return ()
     ∧ failure_type (self r.2) = record_failure (failure_type (self st)) line).
Proof.
  cbv zeta. unfold Streaming.consume_line, mbind, M_bind.
  assert (failure_type (self (log line "INFO" "" st).2)
          = failure_type (self st)) as Hft.
  { apply (blind_log (λ s, failure_type s = failure_type (self st))
                     line "INFO" ""); [by intros s b pl H|done]. }
  destruct (log line "INFO" "" st) as [[[]|e] st1]; cbn in *.
  - right. unfold get_self. cbn. rewrite Hft. unfold record_failure.
    destruct (failure_type (self st)); [done|].
    by destruct (classify_failure line).
  - left. split; [by exists e|done].
Qed.

(** ** Lines the classifier does not see *)

(** [flush], and so [log] and the body of the loop, raise only what the
    write raised and [except Exception] let through. *)
Lemma flush_raises (st : State) (e : Py.exception) :
  (flush st).1 = Raise e → Py.isinstance_Exception e = false.
Proof.
  destruct (decide (buffer (self st) = [])) as [Hb|Hb].
  - by rewrite (flush_empty _ Hb).
  - rewrite (flush_nonempty _ Hb). cbv zeta.
    destruct (fs_put env _) as [e'|]; [|done].
    destruct (Py.isinstance_Exception e') eqn:He; [done|].
    cbn. by intros [= <-].
Qed.

Lemma log_raises (m l t : string) (st : State) (e : Py.exception) :
  (log m l t st).1 = Raise e → Py.isinstance_Exception e = false.
Proof.
  pose proof (log_unfold st (mkLogArgs m l t)) as H. cbv zeta in H.
  cbn [message level end_] in H. rewrite H.
  destruct (bool_decide _); [apply flush_raises|done].
Qed.

(** The body of the loop raises exactly when its [log] call does. *)
Lemma consume_line_result (line : string) (st : State) :
  (consume_line line st).1 = (log line "INFO" "" st).1.
Proof.
  unfold Streaming.consume_line, mbind, M_bind.
  destruct (log line "INFO" "" st) as [[[]|e] st1]; cbn; [|done].
  destruct (failure_type (self st1)); [done|].
  by destruct (classify_failure line).
Qed.

(** The loop records the first match among the lines it handed to the
    classifier; these are all the lines unless the loop raised. *)
Lemma loop_fed (lines : list string) (st : State) :
  let r := for_each lines consume_line st in
  ∃ rest,
    lines = fed lines st ++ rest
    ∧ failure_type (self r.2)
      = foldl record_failure (failure_type (self st)) (fed lines st)
    ∧ (r.1 = Return () → rest = [])
    ∧ (∀ e, r.1 = Raise e → Py.isinstance_Exception e = false ∧ rest ≠ []).
Proof.
  revert st. induction lines as [|line lines IH]; intros st.
  - exists []. cbn. by split_and!.
  - cbv zeta. cbn [for_each Streaming.fed].
    pose proof (consume_line_result line st) as Hres.
    pose proof (log_raises line "INFO" "" st) as Hlog.
    destruct (consume_line_cases line st) as [[[e He] Hft]|[Hr Hft]];
      cbv zeta in *.
    + rewrite He in Hres. rewrite <- Hres in *.
      unfold mbind, M_bind.
      destruct (consume_line line st) as [[[]|e'] st1]; cbn in *; [done|].
      exists (line :: lines). split_and!; try done.
      intros e0 [= <-]. split; [|done]. apply Hlog. by injection He as ->.
    + rewrite Hr in Hres. rewrite <- Hres.
      unfold mbind, M_bind.
      destruct (consume_line line st) as [[[]|e'] st1]; cbn in *; [|done].
      destruct (IH st1) as (rest & Hl & Hc & Hret & Hraise).
      exists rest. cbn. rewrite <- Hl, Hc, Hft. by split_and!.
Qed.

Lemma failure_blind (v : option FailureCategory) :
  log_blind (λ s : DbtRunner, failure_type s = v).
Proof. by intros s b pl H. Qed.

(** What [run] does after the loop leaves the failure category alone. *)
Lemma run_tail_keeps_failure (v : option FailureCategory) (p : Process) :
  stable (λ st, failure_type (self st) = v)
    ((if bool_decide (returncode p ≠ 0%Z)
      then modify_self (set_success false);;
           log ("dbt exited with return code "
                +:+ Py.str_of_int (returncode p)) "ERROR" Py.newline
      else mret ());;
     flush;;
     finish;;
     s ← get_self;
     if negb (success s)
     then raise (Py.RuntimeError "dbt run failed")
     else mret ()).
Proof.
  assert (∀ m l e, stable (λ st, failure_type (self st) = v) (log m l e))
    as Hlog
    by (intros m l e;
        apply (blind_log (λ s, failure_type s = v) m l e), failure_blind).
  assert (stable (λ st : State, failure_type (self st) = v) flush) as Hflush
    by apply (blind_flush (λ s, failure_type s = v)), failure_blind.
  apply stable_bind.
  { case_bool_decide; [|apply stable_ret].
    apply stable_bind; [by intros ? ?|]. intros _. apply Hlog. }
  intros _. apply stable_bind; [apply Hflush|intros _].
  apply stable_bind; [by apply stable_finish; [intros ? ?|..]|intros _].
  apply stable_bind; [apply stable_get|intros s].
  destruct (negb (success s)); [apply stable_raise|apply stable_ret].
Qed.

(** Under every sink, [run] records the first match among a beginning of
    the child's lines, which is all of them unless the run was ended by an
    exception that is no instance of [Exception]. *)
Lemma run_classifies (cmd : string) (p : Process) (st : State) :
  popen env cmd = inr p →
  let r := run cmd st in
  ∃ consumed rest,
    stdout p = consumed ++ rest
    ∧ failure_type (self r.2)
      = foldl record_failure (failure_type (self st)) consumed
    ∧ ((∀ e, r.1 = Raise e → Py.isinstance_Exception e = true) → rest = []).
Proof.
  intros Hp. cbv zeta. unfold Streaming.run.
  rewrite bind_now, bind_modify.
  set (st0 := mkState _ _).
  pose proof (blind_log (λ s, failure_type s = failure_type (self st))
                "Starting dbt run" "INFO" Py.newline
                (failure_blind (failure_type (self st))) st0 eq_refl) as H1.
  pose proof (log_raises "Starting dbt run" "INFO" Py.newline st0) as Hlog.
  destruct (log "Starting dbt run" "INFO" Py.newline st0)
    as [[[]|e] st1] eqn:E1; cbn [fst snd] in *.
  - rewrite (bind_return _ _ _ _ _ E1), (bind_popen _ _ _ _ Hp).
    destruct (loop_fed (stdout p) st1) as (rest & Hl & Hft & Hret & Hraise).
    cbv zeta in *.
    destruct (for_each (stdout p) consume_line st1) as [[[]|e] st2] eqn:E2;
      cbn [fst snd] in *.
    + rewrite (bind_return _ _ _ _ _ E2).
      rewrite (Hret eq_refl), app_nil_r in Hl.
      exists (stdout p), []. split; [by rewrite app_nil_r|]. split; [|done].
      apply (run_tail_keeps_failure _ p st2).
      by rewrite Hft, H1, <- Hl.
    + rewrite (bind_raise _ _ _ _ _ E2). cbn [fst snd].
      exists (fed (stdout p) st1), rest. split_and!; [done|by rewrite Hft, H1|].
      intros Hun. destruct (Hraise e eq_refl) as [He _].
      specialize (Hun e eq_refl). congruence.
  - rewrite (bind_raise _ _ _ _ _ E1). cbn [fst snd].
    exists [], (stdout p). split_and!; [done..|].
    intros Hun. specialize (Hun e eq_refl). specialize (Hlog e eq_refl).
    congruence.
Qed.

(** C1.  Under every sink, the failure category the loop of [run] records
    on a session that has none is the category of the first line, in feed
    order, that some rule of the classifier matches among the lines handed
    to the classifier, and none when no such line matches.  The loop hands
    every line of the child to the classifier unless a [log] call is ended
    by an exception that is no instance of [Exception]: that ends the loop,
    and the run, at that line, which is logged but not classified.  So a
    run that is not ended so, as every run is when the sink raises only
    instances of [Exception], records the category of the first matching
    line of the child.  Once a category is recorded, consuming further
    lines never changes it.  The classifier tests containment of
    "Compilation Error", "Database Error", "Runtime Error" and "FAIL" in
    this order. *)
Theorem first_matching_line_decides_category
    (path : string) (fe : Z) (w0 : World) (cmd : string) (p : Process) :
  popen env cmd = inr p →
  let r := run cmd (mkState (init path fe) w0) in
  let st' := r.2 in
  let uninterrupted :=
    ∀ e, r.1 = Raise e → Py.isinstance_Exception e = true in
  (∀ lines st,
     failure_type (self st) = None →
     let r := for_each lines consume_line st in
     ∃ rest,
       lines = fed lines st ++ rest
       ∧ failure_type (self r.2) = first_match (fed lines st)
       ∧ (r.1 = Return () → rest = [])
       ∧ (∀ e, r.1 = Raise e →
               Py.isinstance_Exception e = false ∧ rest ≠ []))
  ∧ (∃ consumed rest,
       stdout p = consumed ++ rest
       ∧ failure_type (self st') = first_match consumed
       ∧ (uninterrupted → rest = []))
  ∧ (sink_recoverable → uninterrupted)
  ∧ (uninterrupted →
     ∀ i line c,
       stdout p !! i = Some line →
       classify_failure line = Some c →
       (∀ j l, j < i → stdout p !! j = Some l → classify_failure l = None) →
       failure_type (self st') = Some c)
  ∧ ((∀ line, line ∈ stdout p → classify_failure line = None) →
     failure_type (self st') = None)
  ∧ (∀ c lines st,
       failure_type (self st) = Some c →
       failure_type (self (for_each lines consume_line st).2) = Some c)
  ∧ (∀ line,
       (classify_failure line = Some COMPILATION
          ↔ contains "Compilation Error" line)
       ∧ (classify_failure line = Some DATABASE
          ↔ ¬ contains "Compilation Error" line
            ∧ contains "Database Error" line)
       ∧ (classify_failure line = Some RUNTIME
          ↔ ¬ contains "Compilation Error" line
            ∧ ¬ contains "Database Error" line
            ∧ contains "Runtime Error" line)
       ∧ (classify_failure line = Some TEST_FAILURE
          ↔ ¬ contains "Compilation Error" line
            ∧ ¬ contains "Database Error" line
            ∧ ¬ contains "Runtime Error" line
            ∧ contains "FAIL" line)
       ∧ (classify_failure line = None
          ↔ ¬ contains "Compilation Error" line
            ∧ ¬ contains "Database Error" line
            ∧ ¬ contains "Runtime Error" line
            ∧ ¬ contains "FAIL" line)).
Proof.
  intros Hp r st' uninterrupted.
  destruct (run_classifies cmd p (mkState (init path fe) w0) Hp)
    as (consumed & rest & Hl & Hft & Hall).
  fold r st' in Hft, Hall. cbn [failure_type self init] in Hft.
  rewrite first_match_record in Hft.
  split_and!.
  - intros lines st Hnone r0.
    destruct (loop_fed lines st) as (rest0 & Hl0 & Hc0 & Hrest0).
    exists rest0. split; [done|]. split; [|done].
    subst r0. by rewrite Hc0, Hnone, first_match_record.
  - by exists consumed, rest.
  - intros Hrec e He.
    destruct (run_at path fe w0 cmd p Hrec Hp) as (st1 & E & _).
    subst r. rewrite E in He. cbn in He.
    destruct (bool_decide _); [done|]. by injection He as <-.
  - intros Hun i line c Hi Hc Hbefore.
    rewrite (Hall Hun), app_nil_r in Hl. rewrite Hft, <- Hl.
    by apply (first_match_some _ i line).
  - intros Hnone. rewrite Hft. apply first_match_none.
    intros line Hin. apply Hnone. rewrite Hl. apply elem_of_app. by left.
  - intros c lines st Hc.
    apply (stable_for_each (λ st, failure_type (self st) = Some c)); [|done].
    intros line. apply consume_line_keeps_failure.
  - apply classify_failure_table.
Qed.

(** C2.  When the child exits with code 0, a success flag that is true
    when [run] starts, as it is on every new session, is true when [run]
    ends, however the lines were classified and whatever the sink did; and
    unless the sink interrupts it, [run] on a new session completes without
    raising, having recorded the category of the first matching line. *)
Theorem exit_zero_means_success
    (path : string) (fe : Z) (w0 : World) (cmd : string) (p : Process) :
  popen env cmd = inr p →
  returncode p = 0%Z →
  let r := run cmd (mkState (init path fe) w0) in
  (∀ st : State, success (self st) = true →
                 success (self (run cmd st).2) = true)
  ∧ success (self r.2) = true
  ∧ (sink_recoverable →
     r.1 = Return () ∧ failure_type (self r.2) = first_match (stdout p)).
Proof.
  intros Hp Hrc r. split_and!.
  - apply (run_keeps_success cmd p Hp Hrc).
  - by apply (run_keeps_success cmd p Hp Hrc).
  - intros Hrec.
    destruct (run_at path fe w0 cmd p Hrec Hp) as (st1 & E & Hat & Hb).
    subst r. rewrite E. rewrite (bool_decide_eq_true_2 _ Hrc). cbn.
    split; [done|]. by destruct Hat as (_ & _ & _ & ? & _).
Qed.

(** C3, as amended.  When the child exits with a code other than 0 and
    every exception the write raises is an instance of [Exception], [run]
    on a new session raises "dbt run failed", and the state it leaves is
    the finalised one: the success flag is false, the buffer is empty, and the
    persisted log is the banner, the lines of the child, the ERROR line
    with the decimal exit code and the summary block, in this order; the
    last write attempted on the sink carried this whole log, and the remote
    file holds it if that write succeeded. *)
Theorem nonzero_exit_fails_after_finalization
    (path : string) (fe : Z) (w0 : World) (cmd : string) (p : Process) :
  sink_recoverable →
  popen env cmd = inr p →
  returncode p ≠ 0%Z →
  let k := clock_reads w0 in
  let exit_line :=
    error ("dbt exited with return code " +:+ Py.str_of_int (returncode p)) in
  let body :=
    info "Starting dbt run" :: (line_args <$> stdout p) ++ [exit_line] in
  let summary :=
    summary_calls false
      (duration_1f (now env k) (now env (length body + S k)))
      (first_match (stdout p)) in
  ∃ st',
    run cmd (mkState (init path fe) w0)
    = (Raise (Py.RuntimeError "dbt run failed"), st')
    ∧ success (self st') = false
    ∧ buffer (self st') = []
    ∧ persisted_log (self st')
      = Py.join (entries_from (S k) body
                 ++ entries_from (S (length body + S k)) summary)
    ∧ ∃ earlier,
        put_log (world st') = earlier ++ [(path, persisted_log (self st'))]
        ∧ (fs_put env (length earlier) = None →
           lakehouse (world st') !! path = Some (persisted_log (self st'))).
Proof.
  intros Hrec Hp Hrc k exit_line body summary.
  destruct (run_at path fe w0 cmd p Hrec Hp) as (st' & E & Hat & Hb).
  unfold body_calls in *.
  rewrite (bool_decide_eq_true_2 _ Hrc) in *.
  rewrite (bool_decide_eq_false_2 _ Hrc) in *.
  fold k exit_line body summary in Hat.
  pose proof (session_closed _ _ _ _ _ _ _ _ Hat Hb) as Hself.
  assert (synced st') as Hsync.
  { pose proof (synced_run cmd (mkState (init path fe) w0)) as H.
    rewrite E in H. apply H. by left. }
  assert (persisted_log (self st')
          = Py.join (entries_from (S k) body
                     ++ entries_from (S (length body + S k)) summary)) as Hpl
    by (by rewrite Hself).
  assert (lakehouse_log_path (self st') = path) as Hpath by (by rewrite Hself).
  exists st'. split; [done|]. split; [by rewrite Hself|].
  split; [done|]. split; [done|].
  destruct Hsync as [Hempty|(earlier & Hlog & Hremote)].
  - rewrite Hpl in Hempty. by apply join_entries_nonempty in Hempty.
  - rewrite Hpath in Hlog, Hremote. by exists earlier.
Qed.

(** ** Sequences of calls on the sink *)

Lemma exec_calls_snoc (cs : list sink_call) (c : sink_call) (st : State) :
  exec_calls (cs ++ [c]) st
  = (exec_call strftime env c (exec_calls cs st)).2.
Proof. unfold Streaming.exec_calls. by rewrite foldl_app. Qed.

Lemma exec_calls_cons (c : sink_call) (cs : list sink_call) (st : State) :
  exec_calls (c :: cs) st
  = exec_calls cs (exec_call strftime env c st).2.
Proof. reflexivity. Qed.

Lemma exec_calls_facts (cs : list sink_call) (st : State) :
  let st' := exec_calls cs st in
  cumulative (self st')
  = cumulative (self st)
    +:+ Py.join (entries_from (clock_reads (world st)) (logged_args cs))
  ∧ clock_reads (world st') = length (logged_args cs) + clock_reads (world st)
  ∧ lakehouse_log_path (self st') = lakehouse_log_path (self st).
Proof.
  revert st. induction cs as [|c cs IH]; intros st.
  - cbn. by rewrite PyFacts.app_nil_r.
  - rewrite exec_calls_cons.
    destruct (IH (exec_call strftime env c st).2) as (H1 & H2 & H3).
    cbv zeta. rewrite H1, H2, H3. clear H1 H2 H3 IH.
    destruct c as [a|].
    + change (logged_args (CallLog a :: cs)) with (a :: logged_args cs).
      cbn [Streaming.exec_call Streaming.entries_from length].
      destruct (log_facts st a) as (Hself & Hclock & _). cbv zeta in *.
      rewrite Hself, Hclock, cumulative_logged.
      destruct (logged_fields (entry_at (clock_reads (world st)) a) (self st))
        as (-> & _).
      rewrite PyFacts.join_cons, PyFacts.app_assoc.
      split_and!; [done|lia|done].
    + change (logged_args (CallFlush :: cs)) with (logged_args cs).
      cbn [Streaming.exec_call].
      destruct (flush_facts st) as (Hself & Hclock & _).
      by rewrite Hself, Hclock, cumulative_flushed.
Qed.

(** C4.  Flushing an empty buffer writes nothing and leaves the object and
    the world as they were.  For every sequence of [log] and [flush] calls
    on a new sink, what is persisted followed by what is buffered is the
    concatenation, in call order, of all lines logged so far; hence right
    after any flush the persisted log is exactly that concatenation. *)
Theorem flush_persists_everything_logged :
  (∀ st : State, buffer (self st) = [] → flush st = (Return (), st))
  ∧ (∀ path fe w0 cs,
       let st' := exec_calls cs (mkState (init path fe) w0) in
       persisted_log (self st') +:+ Py.join (buffer (self st'))
       = Py.join (entries_from (clock_reads w0) (logged_args cs)))
  ∧ (∀ path fe w0 cs,
       let st' := exec_calls (cs ++ [CallFlush]) (mkState (init path fe) w0) in
       buffer (self st') = []
       ∧ persisted_log (self st')
         = Py.join (entries_from (clock_reads w0) (logged_args cs))).
Proof.
  split_and!.
  - apply flush_empty.
  - intros path fe w0 cs st'.
    destruct (exec_calls_facts cs (mkState (init path fe) w0)) as (H & _).
    exact H.
  - intros path fe w0 cs st'. subst st'. rewrite exec_calls_snoc.
    cbn [Streaming.exec_call].
    destruct (flush_facts (exec_calls cs (mkState (init path fe) w0)))
      as (-> & _).
    split; [done|].
    destruct (exec_calls_facts cs (mkState (init path fe) w0)) as (H & _).
    exact H.
Qed.

Lemma logs_below_threshold (calls : list log_args) (st : State) :
  (Z.of_nat (length (buffer (self st)) + length calls)
   < flush_every (self st))%Z →
  let st' := exec_calls (CallLog <$> calls) st in
  self st'
  = set_buffer (buffer (self st)
                ++ entries_from (clock_reads (world st)) calls) (self st)
  ∧ clock_reads (world st') = length calls + clock_reads (world st)
  ∧ put_log (world st') = put_log (world st)
  ∧ lakehouse (world st') = lakehouse (world st).
Proof.
  revert st. induction calls as [|a calls IH]; intros st Hlt.
  - cbn. rewrite app_nil_r. by destruct st as [[] ?].
  - change (CallLog <$> a :: calls) with (CallLog a :: (CallLog <$> calls)).
    rewrite exec_calls_cons. cbn [Streaming.exec_call].
    rewrite log_unfold. cbv zeta.
    rewrite bool_decide_eq_false_2
      by (rewrite length_app; cbn in *; lia).
    cbn [snd].
    edestruct IH as (H1 & H2 & H3 & H4); [|rewrite H1, H2, H3, H4].
    + cbn. rewrite length_app. cbn in *. lia.
    + cbn. rewrite <- app_assoc. cbn. split_and!; [done|lia|done|done].
Qed.

Lemma log_triggers_flush (st : State) (a : log_args) :
  (flush_every (self st) ≤ Z.of_nat (length (buffer (self st)) + 1))%Z →
  let entry := entry_at (clock_reads (world st)) a in
  let st' := (log (message a) (level a) (end_ a) st).2 in
  put_log (world st')
  = put_log (world st)
    ++ [(lakehouse_log_path (self st), cumulative (self st) +:+ entry)]
  ∧ buffer (self st') = []
  ∧ persisted_log (self st') = cumulative (self st) +:+ entry.
Proof.
  intros Hle entry st'. subst st'. rewrite log_unfold. cbv zeta. fold entry.
  rewrite bool_decide_eq_true_2 by (by rewrite length_app).
  rewrite flush_nonempty by (cbn; by destruct (buffer (self st))).
  cbv zeta. cbn [world put_log self].
  assert (cumulative (set_buffer (buffer (self st) ++ [entry]) (self st))
          = cumulative (self st) +:+ entry) as Hcum.
  { unfold cumulative. cbn.
    by rewrite PyFacts.join_app, PyFacts.join_singleton, PyFacts.app_assoc. }
  destruct (fs_put env (length (put_log (world st)))) as [e|];
    [destruct (Py.isinstance_Exception e)|]; cbn; by rewrite Hcum.
Qed.

(** C5.  With the default threshold of 25, the first 24 [log] calls on a
    new sink write nothing to the sink and leave their 24 lines buffered;
    the 25th call makes exactly one write, of the 25 lines in order, and
    empties the buffer. *)
Theorem auto_flush_at_default_threshold
    (path : string) (w0 : World) (calls : list log_args) (a : log_args) :
  length calls = 24 →
  let k := clock_reads w0 in
  let st24 :=
    exec_calls (CallLog <$> calls)
               (mkState (init path default_flush_every) w0) in
  let st25 := (log (message a) (level a) (end_ a) st24).2 in
  put_log (world st24) = put_log w0
  ∧ lakehouse (world st24) = lakehouse w0
  ∧ buffer (self st24) = entries_from k calls
  ∧ persisted_log (self st24) = ""
  ∧ put_log (world st25)
    = put_log w0 ++ [(path, Py.join (entries_from k (calls ++ [a])))]
  ∧ buffer (self st25) = []
  ∧ persisted_log (self st25) = Py.join (entries_from k (calls ++ [a])).
Proof.
  intros Hlen k st24 st25.
  destruct (logs_below_threshold calls
              (mkState (init path default_flush_every) w0))
    as (Hself & Hclock & Hputs & Hlake).
  { cbn. rewrite Hlen. done. }
  fold st24 in Hself, Hclock, Hputs, Hlake. cbn in Hself, Hclock, Hputs, Hlake.
  fold k in Hself, Hclock.
  destruct (log_triggers_flush st24 a) as (H1 & H2 & H3).
  { rewrite Hself. cbn. rewrite length_entries_from, Hlen. done. }
  fold st25 in H1, H2, H3.
  assert (cumulative (self st24) +:+ entry_at (clock_reads (world st24)) a
          = Py.join (entries_from k (calls ++ [a]))) as Hall.
  { rewrite Hself, Hclock, entries_from_app, PyFacts.join_app. done. }
  rewrite Hall, Hputs, Hself in H1. rewrite Hall in H3.
  split_and!; [done|done|by rewrite Hself|by rewrite Hself|done..].
Qed.

(** ** Failing writes *)

(** C9.  When the write of a flush raises, the buffer has already been
    emptied into the persisted log: the object changed although nothing
    reached the remote file, and the content handed to the failed write was
    the extended log.  Whatever calls follow, the next flush whose write
    succeeds puts the chunk of the failed flush, and all lines logged
    since, in the remote file. *)
Theorem failed_flush_keeps_the_chunk (st : State) (e : Py.exception) :
  buffer (self st) ≠ [] →
  fs_put env (length (put_log (world st))) = Some e →
  let chunk := Py.join (buffer (self st)) in
  let path := lakehouse_log_path (self st) in
  let st1 := (flush st).2 in
  buffer (self st1) = []
  ∧ persisted_log (self st1) = persisted_log (self st) +:+ chunk
  ∧ put_log (world st1)
    = put_log (world st) ++ [(path, persisted_log (self st) +:+ chunk)]
  ∧ lakehouse (world st1) = lakehouse (world st)
  ∧ self st1 ≠ self st
  ∧ ∀ cs,
      let st2 := exec_calls cs st1 in
      buffer (self st2) ≠ [] →
      fs_put env (length (put_log (world st2))) = None →
      lakehouse (world (flush st2).2) !! path
      = Some ((persisted_log (self st) +:+ chunk)
              +:+ Py.join (entries_from (clock_reads (world st))
                                        (logged_args cs))).
Proof.
  intros Hb Hput chunk path st1.
  destruct (flush_facts st) as (Hself & Hclock & _). fold st1 in Hself, Hclock.
  assert (put_log (world st1)
          = put_log (world st) ++ [(path, persisted_log (self st) +:+ chunk)]
          ∧ lakehouse (world st1) = lakehouse (world st)) as [Hputs Hlake].
  { subst st1. rewrite (flush_nonempty _ Hb), Hput. cbv zeta.
    by destruct (Py.isinstance_Exception e). }
  split_and!; try done; try by rewrite Hself.
  - intros Heq. apply (f_equal buffer) in Heq. rewrite Hself in Heq.
    by symmetry in Heq.
  - intros cs st2 Hb2 Hput2.
    destruct (exec_calls_facts cs st1) as (Hcum & _ & Hpath).
    fold st2 in Hcum, Hpath.
    rewrite (flush_nonempty _ Hb2), Hput2. cbv zeta. cbn [snd world lakehouse].
    destruct (flushed_fields (self st2)) as (-> & _ & _ & _ & _ & _ & ->).
    rewrite Hpath, Hcum, Hself, Hclock, cumulative_flushed.
    destruct (flushed_fields (self st)) as (-> & _).
    apply lookup_insert_eq.
Qed.

Lemma flush_swallows_Exception (st : State) :
  sink_recoverable →
  (flush st).1 = Return ()
  ∧ success (self (flush st).2) = success (self st)
  ∧ failure_type (self (flush st).2) = failure_type (self st).
Proof.
  intros Hrec. destruct (flush_facts st) as (Hself & _ & Hres & _).
  rewrite Hself. by split; [apply Hres|].
Qed.

Lemma flush_warns (st : State) (e : Py.exception) :
  buffer (self st) ≠ [] →
  fs_put env (length (put_log (world st))) = Some e →
  Py.isinstance_Exception e = true →
  console (world (flush st).2)
  = console (world st)
    ++ ["[WARN] Failed to flush logs: " +:+ Py.str_of_exception e
        +:+ Py.newline].
Proof.
  intros Hb Hput He. by rewrite (flush_nonempty _ Hb), Hput, He.
Qed.

(** ** Runs that do not start on a new session, or do not get to the child *)

Lemma bind_popen_fail {B} (cmd : string) (e : Py.exception)
    (k : Process → M B) (st : State) :
  popen env cmd = inl e →
  (subprocess_Popen env cmd ≫= k) st = (Raise e, st).
Proof. intros H. unfold mbind, M_bind, subprocess_Popen. by rewrite H. Qed.

Lemma session_here (st : State) :
  session_at (lakehouse_log_path (self st)) (flush_every (self st))
    (success (self st)) (failure_type (self st)) (start_time (self st))
    [cumulative (self st)] (clock_reads (world st)) st.
Proof. by unfold session_at. Qed.

(** The state in which [run] makes its first [log] call. *)
Lemma run_started (st : State) :
  session_at (lakehouse_log_path (self st)) (flush_every (self st))
    (success (self st)) (failure_type (self st))
    (Some (now env (clock_reads (world st)))) [cumulative (self st)]
    (S (clock_reads (world st)))
    (mkState (set_start_time (Some (now env (clock_reads (world st))))
                             (self (tick st)))
             (world (tick st))).
Proof. by unfold session_at. Qed.

(** X1.  When the child cannot be spawned, [run] raises what [Popen] raised and
    stops there: the start time is set and the banner is logged, nothing
    else; the success flag and the failure category are as before, and the
    clock was read twice only, so [finish] did not run. *)
Theorem spawn_failure_propagates (st : State) (cmd : string)
    (e : Py.exception) :
  sink_recoverable →
  popen env cmd = inl e →
  let k := clock_reads (world st) in
  ∃ st',
    run cmd st = (Raise e, st')
    ∧ success (self st') = success (self st)
    ∧ failure_type (self st') = failure_type (self st)
    ∧ start_time (self st') = Some (now env k)
    ∧ cumulative (self st')
      = cumulative (self st) +:+ entry_at (S k) (info "Starting dbt run")
    ∧ clock_reads (world st') = S (S k).
Proof.
  intros Hrec Hp k. unfold Streaming.run.
  rewrite bind_now, bind_modify.
  pose proof (run_started st) as Hat. fold k in Hat.
  step_log Hrec.
  rewrite (bind_popen_fail _ _ _ _ Hp).
  destruct Hat as (_ & _ & Hsuc & Hft & Hstt & Hcum & Hk).
  eexists. split; [reflexivity|]. by split_and!.
Qed.

(** X2.  [finish] on an object on which [run] never set the start time raises
    [TypeError] from the subtraction, after reading the clock and before
    logging or writing anything. *)
Theorem finish_before_run_raises (st : State) :
  start_time (self st) = None →
  ∃ msg,
    finish st = (Raise (Py.TypeError msg), tick st)
    ∧ self (tick st) = self st
    ∧ console (world (tick st)) = console (world st)
    ∧ put_log (world (tick st)) = put_log (world st).
Proof.
  intros H. unfold Streaming.finish. rewrite bind_now, bind_get.
  change (self (tick st)) with (self st). rewrite H.
  by eexists.
Qed.

(** The outcome of [run] from any state when the child was spawned and the
    sink fails only in recoverable ways. *)
Lemma run_from (st : State) (cmd : string) (p : Process) :
  sink_recoverable →
  popen env cmd = inr p →
  let k := clock_reads (world st) in
  let suc := success (self st) && bool_decide (returncode p = 0%Z) in
  let ft := foldl record_failure (failure_type (self st)) (stdout p) in
  let body := body_calls p in
  let t_end := now env (length body + S k) in
  let summary := summary_calls suc (duration_1f (now env k) t_end) ft in
  ∃ st',
    run cmd st
    = (if suc then Return () else Raise (Py.RuntimeError "dbt run failed"), st')
    ∧ session_at (lakehouse_log_path (self st)) (flush_every (self st))
        suc ft (Some (now env k))
        (cumulative (self st)
         :: entries_from (S k) body
         ++ entries_from (S (length body + S k)) summary)
        (length summary + S (length body + S k)) st'
    ∧ buffer (self st') = [].
Proof.
  intros Hrec Hp k suc ft body t_end summary. unfold Streaming.run.
  rewrite bind_now, bind_modify.
  pose proof (run_started st) as Hat. fold k in Hat.
  step_log Hrec.
  rewrite (bind_popen _ _ _ _ Hp).
  destruct (loop_at _ _ _ _ _ _ _ _ (stdout p) Hrec Hat) as (st1 & E1 & H1).
  rewrite (bind_return _ _ _ _ _ E1). clear E1 Hat.
  fold ft in H1.
  assert (∃ st2,
    (if bool_decide (returncode p ≠ 0%Z)
     then modify_self (set_success false);;
          log ("dbt exited with return code "
               +:+ Py.str_of_int (returncode p)) "ERROR" Py.newline
     else mret ()) st1 = (Return (), st2)
    ∧ session_at (lakehouse_log_path (self st)) (flush_every (self st))
        suc ft (Some (now env k))
        (cumulative (self st) :: entries_from (S k) body)
        (length body + S k) st2)
    as (st2 & E2 & H2).
  { subst body suc. unfold body_calls.
    destruct (decide (returncode p = 0%Z)) as [Hrc|Hrc].
    - rewrite (bool_decide_eq_false_2 _ (λ H, H Hrc)).
      rewrite (bool_decide_eq_true_2 _ Hrc), andb_true_r.
      exists st1. split; [done|].
      rewrite app_nil_r. cbn. rewrite length_fmap.
      by replace (S (length (stdout p) + S k))
        with (S (S k) + length (stdout p)) by lia.
    - rewrite (bool_decide_eq_true_2 _ Hrc).
      rewrite (bool_decide_eq_false_2 _ Hrc), andb_false_r.
      rewrite bind_modify.
      assert (session_at (lakehouse_log_path (self st)) (flush_every (self st))
                false ft (Some (now env k))
                (([cumulative (self st)]
                  ++ [entry_at (S k) (info "Starting dbt run")])
                 ++ entries_from (S (S k)) (line_args <$> stdout p))
                (S (S k) + length (stdout p))
                (mkState (set_success false (self st1)) (world st1))) as Hat.
      { destruct H1 as (?&?&?&?&?&?&?). unfold session_at. cbn.
        split_and!; done. }
      destruct (log_at' _ _ _ _ _ _ _ _
                  ("dbt exited with return code "
                   +:+ Py.str_of_int (returncode p)) "ERROR" Py.newline
                  Hrec Hat) as (st2 & E2 & H2).
      exists st2. split; [done|].
      cbn. rewrite entries_from_app, length_app, length_fmap. cbn.
      rewrite <- !app_assoc in H2. cbn in H2.
      replace (length (stdout p) + S (S k)) with (S (S k) + length (stdout p))
        by lia.
      by replace (S (length (stdout p) + 1 + S k))
        with (S (S (S k) + length (stdout p))) by lia. }
  rewrite (bind_return _ _ _ _ _ E2). clear E2 H1.
  destruct (flush_at _ _ _ _ _ _ _ _ Hrec H2) as (st3 & E3 & H3 & _).
  rewrite (bind_return _ _ _ _ _ E3). clear E3 H2.
  destruct (finish_at _ _ _ _ _ _ _ _ Hrec H3) as (st4 & E4 & H4 & Hb).
  rewrite (bind_return _ _ _ _ _ E4), bind_get. clear E4 H3.
  pose proof H4 as (_ & _ & Hsuc & _). rewrite Hsuc.
  exists st4. split; [by destruct suc|]. by split.
Qed.

(** X3.  [run] never resets the success flag: on an object whose flag is
    already false, as a failed run leaves it, a run whose child exits with
    code 0 is finalised with "Success: False" in its summary, without an
    exit-code line, and raises "dbt run failed". *)
Theorem failed_session_fails_later_runs (st : State) (cmd : string)
    (p : Process) :
  sink_recoverable →
  popen env cmd = inr p →
  returncode p = 0%Z →
  success (self st) = false →
  let k := clock_reads (world st) in
  let body := info "Starting dbt run" :: (line_args <$> stdout p) in
  let summary :=
    summary_calls false
      (duration_1f (now env k) (now env (length body + S k)))
      (foldl record_failure (failure_type (self st)) (stdout p)) in
  ∃ st',
    run cmd st = (Raise (Py.RuntimeError "dbt run failed"), st')
    ∧ success (self st') = false
    ∧ buffer (self st') = []
    ∧ persisted_log (self st')
      = cumulative (self st)
        +:+ Py.join (entries_from (S k) body
                     ++ entries_from (S (length body + S k)) summary).
Proof.
  intros Hrec Hp Hrc Hsuc k body summary.
  destruct (run_from st cmd p Hrec Hp) as (st' & E & Hat & Hb).
  unfold body_calls in *.
  rewrite (bool_decide_eq_false_2 _ (λ H, H Hrc)) in *.
  rewrite Hsuc in *. cbn [andb] in *. rewrite app_nil_r in *.
  fold k body summary in Hat.
  pose proof (session_closed _ _ _ _ _ _ _ _ Hat Hb) as Hself.
  exists st'. split; [done|]. rewrite Hself. by split_and!.
Qed.

(** X4.  [run] never resets the failure category or the persisted log either: a
    category recorded before the run is the one recorded after it,
    whatever the child prints, and the log after the run is everything
    logged before it followed by the text of this run and nothing else:
    the banner, the lines of the child, the exit-code line when the code
    is not 0, and the summary block, whose "Failure type" line names the
    category recorded before. *)
Theorem session_state_carries_over (st : State) (cmd : string) (p : Process)
    (c : FailureCategory) :
  sink_recoverable →
  popen env cmd = inr p →
  failure_type (self st) = Some c →
  let r := run cmd st in
  let k := clock_reads (world st) in
  let suc := success (self st) && bool_decide (returncode p = 0%Z) in
  let body :=
    info "Starting dbt run"
    :: (line_args <$> stdout p)
    ++ (if bool_decide (returncode p ≠ 0%Z)
        then [error ("dbt exited with return code "
                     +:+ Py.str_of_int (returncode p))]
        else []) in
  let summary :=
    [ info "";
      info (Py.str_mul "=" 40);
      info "DBT Run Finished";
      info ("Success: " +:+ Py.str_of_bool suc);
      info ("Duration: "
            +:+ duration_1f (now env k) (now env (length body + S k))
            +:+ "s");
      error ("Failure type: " +:+ category_name c);
      info (Py.str_mul "=" 40) ] in
  failure_type (self r.2) = Some c
  ∧ buffer (self r.2) = []
  ∧ persisted_log (self r.2)
    = cumulative (self st)
      +:+ Py.join (entries_from (S k) body
                   ++ entries_from (S (length body + S k)) summary).
Proof.
  intros Hrec Hp Hc r k suc body summary.
  destruct (run_from st cmd p Hrec Hp) as (st' & E & Hat & Hb).
  subst r. rewrite E. cbn [snd].
  rewrite Hc, first_match_record in Hat.
  pose proof (session_closed _ _ _ _ _ _ _ _ Hat Hb) as Hself.
  rewrite Hself. by split_and!.
Qed.

(** X5.  When the child exits with code 0, [run] on a new session returns
    without raising and leaves the finalised state: the persisted log is
    the banner, the lines of the child and the summary block with
    "Success: True", which still names the failure category of the first
    matching line if there is one; no exit-code line is logged. *)
Theorem zero_exit_finalizes
    (path : string) (fe : Z) (w0 : World) (cmd : string) (p : Process) :
  sink_recoverable →
  popen env cmd = inr p →
  returncode p = 0%Z →
  let k := clock_reads w0 in
  let body := info "Starting dbt run" :: (line_args <$> stdout p) in
  let summary :=
    summary_calls true
      (duration_1f (now env k) (now env (length body + S k)))
      (first_match (stdout p)) in
  ∃ st',
    run cmd (mkState (init path fe) w0) = (Return (), st')
    ∧ success (self st') = true
    ∧ buffer (self st') = []
    ∧ persisted_log (self st')
      = Py.join (entries_from (S k) body
                 ++ entries_from (S (length body + S k)) summary).
Proof.
  intros Hrec Hp Hrc k body summary.
  destruct (run_at path fe w0 cmd p Hrec Hp) as (st' & E & Hat & Hb).
  unfold body_calls in *.
  rewrite (bool_decide_eq_false_2 _ (λ H, H Hrc)) in *.
  rewrite (bool_decide_eq_true_2 _ Hrc) in *.
  rewrite app_nil_r in *. fold k body summary in Hat.
  pose proof (session_closed _ _ _ _ _ _ _ _ Hat Hb) as Hself.
  exists st'. split; [done|]. by rewrite Hself.
Qed.

(** ** The threshold *)

Lemma log_fields (st : State) (a : log_args) :
  let st' := (log (message a) (level a) (end_ a) st).2 in
  lakehouse_log_path (self st') = lakehouse_log_path (self st)
  ∧ flush_every (self st') = flush_every (self st).
Proof.
  cbv zeta. destruct (log_facts st a) as (Hself & _). cbv zeta in Hself.
  rewrite Hself.
  by destruct (logged_fields (entry_at (clock_reads (world st)) a) (self st))
    as (-> & -> & _).
Qed.

Lemma log_below_threshold (st : State) (a : log_args) :
  (Z.of_nat (length (buffer (self st)) + 1) < flush_every (self st))%Z →
  let st' := (log (message a) (level a) (end_ a) st).2 in
  buffer (self st')
  = buffer (self st) ++ [entry_at (clock_reads (world st)) a]
  ∧ put_log (world st') = put_log (world st)
  ∧ persisted_log (self st') = persisted_log (self st).
Proof.
  intros Hlt. cbv zeta. rewrite log_unfold. cbv zeta.
  by rewrite bool_decide_eq_false_2 by (rewrite length_app; cbn; lia).
Qed.

Lemma logs_by_threshold (n : nat) (calls : list log_args) (st : State) :
  flush_every (self st) = Z.of_nat n →
  length (buffer (self st)) < n →
  let st' := exec_calls (CallLog <$> calls) st in
  let total := length (buffer (self st)) + length calls in
  length (buffer (self st')) = total `mod` n
  ∧ length (put_log (world st'))
    = length (put_log (world st)) + total `div` n.
Proof.
  revert st. induction calls as [|a calls IH]; intros st Hfe Hb.
  - cbn. rewrite Nat.add_0_r, Nat.mod_small, Nat.div_small by done.
    split; [done|lia].
  - change (CallLog <$> a :: calls) with (CallLog a :: (CallLog <$> calls)).
    rewrite exec_calls_cons. cbn [Streaming.exec_call length].
    destruct (log_fields st a) as (_ & Hfe').
    set (st1 := (log (message a) (level a) (end_ a) st).2) in *.
    cbv zeta in Hfe'. rewrite Hfe in Hfe'.
    destruct (decide (S (length (buffer (self st))) = n)) as [Hfull|Hroom].
    + destruct (log_triggers_flush st a) as (Hputs & Hbuf & _);
        [rewrite Hfe; lia|].
      fold st1 in Hputs, Hbuf.
      destruct (IH st1 Hfe') as (IH1 & IH2); [rewrite Hbuf; cbn; lia|].
      cbv zeta in IH1, IH2. rewrite IH1, IH2, Hbuf, Hputs, length_app. cbn.
      replace (length (buffer (self st)) + S (length calls))
        with (length calls + 1 * n) by lia.
      rewrite Nat.Div0.mod_add, Nat.div_add by lia.
      split; [done|lia].
    + destruct (log_below_threshold st a) as (Hbuf & Hputs & _);
        [rewrite Hfe; lia|].
      fold st1 in Hputs, Hbuf.
      destruct (IH st1 Hfe') as (IH1 & IH2);
        [rewrite Hbuf, length_app; cbn; lia|].
      cbv zeta in IH1, IH2. rewrite IH1, IH2, Hbuf, Hputs, length_app. cbn.
      by replace (length (buffer (self st)) + 1 + length calls)
        with (length (buffer (self st)) + S (length calls)) by lia.
Qed.

(** X6.  With a threshold [n] of at least 1, after any number [N] of [log]
    calls on a new sink the buffer holds [N mod n] lines and the sink has
    been written [N / n] times. *)
Theorem writes_and_buffer_by_threshold
    (path : string) (n : nat) (w0 : World) (calls : list log_args) :
  0 < n →
  let st' :=
    exec_calls (CallLog <$> calls) (mkState (init path (Z.of_nat n)) w0) in
  length (buffer (self st')) = length calls `mod` n
  ∧ length (put_log (world st'))
    = length (put_log w0) + length calls `div` n.
Proof.
  intros Hn.
  by apply (logs_by_threshold n calls (mkState (init path (Z.of_nat n)) w0)).
Qed.

(** X7.  With a threshold of 1, of 0 or below 0, every [log] call writes to the
    sink: after any [log] calls the sink has been written once per call, and
    the buffer is empty as soon as one call was made. *)
Theorem threshold_at_most_one_writes_every_line
    (calls : list log_args) (st : State) :
  (flush_every (self st) ≤ 1)%Z →
  let st' := exec_calls (CallLog <$> calls) st in
  length (put_log (world st')) = length (put_log (world st)) + length calls
  ∧ (calls ≠ [] → buffer (self st') = []).
Proof.
  revert st. induction calls as [|a calls IH]; intros st Hfe.
  - cbn. split; [lia|done].
  - change (CallLog <$> a :: calls) with (CallLog a :: (CallLog <$> calls)).
    rewrite exec_calls_cons. cbn [Streaming.exec_call length].
    destruct (log_fields st a) as (_ & Hfe').
    destruct (log_triggers_flush st a) as (Hputs & Hbuf & _); [lia|].
    set (st1 := (log (message a) (level a) (end_ a) st).2) in *.
    cbv zeta in Hfe'. rewrite <- Hfe' in Hfe.
    destruct (IH st1 Hfe) as (IH1 & IH2). cbv zeta in IH1, IH2.
    rewrite IH1, Hputs, length_app. cbn. split; [lia|]. intros _.
    destruct calls as [|a' calls]; [exact Hbuf|by apply IH2].
Qed.

(** ** What reaches the sink and the console *)

Lemma writes_extend_ext (path : string) (st st' : State) :
  persisted_log (self st') = persisted_log (self st) →
  put_log (world st') = put_log (world st) →
  writes_extend path st → writes_extend path st'.
Proof. unfold writes_extend. by intros -> ->. Qed.

Lemma writes_extend_flush (st : State) :
  writes_extend (lakehouse_log_path (self st)) st →
  writes_extend (lakehouse_log_path (self st)) (flush st).2.
Proof.
  intros [Hone Htwo].
  destruct (decide (buffer (self st) = [])) as [Hb|Hb];
    [by rewrite (flush_empty _ Hb)|].
  assert (put_log (world (flush st).2)
          = put_log (world st)
            ++ [(lakehouse_log_path (self st), cumulative (self st))]
          ∧ persisted_log (self (flush st).2) = cumulative (self st))
    as [Hputs Hpl].
  { rewrite (flush_nonempty _ Hb). cbv zeta.
    destruct (fs_put env (length (put_log (world st)))) as [e|]; [|done].
    by destruct (Py.isinstance_Exception e). }
  assert (∀ i p c, put_log (world st) !! i = Some (p, c) →
                   ∃ rest, cumulative (self st) = c +:+ rest) as Hold.
  { intros i p c Hi. destruct (Hone i p c Hi) as (_ & rest & Hrest).
    exists (rest +:+ Py.join (buffer (self st))).
    unfold cumulative. by rewrite Hrest, PyFacts.app_assoc. }
  split.
  - intros i p c. rewrite Hputs, Hpl, lookup_snoc_Some.
    intros [[_ Hi]|[_ Heq]].
    + split; [by apply (Hone i p c)|by apply (Hold i p)].
    + injection Heq as <- <-. split; [done|].
      exists "". by rewrite PyFacts.app_nil_r.
  - intros i j pi ci pj cj Hij. rewrite Hputs, !lookup_snoc_Some.
    intros [[Hi Hli]|[Hi Heqi]] [[Hj Hlj]|[Hj Heqj]].
    + by apply (Htwo i j pi ci pj cj).
    + injection Heqj as <- <-. by apply (Hold i pi).
    + lia.
    + injection Heqi as <- <-. injection Heqj as <- <-.
      exists "". by rewrite PyFacts.app_nil_r.
Qed.

Lemma writes_extend_log (st : State) (a : log_args) :
  writes_extend (lakehouse_log_path (self st)) st →
  writes_extend (lakehouse_log_path (self st))
                (log (message a) (level a) (end_ a) st).2.
Proof.
  intros H. rewrite log_unfold. cbv zeta.
  set (st1 := mkState _ _).
  assert (writes_extend (lakehouse_log_path (self st)) st1) as H1
    by (by apply (writes_extend_ext _ st)).
  destruct (bool_decide _); [|done].
  by apply (writes_extend_flush st1).
Qed.

Lemma exec_call_path (c : sink_call) (st : State) :
  lakehouse_log_path (self (exec_call strftime env c st).2)
  = lakehouse_log_path (self st).
Proof.
  destruct c as [a|]; cbn [Streaming.exec_call].
  - by destruct (log_fields st a).
  - destruct (flush_facts st) as (-> & _). done.
Qed.

Lemma writes_extend_calls (cs : list sink_call) (st : State) :
  writes_extend (lakehouse_log_path (self st)) st →
  writes_extend (lakehouse_log_path (self st)) (exec_calls cs st).
Proof.
  revert st. induction cs as [|c cs IH]; intros st H; [done|].
  rewrite exec_calls_cons, <- (exec_call_path c st). apply IH.
  rewrite exec_call_path. destruct c as [a|]; cbn [Streaming.exec_call].
  - by apply writes_extend_log.
  - by apply writes_extend_flush.
Qed.

(** X8.  Whatever [log] and [flush] calls are made on a new sink, every write
    goes to the log path, each write's content begins with the content of
    every earlier write, and the persisted log begins with the content of
    every write: a write never drops or alters text written before. *)
Theorem writes_only_extend
    (path : string) (fe : Z) (w0 : World) (cs : list sink_call) :
  put_log w0 = [] →
  let st' := exec_calls cs (mkState (init path fe) w0) in
  (∀ i p c, put_log (world st') !! i = Some (p, c) →
            p = path ∧ ∃ rest, persisted_log (self st') = c +:+ rest)
  ∧ (∀ i j pi ci pj cj,
       i ≤ j →
       put_log (world st') !! i = Some (pi, ci) →
       put_log (world st') !! j = Some (pj, cj) →
       ∃ rest, cj = ci +:+ rest).
Proof.
  intros Hw0.
  apply (writes_extend_calls cs (mkState (init path fe) w0)).
  split.
  - intros i p c Hi. cbn in Hi. by rewrite Hw0 in Hi.
  - intros i j pi ci pj cj _ Hi. cbn in Hi. by rewrite Hw0 in Hi.
Qed.

Lemma interleaved_only_left {A} (l : list A) : interleaved l [] l.
Proof. induction l; by constructor. Qed.

Lemma interleaved_only_right {A} (r : list A) : interleaved [] r r.
Proof. induction r; by constructor. Qed.

Lemma interleaved_app {A} (l1 r1 m1 l2 r2 m2 : list A) :
  interleaved l1 r1 m1 → interleaved l2 r2 m2 →
  interleaved (l1 ++ l2) (r1 ++ r2) (m1 ++ m2).
Proof. intros H1 H2. induction H1; cbn; [done|by constructor..]. Qed.

Lemma interleaved_concat {A} (l r : list A) : interleaved l r (l ++ r).
Proof.
  rewrite <- (app_nil_r l) at 1. rewrite <- (app_nil_l r) at 1.
  apply interleaved_app;
    [apply interleaved_only_left|apply interleaved_only_right].
Qed.

Lemma interleaved_sublist {A} (l r m : list A) :
  interleaved l r m → l `sublist_of` m.
Proof. intros H. induction H; by constructor. Qed.

Lemma interleaved_nothing {A} (l m : list A) : interleaved l [] m → m = l.
Proof.
  intros H. remember [] as r eqn:Hr.
  induction H; [done| |done]. by rewrite IHinterleaved.
Qed.

Local Abbreviation warnings_of := (Streaming.warnings_of env).

Lemma warnings_of_app (n a b : nat) :
  warnings_of n (a + b) = warnings_of n a ++ warnings_of (n + a) b.
Proof. unfold Streaming.warnings_of. by rewrite seq_app, omap_app. Qed.

Lemma warnings_of_quiet (n count : nat) :
  (∀ i, fs_put env i = None) → warnings_of n count = [].
Proof.
  intros Hq. unfold Streaming.warnings_of.
  induction (seq n count) as [|i l IH]; [done|]. cbn. by rewrite Hq.
Qed.

(** What [flush] writes and prints. *)
Lemma flush_console (st : State) :
  ∃ writes,
    put_log (world (flush st).2) = put_log (world st) ++ writes
    ∧ console (world (flush st).2)
      = console (world st)
        ++ warnings_of (length (put_log (world st))) (length writes).
Proof.
  destruct (decide (buffer (self st) = [])) as [Hb|Hb].
  - rewrite (flush_empty _ Hb). exists []. by rewrite !app_nil_r.
  - rewrite (flush_nonempty _ Hb). cbv zeta.
    exists [(lakehouse_log_path (flushed (self st)),
             persisted_log (flushed (self st)))].
    unfold Streaming.warnings_of, flush_warning.
    destruct (fs_put env (length (put_log (world st)))) as [e|] eqn:Hput;
      [destruct (Py.isinstance_Exception e) eqn:He|];
      cbn; rewrite Hput, ?He; cbn; by rewrite ?app_nil_r.
Qed.

(** What one call writes and prints. *)
Lemma exec_call_console (c : sink_call) (st : State) :
  ∃ writes,
    put_log (world (exec_call strftime env c st).2)
    = put_log (world st) ++ writes
    ∧ console (world (exec_call strftime env c st).2)
      = console (world st)
        ++ entries_from (clock_reads (world st)) (logged_args [c])
        ++ warnings_of (length (put_log (world st))) (length writes).
Proof.
  destruct c as [a|]; cbn [Streaming.exec_call].
  - rewrite log_unfold. cbv zeta. set (st1 := mkState _ _).
    destruct (bool_decide _).
    + destruct (flush_console st1) as (ws & Hputs & Hcons).
      exists ws. split; [done|]. rewrite Hcons. cbn. by rewrite <- app_assoc.
    + exists []. cbn. by rewrite !app_nil_r.
  - apply flush_console.
Qed.

(** X9.  Every line handed to [log] is printed, and nothing else is but
    the warnings of failed writes: whatever [log] and [flush] calls are
    made and whatever the sink does, the texts printed since are the logged
    lines in call order and, in their order, one warning for each write
    made since that raised an instance of [Exception], and no other text;
    under a sink that never fails they are exactly the logged lines. *)
Theorem console_mirrors_log (cs : list sink_call) (st : State) :
  let st' := exec_calls cs st in
  let entries := entries_from (clock_reads (world st)) (logged_args cs) in
  ∃ printed writes,
    console (world st') = console (world st) ++ printed
    ∧ put_log (world st') = put_log (world st) ++ writes
    ∧ interleaved entries
        (warnings_of (length (put_log (world st))) (length writes)) printed
    ∧ entries `sublist_of` printed
    ∧ ((∀ n, fs_put env n = None) → printed = entries).
Proof.
  cbv zeta.
  assert (∃ printed writes,
            console (world (exec_calls cs st)) = console (world st) ++ printed
            ∧ put_log (world (exec_calls cs st)) = put_log (world st) ++ writes
            ∧ interleaved
                (entries_from (clock_reads (world st)) (logged_args cs))
                (warnings_of (length (put_log (world st))) (length writes))
                printed) as (printed & writes & Hc & Hp & Hi).
  { revert st. induction cs as [|c cs IH]; intros st.
    - exists [], []. cbn. rewrite !app_nil_r. split_and!; try done.
      constructor.
    - rewrite exec_calls_cons.
      destruct (exec_call_console c st) as (ws & Hputs & Hcons).
      destruct (IH (exec_call strftime env c st).2)
        as (printed & writes & Hc & Hp & Hi).
      assert (clock_reads (world (exec_call strftime env c st).2)
              = length (logged_args [c]) + clock_reads (world st)) as Hclock.
      { destruct c as [a|]; cbn [Streaming.exec_call].
        - by destruct (log_facts st a) as (_ & -> & _).
        - by destruct (flush_facts st) as (_ & -> & _). }
      rewrite Hclock, Hputs, length_app in Hi.
      exists ((entries_from (clock_reads (world st)) (logged_args [c])
               ++ warnings_of (length (put_log (world st))) (length ws))
              ++ printed), (ws ++ writes).
      assert (logged_args (c :: cs) = logged_args [c] ++ logged_args cs) as ->
        by (by destruct c).
      rewrite entries_from_app, length_app, warnings_of_app. split_and!.
      + by rewrite Hc, Hcons, !app_assoc.
      + by rewrite Hp, Hputs, app_assoc.
      + apply interleaved_app; [apply interleaved_concat|done]. }
  exists printed, writes. split_and!; try done.
  - by apply interleaved_sublist in Hi.
  - intros Hq. rewrite (warnings_of_quiet _ _ Hq) in Hi.
    by apply interleaved_nothing in Hi.
Qed.

End Facts.

Lemma entries_from_now {datetime : Type} (strftime : datetime → string)
    (env1 env2 : @Env datetime) (k : nat) (l : list log_args) :
  now env1 = now env2 →
  entries_from strftime env1 k l = entries_from strftime env2 k l.
Proof.
  intros Hnow. revert k. induction l as [|a l IH]; intros k; [done|].
  cbn. by rewrite IH, Hnow.
Qed.

(** C6, as amended.  When every exception the write raises is an instance
    of [Exception], [flush] always completes without raising and leaves the
    success flag and the failure category as they were; and a run under
    such a sink raises what it raises, and leaves the object it leaves,
    under a sink that never fails with the same clock and the same child:
    no failure of the sink makes a run fail or changes what it records. *)
Theorem recoverable_sink_failures_never_surface
    {datetime : Type} (strftime : datetime → string)
    (duration_1f : datetime → datetime → string)
    (clock : nat → datetime) (sink : nat → option Py.exception)
    (spawn : string → Py.exception + Process) :
  let env := mkEnv clock sink spawn in
  let quiet := mkEnv clock (λ _, None) spawn in
  sink_recoverable env →
  (∀ st : State,
     (flush env st).1 = Return ()
     ∧ success (self (flush env st).2) = success (self st)
     ∧ failure_type (self (flush env st).2) = failure_type (self st))
  ∧ (∀ path fe w0 cmd p,
       spawn cmd = inr p →
       let r := run strftime duration_1f env cmd (mkState (init path fe) w0) in
       let r' :=
         run strftime duration_1f quiet cmd (mkState (init path fe) w0) in
       r.1 = r'.1
       ∧ self r.2 = self r'.2
       ∧ r.1 = (if bool_decide (returncode p = 0%Z) then Return ()
                else Raise (Py.RuntimeError "dbt run failed"))).
Proof.
  intros env quiet Hrec. split.
  - intros st. by apply flush_swallows_Exception.
  - intros path fe w0 cmd p Hp r r'.
    assert (sink_recoverable quiet) as Hquiet by (by intros n e).
    destruct (run_at strftime duration_1f env path fe w0 cmd p Hrec Hp)
      as (st1 & E1 & H1 & Hb1).
    destruct (run_at strftime duration_1f quiet path fe w0 cmd p Hquiet Hp)
      as (st2 & E2 & H2 & Hb2).
    subst r r'. rewrite E1, E2. cbn [fst snd].
    rewrite (session_closed _ _ _ _ _ _ _ _ H1 Hb1).
    rewrite (session_closed _ _ _ _ _ _ _ _ H2 Hb2).
    split; [done|]. split; [|done].
    by rewrite !(entries_from_now strftime env quiet).
Qed.

(** ** The statements at work on the concrete scenario *)

Lemma flaky_recoverable (clock : nat → nat) spawn :
  sink_recoverable (mkEnv clock Demo.flaky spawn).
Proof.
  intros n e. cbn. unfold Demo.flaky.
  destruct (Nat.even n); intros H; by inversion H.
Qed.

Lemma first_matching_line_witness :
  sink_recoverable Demo.env_failing
  ∧ popen Demo.env_failing "dbt run" = inr (mkProcess Demo.lines 1)
  ∧ failure_type
      (self (run Demo.strftime Demo.duration_1f Demo.env_failing "dbt run"
                 Demo.new_session).2)
    = Some COMPILATION.
Proof.
  assert (sink_recoverable Demo.env_failing) as Hrec
    by apply flaky_recoverable.
  split; [exact Hrec|]. split; [reflexivity|].
  destruct (first_matching_line_decides_category
              Demo.strftime Demo.duration_1f Demo.env_failing
              Demo.log_path default_flush_every empty_world "dbt run"
              (mkProcess Demo.lines 1) eq_refl)
    as (_ & _ & Hun & Hfirst & _).
  refine (Hfirst (Hun Hrec)
                 0 ("Compilation Error: syntax" +:+ Py.newline) COMPILATION
                 _ _ _).
  - reflexivity.
  - vm_compute. reflexivity.
  - intros j l Hj. lia.
Defined.

Lemma exit_zero_witness :
  popen Demo.env_passing "dbt run" = inr (mkProcess Demo.lines 0)
  ∧ returncode (mkProcess Demo.lines 0) = 0%Z
  ∧ success
      (self (run Demo.strftime Demo.duration_1f Demo.env_passing "dbt run"
                 Demo.new_session).2)
    = true.
Proof.
  split; [reflexivity|]. split; [reflexivity|].
  exact (proj1 (proj2 (exit_zero_means_success
                  Demo.strftime Demo.duration_1f Demo.env_passing
                  Demo.log_path default_flush_every empty_world "dbt run"
                  (mkProcess Demo.lines 0) eq_refl eq_refl))).
Defined.

Lemma nonzero_exit_witness :
  sink_recoverable Demo.env_failing
  ∧ popen Demo.env_failing "dbt run" = inr (mkProcess Demo.lines 1)
  ∧ returncode (mkProcess Demo.lines 1) ≠ 0%Z
  ∧ ∃ st',
      run Demo.strftime Demo.duration_1f Demo.env_failing "dbt run"
          Demo.new_session
      = (Raise (Py.RuntimeError "dbt run failed"), st')
      ∧ success (self st') = false
      ∧ buffer (self st') = [].
Proof.
  assert (sink_recoverable Demo.env_failing) as Hrec
    by apply flaky_recoverable.
  assert (returncode (mkProcess Demo.lines 1) ≠ 0%Z) as Hrc by (cbn; lia).
  split; [exact Hrec|]. split; [reflexivity|]. split; [exact Hrc|].
  destruct (nonzero_exit_fails_after_finalization
              Demo.strftime Demo.duration_1f Demo.env_failing
              Demo.log_path default_flush_every empty_world "dbt run"
              (mkProcess Demo.lines 1) Hrec eq_refl Hrc)
    as (st' & E & Hsuc & Hbuf & _).
  exists st'. split; [exact E|]. split; [exact Hsuc|exact Hbuf].
Defined.

Lemma flush_persists_witness :
  buffer (self Demo.new_session) = []
  ∧ flush Demo.env_failing Demo.new_session = (Return (), Demo.new_session).
Proof.
  split; [reflexivity|].
  exact (proj1 (flush_persists_everything_logged Demo.strftime
                  Demo.env_failing) Demo.new_session eq_refl).
Defined.

Lemma auto_flush_witness :
  length (replicate 24 (info "compiling model")) = 24
  ∧ put_log
      (world (exec_calls Demo.strftime Demo.env_failing
                (CallLog <$> replicate 24 (info "compiling model"))
                Demo.new_session))
    = [].
Proof.
  split; [reflexivity|].
  exact (proj1 (auto_flush_at_default_threshold
                  Demo.strftime Demo.env_failing Demo.log_path empty_world
                  (replicate 24 (info "compiling model")) (info "done")
                  eq_refl)).
Defined.

Lemma failed_flush_witness :
  buffer (self (Demo.one_line_logged Demo.env_failing)) ≠ []
  ∧ fs_put Demo.env_failing
      (length (put_log (world (Demo.one_line_logged Demo.env_failing))))
    = Some (Py.OSError "lakehouse unavailable")
  ∧ buffer (self (flush Demo.env_failing
                        (Demo.one_line_logged Demo.env_failing)).2) = [].
Proof.
  assert (buffer (self (Demo.one_line_logged Demo.env_failing)) ≠ []) as Hb
    by (vm_compute; discriminate).
  split; [exact Hb|]. split; [reflexivity|].
  exact (proj1 (failed_flush_keeps_the_chunk
                  Demo.strftime Demo.env_failing
                  (Demo.one_line_logged Demo.env_failing)
                  (Py.OSError "lakehouse unavailable") Hb eq_refl)).
Defined.

Lemma recoverable_sink_witness :
  sink_recoverable (mkEnv id Demo.flaky (Demo.spawn 1))
  ∧ (flush (mkEnv id Demo.flaky (Demo.spawn 1))
           (Demo.one_line_logged Demo.env_failing)).1 = Return ().
Proof.
  assert (sink_recoverable (mkEnv id Demo.flaky (Demo.spawn 1))) as Hrec
    by apply flaky_recoverable.
  split; [exact Hrec|].
  exact (proj1 (proj1 (recoverable_sink_failures_never_surface
                         Demo.strftime Demo.duration_1f id Demo.flaky
                         (Demo.spawn 1) Hrec)
                      (Demo.one_line_logged Demo.env_failing))).
Defined.

(** C6, as stated, fails: [except Exception] lets an exception that is not
    an instance of [Exception] through.  A write interrupted by
    [KeyboardInterrupt] makes [flush] raise it, and a run whose child exits
    with code 0 then ends with that exception. *)
Lemma flush_propagates_KeyboardInterrupt :
  fs_put Demo.env_interrupted
    (length (put_log (world (Demo.one_line_logged Demo.env_interrupted))))
  = Some Py.KeyboardInterrupt
  ∧ (flush Demo.env_interrupted
           (Demo.one_line_logged Demo.env_interrupted)).1
    = Raise Py.KeyboardInterrupt
  ∧ popen Demo.env_interrupted "dbt run" = inr (mkProcess Demo.lines 0)
  ∧ (run Demo.strftime Demo.duration_1f Demo.env_interrupted "dbt run"
         Demo.new_session).1
    = Raise Py.KeyboardInterrupt.
Proof. split_and!; reflexivity. Qed.

(** C3, as stated, fails for the same reason.  The child exits with code 1
    and every write is interrupted by [KeyboardInterrupt]: the flush that
    [run] makes before [finish] raises it, so the run ends with
    [KeyboardInterrupt] and not with "dbt run failed", no summary block is
    logged and the remote file is never written.  When the session flushes
    every second line, the interrupt comes in the loop, at the first line
    of the child: then the success flag is still true and no exit-code
    line is logged either. *)
Lemma interrupted_run_skips_finalization :
  popen Demo.env_interrupted_failing "dbt run" = inr (mkProcess Demo.lines 1)
  ∧ returncode (mkProcess Demo.lines 1) ≠ 0%Z
  ∧ (run Demo.strftime Demo.duration_1f Demo.env_interrupted_failing
         "dbt run" Demo.new_session).1
    = Raise Py.KeyboardInterrupt
  ∧ Py.str_in "dbt exited with return code 1"
      (persisted_log
         (self (run Demo.strftime Demo.duration_1f
                    Demo.env_interrupted_failing "dbt run"
                    Demo.new_session).2))
    = true
  ∧ Py.str_in "DBT Run Finished"
      (persisted_log
         (self (run Demo.strftime Demo.duration_1f
                    Demo.env_interrupted_failing "dbt run"
                    Demo.new_session).2))
    = false
  ∧ lakehouse
      (world (run Demo.strftime Demo.duration_1f
                  Demo.env_interrupted_failing "dbt run"
                  Demo.new_session).2) !! Demo.log_path
    = None
  ∧ (run Demo.strftime Demo.duration_1f Demo.env_interrupted_failing
         "dbt run" Demo.eager_session).1
    = Raise Py.KeyboardInterrupt
  ∧ success
      (self (run Demo.strftime Demo.duration_1f
                 Demo.env_interrupted_failing "dbt run"
                 Demo.eager_session).2)
    = true
  ∧ Py.str_in "dbt exited with return code"
      (persisted_log
         (self (run Demo.strftime Demo.duration_1f
                    Demo.env_interrupted_failing "dbt run"
                    Demo.eager_session).2))
    = false.
Proof. split_and!; try (vm_compute; reflexivity). by vm_compute. Qed.

(** What C1 says of an interrupted run.  The session flushes every second
    line and every write is interrupted: the first line of the child, which
    the "Compilation Error" rule matches, is printed and logged, its [log]
    call raises [KeyboardInterrupt], which ends the run, and the line
    never reaches the classifier: no category is recorded. *)
Lemma interrupted_line_is_not_classified :
  (run Demo.strftime Demo.duration_1f Demo.env_interrupted_failing
       "dbt run" Demo.eager_session).1
  = Raise Py.KeyboardInterrupt
  ∧ failure_type
      (self (run Demo.strftime Demo.duration_1f Demo.env_interrupted_failing
                 "dbt run" Demo.eager_session).2)
    = None
  ∧ Py.str_in "Compilation Error: syntax"
      (persisted_log
         (self (run Demo.strftime Demo.duration_1f
                    Demo.env_interrupted_failing "dbt run"
                    Demo.eager_session).2))
    = true.
Proof. split_and!; vm_compute; reflexivity. Qed.

Lemma spawn_failure_witness :
  sink_recoverable Demo.env_unspawnable
  ∧ popen Demo.env_unspawnable "dbt run"
    = inl (Py.OSError "Cannot allocate memory")
  ∧ ∃ st',
      run Demo.strftime Demo.duration_1f Demo.env_unspawnable "dbt run"
          Demo.new_session
      = (Raise (Py.OSError "Cannot allocate memory"), st')
      ∧ clock_reads (world st') = 2.
Proof.
  assert (sink_recoverable Demo.env_unspawnable) as Hrec
    by apply flaky_recoverable.
  split; [exact Hrec|]. split; [reflexivity|].
  destruct (spawn_failure_propagates
              Demo.strftime Demo.duration_1f Demo.env_unspawnable
              Demo.new_session "dbt run"
              (Py.OSError "Cannot allocate memory") Hrec eq_refl)
    as (st' & E & _ & _ & _ & _ & Hk).
  exists st'. split; [exact E|exact Hk].
Defined.

Lemma finish_before_run_witness :
  start_time (self Demo.new_session) = None
  ∧ ∃ msg,
      finish Demo.strftime Demo.duration_1f Demo.env_passing Demo.new_session
      = (Raise (Py.TypeError msg), tick Demo.new_session).
Proof.
  split; [reflexivity|].
  destruct (finish_before_run_raises
              Demo.strftime Demo.duration_1f Demo.env_passing
              Demo.new_session eq_refl) as (msg & E & _).
  exists msg. exact E.
Defined.

Lemma failed_session_witness :
  sink_recoverable Demo.env_passing
  ∧ popen Demo.env_passing "dbt run" = inr (mkProcess Demo.lines 0)
  ∧ returncode (mkProcess Demo.lines 0) = 0%Z
  ∧ success (self Demo.failed_session) = false
  ∧ ∃ st',
      run Demo.strftime Demo.duration_1f Demo.env_passing "dbt run"
          Demo.failed_session
      = (Raise (Py.RuntimeError "dbt run failed"), st')
      ∧ success (self st') = false.
Proof.
  assert (sink_recoverable Demo.env_passing) as Hrec
    by apply flaky_recoverable.
  assert (success (self Demo.failed_session) = false) as Hsuc
    by (vm_compute; reflexivity).
  split; [exact Hrec|]. split; [reflexivity|]. split; [reflexivity|].
  split; [exact Hsuc|].
  destruct (failed_session_fails_later_runs
              Demo.strftime Demo.duration_1f Demo.env_passing
              Demo.failed_session "dbt run" (mkProcess Demo.lines 0)
              Hrec eq_refl eq_refl Hsuc)
    as (st' & E & Hs & _).
  exists st'. split; [exact E|exact Hs].
Defined.

Lemma session_state_witness :
  sink_recoverable Demo.env_passing
  ∧ popen Demo.env_passing "dbt run" = inr (mkProcess Demo.lines 0)
  ∧ failure_type (self Demo.failed_session) = Some COMPILATION
  ∧ failure_type
      (self (run Demo.strftime Demo.duration_1f Demo.env_passing "dbt run"
                 Demo.failed_session).2)
    = Some COMPILATION.
Proof.
  assert (sink_recoverable Demo.env_passing) as Hrec
    by apply flaky_recoverable.
  assert (failure_type (self Demo.failed_session) = Some COMPILATION) as Hft
    by (vm_compute; reflexivity).
  split; [exact Hrec|]. split; [reflexivity|]. split; [exact Hft|].
  exact (proj1 (session_state_carries_over
                  Demo.strftime Demo.duration_1f Demo.env_passing
                  Demo.failed_session "dbt run" (mkProcess Demo.lines 0)
                  COMPILATION Hrec eq_refl Hft)).
Defined.

Lemma zero_exit_witness :
  sink_recoverable Demo.env_passing
  ∧ popen Demo.env_passing "dbt run" = inr (mkProcess Demo.lines 0)
  ∧ returncode (mkProcess Demo.lines 0) = 0%Z
  ∧ ∃ st',
      run Demo.strftime Demo.duration_1f Demo.env_passing "dbt run"
          Demo.new_session
      = (Return (), st')
      ∧ buffer (self st') = [].
Proof.
  assert (sink_recoverable Demo.env_passing) as Hrec
    by apply flaky_recoverable.
  split; [exact Hrec|]. split; [reflexivity|]. split; [reflexivity|].
  destruct (zero_exit_finalizes
              Demo.strftime Demo.duration_1f Demo.env_passing
              Demo.log_path default_flush_every empty_world "dbt run"
              (mkProcess Demo.lines 0) Hrec eq_refl eq_refl)
    as (st' & E & _ & Hb & _).
  exists st'. split; [exact E|exact Hb].
Defined.

Lemma threshold_witness :
  0 < 25
  ∧ length
      (buffer
         (self (exec_calls Demo.strftime Demo.env_failing
                  (CallLog <$> replicate 60 (info "compiling model"))
                  (mkState (init Demo.log_path (Z.of_nat 25)) empty_world))))
    = 10.
Proof.
  assert (0 < 25) as Hn by lia.
  split; [exact Hn|].
  exact (proj1 (writes_and_buffer_by_threshold
                  Demo.strftime Demo.env_failing Demo.log_path 25 empty_world
                  (replicate 60 (info "compiling model")) Hn)).
Defined.

Lemma unbuffered_witness :
  (flush_every (self (mkState (@init nat Demo.log_path 0) empty_world))
   ≤ 1)%Z
  ∧ length
      (put_log
         (world (exec_calls Demo.strftime Demo.env_failing
                   (CallLog <$> replicate 3 (info "compiling model"))
                   (mkState (init Demo.log_path 0) empty_world))))
    = 3.
Proof.
  assert (flush_every (self (mkState (@init nat Demo.log_path 0)
                                     empty_world)) ≤ 1)%Z as Hfe
    by (cbn; lia).
  split; [exact Hfe|].
  exact (proj1 (threshold_at_most_one_writes_every_line
                  Demo.strftime Demo.env_failing
                  (replicate 3 (info "compiling model"))
                  (mkState (init Demo.log_path 0) empty_world) Hfe)).
Defined.

Lemma writes_extend_witness :
  put_log empty_world = []
  ∧ ∀ i p c,
      put_log
        (world (exec_calls Demo.strftime Demo.env_failing
                  [CallLog (info "compiling model"); CallFlush;
                   CallLog (info "done"); CallFlush]
                  Demo.new_session)) !! i
      = Some (p, c) →
      p = Demo.log_path.
Proof.
  split; [reflexivity|].
  intros i p c Hi.
  exact (proj1 (proj1 (writes_only_extend
                         Demo.strftime Demo.env_failing Demo.log_path
                         default_flush_every empty_world
                         [CallLog (info "compiling model"); CallFlush;
                          CallLog (info "done"); CallFlush] eq_refl)
                      i p c Hi)).
Defined.

Lemma console_witness :
  (∀ n, fs_put Demo.env_quiet n = None)
  ∧ ∃ printed,
      console
        (world (exec_calls Demo.strftime Demo.env_quiet
                  [CallLog (info "compiling model"); CallFlush]
                  Demo.new_session))
      = console (world Demo.new_session) ++ printed
      ∧ printed
        = entries_from Demo.strftime Demo.env_quiet 0
            [info "compiling model"].
Proof.
  assert (∀ n, fs_put Demo.env_quiet n = None) as Hq by (intros n; reflexivity).
  split; [exact Hq|].
  destruct (console_mirrors_log
              Demo.strftime Demo.env_quiet
              [CallLog (info "compiling model"); CallFlush] Demo.new_session)
    as (printed & writes & E & _ & _ & _ & Hp).
  exists printed. split; [exact E|exact (Hp Hq)].
Defined.

End StreamingFacts.

(* ===================================================================== *)
(** * Facts about the configuration *)
(* ===================================================================== *)

Module ConfigFacts.
Import Config.

Lemma str_truthy_nonempty (s : string) : s ≠ "" → Py.str_truthy s = true.
Proof.
  intros H. unfold Py.str_truthy. apply negb_true_iff.
  by apply String.eqb_neq.
Qed.

Section Facts.

Variable getcwd : string.
Variable expanduser : string → string.
Variable json_dumps : Py.value → string.

Local Abbreviation init := (Config.init getcwd expanduser).
Local Abbreviation get_dbt_args := (Config.get_dbt_args json_dumps).

(** The arguments up to [--target]. *)
Lemma get_dbt_args_vars (c : DbtConfig) :
  get_dbt_args c
  = get_dbt_args
      (mkDbtConfig (project_dir c) (profiles_dir c) (target c) (Py.PDict []))
    ++ (if Py.truthy (vars c) then ["--vars"; json_dumps (vars c)] else []).
Proof.
  unfold Config.get_dbt_args. cbn.
  destruct (Py.truthy (vars c)); [done|by rewrite app_nil_r].
Qed.

(** C8.  A configuration built without overrides has target "dev", the
    working directory as project directory, the expanded "~/.dbt" as
    profiles directory, both non-empty, and the empty dictionary as
    variables; its arguments are [--project-dir], [--profiles-dir] and
    [--target] with these values and nothing else.  For any configuration,
    the arguments end with one [--vars] flag and the JSON text of the
    variables when there are some (when [vars] is truthy), and carry
    nothing after [--target] when there are none. *)
Theorem default_configuration :
  getcwd ≠ "" →
  expanduser "~/.dbt" ≠ "" →
  let c := init None None None None in
  target c = "dev"
  ∧ project_dir c = getcwd ∧ project_dir c ≠ ""
  ∧ profiles_dir c = expanduser "~/.dbt" ∧ profiles_dir c ≠ ""
  ∧ vars c = Py.PDict []
  ∧ get_dbt_args c
    = [ "--project-dir"; getcwd;
        "--profiles-dir"; expanduser "~/.dbt";
        "--target"; "dev" ]
  ∧ (∀ x d,
       get_dbt_args (init None None None (Some (Py.PDict (x :: d))))
       = get_dbt_args c ++ ["--vars"; json_dumps (Py.PDict (x :: d))])
  ∧ (∀ c' : DbtConfig,
       get_dbt_args c'
       = get_dbt_args
           (mkDbtConfig (project_dir c') (profiles_dir c') (target c')
                        (Py.PDict []))
         ++ if Py.truthy (vars c')
            then ["--vars"; json_dumps (vars c')]
            else []).
Proof.
  intros Hcwd Hhome c.
  assert (get_dbt_args c
          = [ "--project-dir"; getcwd;
              "--profiles-dir"; expanduser "~/.dbt";
              "--target"; "dev" ]) as Hargs.
  { unfold Config.get_dbt_args. cbn.
    by rewrite (str_truthy_nonempty _ Hcwd), (str_truthy_nonempty _ Hhome). }
  split_and!; try done.
  intros c'. by rewrite get_dbt_args_vars at 1.
Qed.

(** ** Construction and the dictionary form *)

Local Abbreviation from_dict := (Config.from_dict getcwd expanduser).

Lemma or_str_given (s d : string) : s ≠ "" → Py.or_str (Some s) d = s.
Proof. intros H. unfold Py.or_str. by rewrite (str_truthy_nonempty _ H). Qed.

Lemma or_str_nonempty (x : option string) (d : string) :
  d ≠ "" → Py.or_str x d ≠ "".
Proof.
  intros Hd. destruct x as [s|]; [|done]. cbn.
  destruct (Py.str_truthy s) eqn:Hs; [|done].
  intros ->. by vm_compute in Hs.
Qed.

Lemma to_dict_lookup (c : DbtConfig) :
  to_dict c !! "project_dir" = Some (Py.PStr (project_dir c))
  ∧ to_dict c !! "profiles_dir" = Some (Py.PStr (profiles_dir c))
  ∧ to_dict c !! "target" = Some (Py.PStr (target c))
  ∧ to_dict c !! "vars" = Some (vars c).
Proof. by split_and!. Qed.

(** X10.  [from_dict] undoes [to_dict] on every configuration whose three
    string fields are non-empty and whose [vars] is truthy or the empty
    dictionary, as every dictionary is; [__init__] leaves only such [vars],
    and such string fields under a non-empty working and home directory. *)
Theorem config_dict_round_trip (c : DbtConfig) :
  project_dir c ≠ "" →
  profiles_dir c ≠ "" →
  target c ≠ "" →
  (Py.truthy (vars c) = false → vars c = Py.PDict []) →
  from_dict (to_dict c) = Some c
  ∧ (∀ items, Py.truthy (Py.PDict items) = false →
              Py.PDict items = Py.PDict [])
  ∧ (∀ pd pr t vs,
       Py.truthy (vars (init pd pr t vs)) = false →
       vars (init pd pr t vs) = Py.PDict []).
Proof.
  intros Hpd Hpr Ht Hvs. split_and!.
  - destruct c as [pd pr t vs]. cbn in *.
    unfold Config.from_dict.
    destruct (to_dict_lookup (mkDbtConfig pd pr t vs)) as (-> & -> & -> & ->).
    cbn.
    unfold Config.init.
    rewrite (or_str_given _ _ Hpd), (or_str_given _ _ Hpr),
      (or_str_given _ _ Ht).
    destruct (Py.truthy vs) eqn:Hv; [done|]. by rewrite (Hvs eq_refl).
  - intros items Hf. by destruct items.
  - intros pd pr t vs. cbn. destruct vs as [v|]; [|done].
    destruct (Py.truthy v) eqn:Hv; [|done]. by rewrite Hv.
Qed.

(** X11.  Under a non-empty working directory and a non-empty expanded home
    directory, [__init__] never leaves a string field empty, whatever the
    overrides: an empty override counts as none.  So the arguments of a
    constructed configuration always carry the three flags, each followed
    by its value, in this order. *)
Theorem constructed_config_renders_three_flags
    (pd pr t : option string) (vs : option Py.value) :
  getcwd ≠ "" →
  expanduser "~/.dbt" ≠ "" →
  let c := init pd pr t vs in
  project_dir c ≠ "" ∧ profiles_dir c ≠ "" ∧ target c ≠ ""
  ∧ init (Some "") (Some "") (Some "") (Some (Py.PDict []))
    = init None None None None
  ∧ get_dbt_args c
    = [ "--project-dir"; project_dir c;
        "--profiles-dir"; profiles_dir c;
        "--target"; target c ]
      ++ (if Py.truthy (vars c)
          then ["--vars"; json_dumps (vars c)]
          else [])
  ∧ (∀ pd pr t vs,
       init (Some "") pr t vs = init None pr t vs
       ∧ init pd (Some "") t vs = init pd None t vs
       ∧ init pd pr (Some "") vs = init pd pr None vs
       ∧ init pd pr t (Some (Py.PDict [])) = init pd pr t None).
Proof.
  intros Hcwd Hhome c.
  assert (project_dir c ≠ "") as Hpd by (by apply or_str_nonempty).
  assert (profiles_dir c ≠ "") as Hpr by (by apply or_str_nonempty).
  assert (target c ≠ "") as Ht by (by apply or_str_nonempty).
  split_and!; try done.
  unfold Config.get_dbt_args.
  rewrite (str_truthy_nonempty _ Hpd), (str_truthy_nonempty _ Hpr),
    (str_truthy_nonempty _ Ht).
  by destruct (Py.truthy (vars c)).
Qed.

End Facts.

Lemma default_configuration_witness :
  "/lakehouse/default/Files/project" ≠ ""
  ∧ (λ path : string, "/home/trusted-service-user/.dbt") "~/.dbt" ≠ ""
  ∧ get_dbt_args (λ _, "{}")
      (init "/lakehouse/default/Files/project"
            (λ _, "/home/trusted-service-user/.dbt") None None None None)
    = [ "--project-dir"; "/lakehouse/default/Files/project";
        "--profiles-dir"; "/home/trusted-service-user/.dbt";
        "--target"; "dev" ].
Proof.
  assert ("/lakehouse/default/Files/project" ≠ "") as H1 by discriminate.
  assert ((λ path : string, "/home/trusted-service-user/.dbt") "~/.dbt" ≠ "")
    as H2 by discriminate.
  split; [exact H1|]. split; [exact H2|].
  destruct (default_configuration "/lakehouse/default/Files/project"
              (λ _, "/home/trusted-service-user/.dbt") (λ _, "{}") H1 H2)
    as (_ & _ & _ & _ & _ & _ & Hargs & _).
  exact Hargs.
Defined.

Lemma round_trip_witness :
  project_dir (mkDbtConfig "/project" "/profiles" "prod"
                 (Py.PDict [("run_date", Py.PStr "today")])) ≠ ""
  ∧ profiles_dir (mkDbtConfig "/project" "/profiles" "prod"
                    (Py.PDict [("run_date", Py.PStr "today")])) ≠ ""
  ∧ target (mkDbtConfig "/project" "/profiles" "prod"
              (Py.PDict [("run_date", Py.PStr "today")])) ≠ ""
  ∧ (Py.truthy (vars (mkDbtConfig "/project" "/profiles" "prod"
                        (Py.PDict [("run_date", Py.PStr "today")]))) = false →
     vars (mkDbtConfig "/project" "/profiles" "prod"
             (Py.PDict [("run_date", Py.PStr "today")])) = Py.PDict [])
  ∧ from_dict "/cwd" (λ _, "/home/trusted-service-user/.dbt")
      (to_dict (mkDbtConfig "/project" "/profiles" "prod"
                  (Py.PDict [("run_date", Py.PStr "today")])))
    = Some (mkDbtConfig "/project" "/profiles" "prod"
              (Py.PDict [("run_date", Py.PStr "today")])).
Proof.
  assert (project_dir (mkDbtConfig "/project" "/profiles" "prod"
                         (Py.PDict [("run_date", Py.PStr "today")])) ≠ "") as H1
    by discriminate.
  assert (profiles_dir (mkDbtConfig "/project" "/profiles" "prod"
                          (Py.PDict [("run_date", Py.PStr "today")])) ≠ "") as H2
    by discriminate.
  assert (target (mkDbtConfig "/project" "/profiles" "prod"
                    (Py.PDict [("run_date", Py.PStr "today")])) ≠ "") as H3
    by discriminate.
  assert (Py.truthy (vars (mkDbtConfig "/project" "/profiles" "prod"
                             (Py.PDict [("run_date", Py.PStr "today")])))
          = false →
          vars (mkDbtConfig "/project" "/profiles" "prod"
                  (Py.PDict [("run_date", Py.PStr "today")])) = Py.PDict [])
    as H4 by discriminate.
  split; [exact H1|]. split; [exact H2|]. split; [exact H3|].
  split; [exact H4|].
  exact (proj1 (config_dict_round_trip "/cwd"
                  (λ _, "/home/trusted-service-user/.dbt")
                  (mkDbtConfig "/project" "/profiles" "prod"
                     (Py.PDict [("run_date", Py.PStr "today")]))
                  H1 H2 H3 H4)).
Defined.

Lemma three_flags_witness :
  "/lakehouse/default/Files/project" ≠ ""
  ∧ (λ path : string, "/home/trusted-service-user/.dbt") "~/.dbt" ≠ ""
  ∧ get_dbt_args (λ _, "{}")
      (init "/lakehouse/default/Files/project"
            (λ _, "/home/trusted-service-user/.dbt")
            (Some "") None (Some "prod") None)
    = [ "--project-dir"; "/lakehouse/default/Files/project";
        "--profiles-dir"; "/home/trusted-service-user/.dbt";
        "--target"; "prod" ].
Proof.
  assert ("/lakehouse/default/Files/project" ≠ "") as H1 by discriminate.
  assert ((λ path : string, "/home/trusted-service-user/.dbt") "~/.dbt" ≠ "")
    as H2 by discriminate.
  split; [exact H1|]. split; [exact H2|].
  destruct (constructed_config_renders_three_flags
              "/lakehouse/default/Files/project"
              (λ _, "/home/trusted-service-user/.dbt") (λ _, "{}")
              (Some "") None (Some "prod") None H1 H2)
    as (_ & _ & _ & _ & Hargs & _).
  exact Hargs.
Defined.

End ConfigFacts.

(* ===================================================================== *)
(** * Facts about variable libraries *)
(* ===================================================================== *)

Module VariableLibraryFacts.
Import VariableLibrary.

Lemma str_drop_app (p r : string) : Py.str_drop (String.length p) (p +:+ r) = r.
Proof. induction p as [|c p IH]; [by destruct r|done]. Qed.

(** [key] starts with [prefix] exactly when it is [prefix] followed by some
    remainder, and the remainder is what [load_from_fabric] lower-cases. *)
Lemma startswith_split (key prefix : string) :
  Py.startswith key prefix = true ↔ ∃ rest, key = prefix +:+ rest.
Proof. apply PyFacts.prefix_spec. Qed.

Section Facts.

Variable upper lower : string → string.
Variable environ : list (string * string).
Variable json_loads : string → Py.exception + Py.value.

Local Abbreviation load_entry := (VariableLibrary.load_entry lower).
Local Abbreviation load_from_fabric :=
  (VariableLibrary.load_from_fabric upper lower environ).
Local Abbreviation load_dbt_config :=
  (VariableLibrary.load_dbt_config upper lower environ json_loads).

Lemma load_entry_prefixed (prefix rest value : string)
    (variables : gmap string string) :
  load_entry prefix variables (prefix +:+ rest, value)
  = <[lower rest := value]> variables.
Proof.
  unfold VariableLibrary.load_entry.
  rewrite (proj2 (startswith_split _ _)) by by exists rest.
  by rewrite str_drop_app.
Qed.

Lemma load_entry_other (prefix key value : string)
    (variables : gmap string string) :
  Py.startswith key prefix = false →
  load_entry prefix variables (key, value) = variables.
Proof. intros H. unfold VariableLibrary.load_entry. by rewrite H. Qed.

(** Every binding of the result was in the map before or comes from a
    prefixed entry. *)
Lemma load_sound (prefix : string) (items : list (string * string))
    (acc : gmap string string) (name value : string) :
  foldl (load_entry prefix) acc items !! name = Some value →
  acc !! name = Some value
  ∨ ∃ rest, (prefix +:+ rest, value) ∈ items ∧ name = lower rest.
Proof.
  revert acc. induction items as [|[key v] items IH]; intros acc H; [by left|].
  cbn [foldl] in H. apply IH in H as [H|(rest & Hin & ->)].
  - destruct (Py.startswith key prefix) eqn:Hk.
    + apply startswith_split in Hk as [rest ->].
      rewrite load_entry_prefixed in H.
      destruct (decide (lower rest = name)) as [<-|Hne].
      * rewrite lookup_insert_eq in H. injection H as ->.
        right. exists rest. split; [apply list_elem_of_here|done].
      * rewrite lookup_insert_ne in H by done. by left.
    + rewrite load_entry_other in H by done. by left.
  - right. exists rest. split; [by apply list_elem_of_further|done].
Qed.

(** The last prefixed entry for a name decides its value. *)
Lemma load_last_wins (prefix : string) (before after : list (string * string))
    (acc : gmap string string) (rest value : string) :
  (∀ rest' value', (prefix +:+ rest', value') ∈ after →
                   lower rest' ≠ lower rest) →
  foldl (load_entry prefix) acc (before ++ (prefix +:+ rest, value) :: after)
    !! lower rest
  = Some value.
Proof.
  intros Hafter. rewrite foldl_app. cbn [foldl].
  rewrite load_entry_prefixed.
  generalize (foldl (load_entry prefix) acc before). intros m.
  assert (<[lower rest := value]> m !! lower rest = Some value) as Hm
    by apply lookup_insert_eq.
  revert Hm. generalize (<[lower rest := value]> m). clear m.
  induction after as [|[key v] after IH]; intros m Hm; [done|].
  cbn [foldl]. apply IH.
  - intros rest' value' Hin. apply (Hafter rest' value').
    by apply list_elem_of_further.
  - destruct (Py.startswith key prefix) eqn:Hk.
    + apply startswith_split in Hk as [rest' ->].
      rewrite load_entry_prefixed, lookup_insert_ne; [done|].
      apply (Hafter rest' v), list_elem_of_here.
    + by rewrite load_entry_other.
Qed.

Lemma load_keeps_keys (prefix : string) (items : list (string * string))
    (acc : gmap string string) (name : string) :
  is_Some (acc !! name) →
  is_Some (foldl (load_entry prefix) acc items !! name).
Proof.
  revert acc. induction items as [|[key v] items IH]; intros acc Hacc; [done|].
  cbn [foldl]. apply IH. unfold VariableLibrary.load_entry.
  destruct (Py.startswith key prefix); [|done].
  rewrite lookup_insert. by case_decide.
Qed.

(** Every prefixed entry makes its name a key of the result. *)
Lemma load_complete (prefix : string) (items : list (string * string))
    (acc : gmap string string) (rest value : string) :
  (prefix +:+ rest, value) ∈ items →
  is_Some (foldl (load_entry prefix) acc items !! lower rest).
Proof.
  revert acc. induction items as [|[key v] items IH]; intros acc Hin.
  - by apply elem_of_nil in Hin.
  - cbn [foldl]. apply elem_of_cons in Hin as [Heq|Hin]; [|by apply IH].
    injection Heq as <- <-. rewrite load_entry_prefixed.
    apply load_keeps_keys. rewrite lookup_insert_eq. by eexists.
Qed.

Lemma load_dbt_config_self (self : VariableLibraryManager) :
  (load_dbt_config self).2 = (load_from_fabric self).2.
Proof.
  unfold VariableLibrary.load_dbt_config.
  destruct (load_from_fabric self) as [variables self'].
  destruct (variables !! "vars") as [text|]; [|done].
  destruct (json_loads text) as [e|parsed]; [|done]. by destruct e.
Qed.

(** C7.  [load_dbt_config] loads, as the variables of the library, exactly
    the entries of the environment whose key is the upper-cased library
    name, an underscore and a remainder: each variable is the lower-cased
    remainder of such an entry with that entry's value, each such entry
    gives a variable, and the last entry for a name decides its value.
    When the variable "vars" holds a text that is not JSON, the call
    returns a configuration (it raises nothing) in which "vars" is the
    empty mapping and the three directory and target keys are copied from
    the variables. *)
Theorem load_dbt_config_exposes_prefixed_entries
    (self : VariableLibraryManager) :
  let prefix := upper (library_name self) +:+ "_" in
  let r := load_dbt_config self in
  let variables := _variables r.2 in
  (load_from_fabric self).1 = variables
  ∧ (∀ name value,
       variables !! name = Some value →
       ∃ rest, (prefix +:+ rest, value) ∈ environ ∧ name = lower rest)
  ∧ (∀ rest value,
       (prefix +:+ rest, value) ∈ environ →
       is_Some (variables !! lower rest))
  ∧ (∀ before rest value after,
       environ = before ++ (prefix +:+ rest, value) :: after →
       (∀ rest' value', (prefix +:+ rest', value') ∈ after →
                        lower rest' ≠ lower rest) →
       variables !! lower rest = Some value)
  ∧ (∀ text msg,
       variables !! "vars" = Some text →
       json_loads text = inl (Py.JSONDecodeError msg) →
       ∃ config,
         r.1 = inr config
         ∧ config !! "vars" = Some (Py.PDict [])
         ∧ config !! "project_dir" = Py.PStr <$> variables !! "project_dir"
         ∧ config !! "profiles_dir" = Py.PStr <$> variables !! "profiles_dir"
         ∧ config !! "target" = Py.PStr <$> variables !! "target").
Proof.
  intros prefix r variables.
  assert (variables = foldl (load_entry prefix) ∅ environ) as Hvars.
  { subst variables r. by rewrite load_dbt_config_self. }
  split_and!.
  - by rewrite Hvars.
  - intros name value H. rewrite Hvars in H.
    by apply load_sound in H as [H|H].
  - intros rest value Hin. rewrite Hvars. by apply (load_complete _ _ _ _ value).
  - intros before rest value after -> Hafter. rewrite Hvars.
    by apply load_last_wins.
  - intros text msg Htext Hjson. subst r.
    unfold VariableLibrary.load_dbt_config.
    unfold VariableLibrary.load_from_fabric.
    change (prefix_of upper self) with prefix.
    rewrite <- Hvars, Htext, Hjson.
    eexists. split; [reflexivity|].
    unfold copy_key.
    destruct (variables !! "project_dir"), (variables !! "profiles_dir"),
      (variables !! "target"); by simplify_map_eq.
Qed.

(** ** The cache and the configuration keys *)

(** X12.  A variable set by hand is read back, other variables are untouched and
    a missing one reads as the default; but [load_from_fabric] replaces the
    cache instead of merging into it, so a variable set by hand is gone
    after a load unless the environment holds it. *)
Theorem set_variable_then_get (self : VariableLibraryManager)
    (key value : string) (default : option string) :
  get_variable (set_variable self key value) key default = Some value
  ∧ (∀ other, other ≠ key →
       get_variable (set_variable self key value) other default
       = get_variable self other default)
  ∧ (_variables self !! key = None → get_variable self key default = default)
  ∧ (load_from_fabric (set_variable self key value)).2
    = (load_from_fabric self).2
  ∧ ((∀ rest v, (prefix_of upper self +:+ rest, v) ∈ environ →
                lower rest ≠ key) →
     get_variable (load_from_fabric (set_variable self key value)).2
                  key default
     = default).
Proof.
  split_and!.
  - unfold get_variable, set_variable. cbn. by rewrite lookup_insert_eq.
  - intros other Hne. unfold get_variable, set_variable. cbn.
    by rewrite lookup_insert_ne.
  - intros H. unfold get_variable. by rewrite H.
  - done.
  - intros Hnone. unfold get_variable. cbn.
    change (prefix_of upper (set_variable self key value))
      with (prefix_of upper self).
    destruct (foldl (load_entry (prefix_of upper self)) ∅ environ !! key)
      as [v|] eqn:Hv; [|done].
    apply load_sound in Hv as [Hv|(rest & Hin & ->)]; [done|].
    by destruct (Hnone rest v Hin).
Qed.

Lemma load_nothing (prefix : string) (items : list (string * string))
    (acc : gmap string string) :
  (∀ key v, (key, v) ∈ items → Py.startswith key prefix = false) →
  foldl (load_entry prefix) acc items = acc.
Proof.
  revert acc. induction items as [|[key v] items IH]; intros acc H; [done|].
  cbn [foldl]. rewrite load_entry_other by (apply (H key v), list_elem_of_here).
  apply IH. intros k' v' Hin. apply (H k' v'). by apply list_elem_of_further.
Qed.

Lemma copied_keys (variables : gmap string string) :
  let config :=
    copy_key "target" variables
      (copy_key "profiles_dir" variables (copy_key "project_dir" variables ∅)) in
  config !! "project_dir" = Py.PStr <$> variables !! "project_dir"
  ∧ config !! "profiles_dir" = Py.PStr <$> variables !! "profiles_dir"
  ∧ config !! "target" = Py.PStr <$> variables !! "target"
  ∧ ∀ key, key ≠ "project_dir" → key ≠ "profiles_dir" → key ≠ "target" →
           config !! key = None.
Proof.
  cbv zeta. unfold copy_key.
  destruct (variables !! "project_dir"), (variables !! "profiles_dir"),
    (variables !! "target"); cbn; split_and!; try done;
    intros key H1 H2 H3; by simplify_map_eq.
Qed.

Lemma load_dbt_config_shape (self : VariableLibraryManager)
    (config : gmap string Py.value) :
  let r := load_dbt_config self in
  let variables := _variables r.2 in
  r.1 = inr config →
  (∀ key, key ≠ "project_dir" → key ≠ "profiles_dir" →
          key ≠ "target" → key ≠ "vars" → config !! key = None)
  ∧ config !! "project_dir" = Py.PStr <$> variables !! "project_dir"
  ∧ config !! "profiles_dir" = Py.PStr <$> variables !! "profiles_dir"
  ∧ config !! "target" = Py.PStr <$> variables !! "target"
  ∧ (is_Some (config !! "vars") ↔ is_Some (variables !! "vars")).
Proof.
  intros r variables Hr.
  assert (variables = foldl (load_entry (prefix_of upper self)) ∅ environ)
    as Hvars.
  { subst variables r. by rewrite load_dbt_config_self. }
  subst r.
  unfold VariableLibrary.load_dbt_config in Hr.
  unfold VariableLibrary.load_from_fabric in Hr.
  rewrite <- Hvars in Hr.
  destruct (copied_keys variables) as (H1 & H2 & H3 & H4).
  cbv zeta in H1, H2, H3, H4.
  destruct (variables !! "vars") as [text|] eqn:Htext.
  - assert (∃ parsed, config
              = <["vars" := parsed]>
                  (copy_key "target" variables
                     (copy_key "profiles_dir" variables
                        (copy_key "project_dir" variables ∅))))
      as [parsed ->].
    { destruct (json_loads text) as [e|parsed]; [destruct e|];
        cbn in Hr; try done; injection Hr as <-; by eexists. }
    rewrite !lookup_insert_ne by done. rewrite lookup_insert_eq.
    split_and!; try done; try (split; intros _; by eexists).
    intros key K1 K2 K3 K4. rewrite lookup_insert_ne by done.
    by apply H4.
  - cbn in Hr. injection Hr as <-.
    split_and!; try done;
      try (rewrite (H4 "vars") by done; split; by intros [? ?]).
    intros key K1 K2 K3 _. by apply H4.
Qed.

(** X13.  The dictionary [load_dbt_config] returns has no key besides
    "project_dir", "profiles_dir", "target" and "vars": any other variable
    of the library is loaded but not copied.  Each of the three string
    keys is there exactly when the variable is, with its value, and "vars"
    exactly when the variable "vars" is.  When no key of the environment
    has the prefix, the dictionary is empty and so are the variables. *)
Theorem load_dbt_config_keys (self : VariableLibraryManager) :
  let r := load_dbt_config self in
  let variables := _variables r.2 in
  (∀ config,
     r.1 = inr config →
     (∀ key, key ≠ "project_dir" → key ≠ "profiles_dir" →
             key ≠ "target" → key ≠ "vars" → config !! key = None)
     ∧ config !! "project_dir" = Py.PStr <$> variables !! "project_dir"
     ∧ config !! "profiles_dir" = Py.PStr <$> variables !! "profiles_dir"
     ∧ config !! "target" = Py.PStr <$> variables !! "target"
     ∧ (is_Some (config !! "vars") ↔ is_Some (variables !! "vars")))
  ∧ ((∀ key v, (key, v) ∈ environ →
               Py.startswith key (prefix_of upper self) = false) →
     r = (inr ∅, mkManager (library_name self) ∅)).
Proof.
  intros r variables. split.
  - intros config. apply load_dbt_config_shape.
  - intros Hnone. subst r.
    unfold VariableLibrary.load_dbt_config, VariableLibrary.load_from_fabric.
    by rewrite (load_nothing _ _ _ Hnone).
Qed.

(** X14.  When the variable "vars" holds a text that [json.loads] accepts, the
    configuration carries the parsed value under "vars", whatever its type;
    when [json.loads] raises anything but [JSONDecodeError], the exception
    leaves [load_dbt_config], and the variables have been stored all the
    same. *)
Theorem load_dbt_config_vars (self : VariableLibraryManager) (text : string) :
  let r := load_dbt_config self in
  _variables r.2 !! "vars" = Some text →
  (∀ parsed, json_loads text = inr parsed →
             ∃ config, r.1 = inr config ∧ config !! "vars" = Some parsed)
  ∧ (∀ e, json_loads text = inl e →
          (∀ msg, e ≠ Py.JSONDecodeError msg) →
          r.1 = inl e ∧ r.2 = (load_from_fabric self).2).
Proof.
  intros r Htext. subst r. rewrite load_dbt_config_self in Htext.
  unfold VariableLibrary.load_dbt_config.
  destruct (load_from_fabric self) as [variables self'] eqn:Hload.
  assert (variables = _variables self') as Hv.
  { unfold VariableLibrary.load_from_fabric in Hload. by injection Hload as <- <-. }
  cbn in Htext. rewrite <- Hv in Htext. rewrite Htext. split.
  - intros parsed ->. eexists. split; [done|]. apply lookup_insert_eq.
  - intros e -> Hother. destruct e; try done. by destruct (Hother msg).
Qed.

End Facts.

Lemma load_dbt_config_witness :
  _variables
    (load_dbt_config Py.ascii_upper Py.ascii_lower Demo.environ
       Demo.json_loads (init None)).2 !! "vars"
  = Some "{run_date: today"
  ∧ Demo.json_loads "{run_date: today"
    = inl (Py.JSONDecodeError
             "Expecting property name enclosed in double quotes")
  ∧ ∃ config,
      (load_dbt_config Py.ascii_upper Py.ascii_lower Demo.environ
         Demo.json_loads (init None)).1 = inr config
      ∧ config !! "vars" = Some (Py.PDict []).
Proof.
  assert (_variables
            (load_dbt_config Py.ascii_upper Py.ascii_lower Demo.environ
               Demo.json_loads (init None)).2 !! "vars"
          = Some "{run_date: today") as Hvars by (vm_compute; reflexivity).
  split; [exact Hvars|]. split; [reflexivity|].
  destruct (load_dbt_config_exposes_prefixed_entries
              Py.ascii_upper Py.ascii_lower Demo.environ Demo.json_loads
              (init None))
    as (_ & _ & _ & _ & Hbad).
  destruct (Hbad _ _ Hvars eq_refl) as (config & E & Hcfg & _).
  exists config. split; [exact E|exact Hcfg].
Defined.

Lemma set_variable_witness :
  "target" ≠ "vars"
  ∧ get_variable (set_variable (init None) "vars" "{}") "target" (Some "dev")
    = get_variable (init None) "target" (Some "dev").
Proof.
  assert ("target" ≠ "vars") as Hne by discriminate.
  split; [exact Hne|].
  exact (proj1 (proj2 (set_variable_then_get
                         Py.ascii_upper Py.ascii_lower Demo.environ
                         (init None) "vars" "{}" (Some "dev")))
               "target" Hne).
Defined.

Lemma no_prefixed_entry_witness :
  (∀ key v, (key, v) ∈ [("PATH", "/usr/bin")] →
            Py.startswith key (prefix_of Py.ascii_upper (init None)) = false)
  ∧ load_dbt_config Py.ascii_upper Py.ascii_lower [("PATH", "/usr/bin")]
      Demo.json_loads (init None)
    = (inr ∅, mkManager (library_name (init None)) ∅).
Proof.
  assert (∀ key v, (key, v) ∈ [("PATH", "/usr/bin")] →
                   Py.startswith key (prefix_of Py.ascii_upper (init None))
                   = false) as Hnone.
  { intros key v Hin. apply list_elem_of_singleton in Hin.
    injection Hin as -> _. reflexivity. }
  split; [exact Hnone|].
  exact (proj2 (load_dbt_config_keys
                  Py.ascii_upper Py.ascii_lower [("PATH", "/usr/bin")]
                  Demo.json_loads (init None)) Hnone).
Defined.

Lemma parsed_vars_witness :
  _variables
    (load_dbt_config Py.ascii_upper Py.ascii_lower Demo.environ
       (λ _, inr (Py.PInt 7)) (init None)).2 !! "vars"
  = Some "{run_date: today"
  ∧ (λ _ : string, @inr Py.exception Py.value (Py.PInt 7)) "{run_date: today"
    = inr (Py.PInt 7)
  ∧ ∃ config,
      (load_dbt_config Py.ascii_upper Py.ascii_lower Demo.environ
         (λ _, inr (Py.PInt 7)) (init None)).1 = inr config
      ∧ config !! "vars" = Some (Py.PInt 7).
Proof.
  assert (_variables
            (load_dbt_config Py.ascii_upper Py.ascii_lower Demo.environ
               (λ _, inr (Py.PInt 7)) (init None)).2 !! "vars"
          = Some "{run_date: today") as Hvars by (vm_compute; reflexivity).
  split; [exact Hvars|]. split; [reflexivity|].
  exact (proj1 (load_dbt_config_vars
                  Py.ascii_upper Py.ascii_lower Demo.environ
                  (λ _, inr (Py.PInt 7)) (init None) "{run_date: today"
                  Hvars)
               (Py.PInt 7) eq_refl).
Defined.

End VariableLibraryFacts.

(* ===================================================================== *)
(** * Facts about the subcommand command lines *)
(* ===================================================================== *)

Module RunnerFacts.
Import Runner.

Section Facts.

Variable str : Py.value → string.
Variable json_dumps : Py.value → string.
Variable config : Config.DbtConfig.

Local Abbreviation add_kwargs := (Runner.add_kwargs str).
Local Abbreviation renders_kwargs := (Runner.renders_kwargs str).

Lemma add_kwargs_app (cmd : list string) (k1 k2 : list (string * Py.value)) :
  add_kwargs cmd (k1 ++ k2) = add_kwargs (add_kwargs cmd k1) k2.
Proof. apply foldl_app. Qed.

Lemma add_kwargs_False (cmd : list string) (key : string)
    (pre post : list (string * Py.value)) :
  add_kwargs cmd (pre ++ (key, Py.PBool false) :: post)
  = add_kwargs cmd (pre ++ post).
Proof. by rewrite !add_kwargs_app. Qed.

Lemma add_kwargs_True (cmd : list string) (key : string)
    (kwargs : list (string * Py.value)) :
  add_kwargs cmd (kwargs ++ [(key, Py.PBool true)])
  = add_kwargs cmd kwargs ++ [flag_of key].
Proof. by rewrite add_kwargs_app. Qed.

Lemma add_kwargs_value (cmd : list string) (key : string) (value : Py.value)
    (kwargs : list (string * Py.value)) :
  Py.isinstance_bool value = false →
  add_kwargs cmd (kwargs ++ [(key, value)])
  = add_kwargs cmd kwargs ++ [flag_of key; str value].
Proof.
  intros H. rewrite add_kwargs_app. cbn. unfold add_kwarg. by rewrite H.
Qed.

Lemma add_kwargs_renders (cmd : list string) : renders_kwargs (add_kwargs cmd).
Proof.
  split_and!.
  - intros. apply add_kwargs_False.
  - intros. apply add_kwargs_True.
  - intros. by apply add_kwargs_value.
Qed.

(** C10.  In each of [run], [test], [build], [compile], [seed] and
    [snapshot], a keyword argument whose value is [False] adds nothing to
    the command line, wherever it stands among the keyword arguments; one
    whose value is [True] adds the flag made of two dashes and the key with
    underscores turned into dashes; one whose value is not a [bool] adds
    that flag followed by [str] of the value. *)
Theorem False_kwarg_renders_nothing :
  (∀ models select exclude full_refresh,
     renders_kwargs
       (Runner.run str json_dumps config models select exclude full_refresh))
  ∧ (∀ models select,
       renders_kwargs (Runner.test str json_dumps config models select))
  ∧ (∀ select exclude full_refresh,
       renders_kwargs
         (Runner.build str json_dumps config select exclude full_refresh))
  ∧ (∀ models select,
       renders_kwargs (Runner.compile str json_dumps config models select))
  ∧ (∀ select full_refresh,
       renders_kwargs (Runner.seed str json_dumps config select full_refresh))
  ∧ (∀ select, renders_kwargs (Runner.snapshot str json_dumps config select))
  ∧ (∀ key, flag_of key = "--" +:+ Py.replace_char "_" "-" key).
Proof. split_and!; intros; try apply add_kwargs_renders. done. Qed.

(** ** How the command lines are put together *)

Lemma foldl_appending {A B} (step : list B → A → list B) :
  (∀ acc x, step acc x = acc ++ step [] x) →
  ∀ l acc, foldl step acc l = acc ++ foldl step [] l.
Proof.
  intros Hstep. induction l as [|x l IH]; intros acc; cbn.
  - by rewrite app_nil_r.
  - rewrite IH, (IH (step [] x)), Hstep. by rewrite app_assoc.
Qed.

Lemma add_kwarg_appends (cmd : list string) (item : string * Py.value) :
  add_kwarg str cmd item = cmd ++ add_kwarg str [] item.
Proof.
  destruct item as [key value]. unfold add_kwarg.
  destruct (Py.isinstance_bool value && _); [done|].
  destruct (negb _); [done|by rewrite app_nil_r].
Qed.

Lemma add_kwargs_appends (cmd : list string) (kwargs : list (string * Py.value)) :
  add_kwargs cmd kwargs = cmd ++ add_kwargs [] kwargs.
Proof. apply foldl_appending, add_kwarg_appends. Qed.

Lemma add_models_appends (cmd : list string) (models : option (list string)) :
  add_models cmd models = cmd ++ add_models [] models.
Proof.
  destruct models as [ms|]; cbn; [|by rewrite app_nil_r].
  by apply (foldl_appending (λ cmd model, cmd ++ ["--models"; model])).
Qed.

Lemma add_option_appends (flag : string) (cmd : list string) (x : option string) :
  add_option flag cmd x = cmd ++ add_option flag [] x.
Proof.
  destruct x as [s|]; cbn; [|by rewrite app_nil_r].
  destruct (Py.str_truthy s); [done|by rewrite app_nil_r].
Qed.

Lemma add_full_refresh_appends (cmd : list string) (full_refresh : bool) :
  add_full_refresh cmd full_refresh = cmd ++ add_full_refresh [] full_refresh.
Proof. destruct full_refresh; cbn; [done|by rewrite app_nil_r]. Qed.

(** X15.  Every command line is "dbt", the subcommand, the arguments of the
    configuration, the options of the subcommand in a fixed order and then
    the keyword arguments; each part is what its own argument renders,
    whatever the other arguments are. *)
Theorem command_lines_compose :
  let base := Config.get_dbt_args json_dumps config in
  (∀ models select exclude full_refresh kwargs,
     Runner.run str json_dumps config models select exclude full_refresh kwargs
     = ["dbt"; "run"] ++ base
       ++ add_models [] models
       ++ add_option "--select" [] select
       ++ add_option "--exclude" [] exclude
       ++ add_full_refresh [] full_refresh
       ++ add_kwargs [] kwargs)
  ∧ (∀ models select kwargs,
       Runner.test str json_dumps config models select kwargs
       = ["dbt"; "test"] ++ base
         ++ add_models [] models
         ++ add_option "--select" [] select
         ++ add_kwargs [] kwargs)
  ∧ (∀ select exclude full_refresh kwargs,
       Runner.build str json_dumps config select exclude full_refresh kwargs
       = ["dbt"; "build"] ++ base
         ++ add_option "--select" [] select
         ++ add_option "--exclude" [] exclude
         ++ add_full_refresh [] full_refresh
         ++ add_kwargs [] kwargs)
  ∧ (∀ models select kwargs,
       Runner.compile str json_dumps config models select kwargs
       = ["dbt"; "compile"] ++ base
         ++ add_models [] models
         ++ add_option "--select" [] select
         ++ add_kwargs [] kwargs)
  ∧ (∀ select full_refresh kwargs,
       Runner.seed str json_dumps config select full_refresh kwargs
       = ["dbt"; "seed"] ++ base
         ++ add_option "--select" [] select
         ++ add_full_refresh [] full_refresh
         ++ add_kwargs [] kwargs)
  ∧ (∀ select kwargs,
       Runner.snapshot str json_dumps config select kwargs
       = ["dbt"; "snapshot"] ++ base
         ++ add_option "--select" [] select
         ++ add_kwargs [] kwargs)
  ∧ Runner.debug json_dumps config = ["dbt"; "debug"] ++ base
  ∧ Runner.deps json_dumps config = ["dbt"; "deps"] ++ base.
Proof.
  cbv zeta. split_and!; try done; intros;
    unfold Runner.run, Runner.test, Runner.build, Runner.compile, Runner.seed,
      Runner.snapshot; cbv zeta;
    rewrite add_kwargs_appends;
    try rewrite add_full_refresh_appends;
    try rewrite (add_option_appends "--exclude");
    try rewrite (add_option_appends "--select");
    try rewrite add_models_appends;
    by rewrite <- !app_assoc.
Qed.

(** X16.  An option that is [None], an empty string or an empty list adds
    nothing: in every command that has the option, [select] or [exclude]
    given as the empty string, and [models] given as the empty list, leave
    the command line as without it, whatever the other arguments are. *)
Theorem empty_options_add_nothing :
  (∀ models exclude full_refresh kwargs,
     Runner.run str json_dumps config models (Some "") exclude full_refresh
                kwargs
     = Runner.run str json_dumps config models None exclude full_refresh
                  kwargs)
  ∧ (∀ models select full_refresh kwargs,
       Runner.run str json_dumps config models select (Some "") full_refresh
                  kwargs
       = Runner.run str json_dumps config models select None full_refresh
                    kwargs)
  ∧ (∀ select exclude full_refresh kwargs,
       Runner.run str json_dumps config (Some []) select exclude full_refresh
                  kwargs
       = Runner.run str json_dumps config None select exclude full_refresh
                    kwargs)
  ∧ (∀ select kwargs,
       Runner.test str json_dumps config (Some []) (Some "") kwargs
       = Runner.test str json_dumps config None None kwargs
       ∧ Runner.compile str json_dumps config (Some []) (Some "") kwargs
         = Runner.compile str json_dumps config None None kwargs
       ∧ Runner.snapshot str json_dumps config (Some "") kwargs
         = Runner.snapshot str json_dumps config None kwargs
       ∧ Runner.build str json_dumps config (Some "") (Some "") false kwargs
         = Runner.build str json_dumps config None None false kwargs
       ∧ Runner.seed str json_dumps config (Some "") false kwargs
         = Runner.seed str json_dumps config None false kwargs
       ∧ Runner.run str json_dumps config None select None false []
         = ["dbt"; "run"] ++ Config.get_dbt_args json_dumps config
           ++ add_option "--select" [] select)
  ∧ (∀ models select kwargs,
       Runner.test str json_dumps config (Some []) select kwargs
       = Runner.test str json_dumps config None select kwargs
       ∧ Runner.test str json_dumps config models (Some "") kwargs
         = Runner.test str json_dumps config models None kwargs
       ∧ Runner.compile str json_dumps config (Some []) select kwargs
         = Runner.compile str json_dumps config None select kwargs
       ∧ Runner.compile str json_dumps config models (Some "") kwargs
         = Runner.compile str json_dumps config models None kwargs)
  ∧ (∀ select exclude full_refresh kwargs,
       Runner.build str json_dumps config (Some "") exclude full_refresh
                    kwargs
       = Runner.build str json_dumps config None exclude full_refresh kwargs
       ∧ Runner.build str json_dumps config select (Some "") full_refresh
                      kwargs
         = Runner.build str json_dumps config select None full_refresh
                        kwargs)
  ∧ (∀ full_refresh kwargs,
       Runner.seed str json_dumps config (Some "") full_refresh kwargs
       = Runner.seed str json_dumps config None full_refresh kwargs
       ∧ Runner.snapshot str json_dumps config (Some "") kwargs
         = Runner.snapshot str json_dumps config None kwargs).
Proof.
  split_and!; try done.
  intros select kwargs. split_and!; try done.
  unfold Runner.run. cbv zeta. cbn.
  by rewrite add_option_appends.
Qed.

End Facts.

Lemma kwargs_example :
  Runner.run Demo.str_simple (λ _, "{}")
    (Config.mkDbtConfig "/project" "/profiles" "dev" (Py.PDict []))
    (Some ["orders"]) None None true
    [ ("fail_fast", Py.PBool true);
      ("debug", Py.PBool false);
      ("threads", Py.PInt 4) ]
  = [ "dbt"; "run"; "--project-dir"; "/project"; "--profiles-dir"; "/profiles";
      "--target"; "dev"; "--models"; "orders"; "--full-refresh";
      "--fail-fast"; "--threads"; "4" ].
Proof. reflexivity. Qed.

Lemma False_kwarg_witness :
  Py.isinstance_bool (Py.PInt 4) = false
  ∧ Runner.seed Demo.str_simple (λ _, "{}")
      (Config.mkDbtConfig "/project" "/profiles" "dev" (Py.PDict [])) None false
      ([("debug", Py.PBool false)] ++ [("threads", Py.PInt 4)])
    = Runner.seed Demo.str_simple (λ _, "{}")
        (Config.mkDbtConfig "/project" "/profiles" "dev" (Py.PDict [])) None false
        [("debug", Py.PBool false)]
      ++ ["--threads"; "4"].
Proof.
  split; [reflexivity|].
  destruct (False_kwarg_renders_nothing Demo.str_simple (λ _, "{}")
              (Config.mkDbtConfig "/project" "/profiles" "dev" (Py.PDict [])))
    as (_ & _ & _ & _ & Hseed & _).
  destruct (Hseed None false) as (_ & _ & Hvalue).
  exact (Hvalue [("debug", Py.PBool false)] "threads" (Py.PInt 4) eq_refl).
Defined.

End RunnerFacts.

(* ===================================================================== *)
(** * Facts about the lakehouse metadata *)
(* ===================================================================== *)

Module LakehouseFacts.
Import Lakehouse.

Lemma endswith_slash_append (a : string) (c : Ascii.ascii) (b : string) :
  Py.endswith (String c b) "/" = false →
  Py.endswith (a +:+ String c b) "/" = false.
Proof.
  intros H. induction a as [|d a IH]; [done|].
  rewrite PyFacts.app_cons. cbn [Py.endswith]. rewrite IH, orb_false_r.
  apply String.eqb_neq. intros Heq. injection Heq as _ Heq.
  by destruct a.
Qed.

Lemma path_join_absolute (a b : string) :
  Py.startswith b "/" = true → Py.path_join a b = b.
Proof. intros H. unfold Py.path_join. by rewrite H. Qed.

Lemma path_join_relative (a b : string) :
  Py.startswith b "/" = false →
  a ≠ "" → Py.endswith a "/" = false →
  Py.path_join a b = a +:+ "/" +:+ b.
Proof.
  intros Hb Ha Hs. unfold Py.path_join. rewrite Hb, Hs.
  by rewrite (ConfigFacts.str_truthy_nonempty _ Ha).
Qed.

(** The path of the tables directory: the lakehouse path, a slash unless
    that path is empty or ends with one, and "Tables". *)
Lemma tables_path_shape (self : LakehouseMetadata) :
  ∃ sep,
    get_tables_path self = lakehouse_path self +:+ sep +:+ "Tables"
    ∧ (sep = "" ∨ sep = "/")
    ∧ (lakehouse_path self ≠ "" →
       Py.endswith (lakehouse_path self) "/" = false → sep = "/").
Proof.
  unfold get_tables_path, Py.path_join. cbn [Py.startswith String.prefix].
  destruct (Py.str_truthy (lakehouse_path self)) eqn:Ht; cbn.
  - destruct (Py.endswith (lakehouse_path self) "/") eqn:He.
    + exists "". split_and!; [done|by left|done].
    + exists "/". split_and!; [done|by right|done].
  - exists "". split_and!; [done|by left|].
    intros Hne. by rewrite (ConfigFacts.str_truthy_nonempty _ Hne) in Ht.
Qed.

Lemma tables_path_joinable (self : LakehouseMetadata) :
  get_tables_path self ≠ ""
  ∧ Py.endswith (get_tables_path self) "/" = false.
Proof.
  destruct (tables_path_shape self) as (sep & -> & Hsep & _).
  split.
  - intros H. apply PyFacts.app_eq_nil in H as [_ H].
    by destruct Hsep as [-> | ->].
  - destruct Hsep as [-> | ->].
    + by apply endswith_slash_append.
    + rewrite PyFacts.app_assoc. by apply endswith_slash_append.
Qed.

(** X17.  The location of a table is the tables directory, a slash and the table
    name, and so lies under the lakehouse path, unless the name starts with
    a slash: an absolute name is returned as it is, outside the lakehouse. *)
Theorem table_location_cases (self : LakehouseMetadata) (table_name : string) :
  (Py.startswith table_name "/" = true →
   get_table_location self table_name = table_name)
  ∧ (Py.startswith table_name "/" = false →
     ∃ sep,
       get_table_location self table_name
       = lakehouse_path self +:+ sep +:+ "Tables" +:+ "/" +:+ table_name
       ∧ (sep = "" ∨ sep = "/")
       ∧ get_table_location self table_name
         = get_tables_path self +:+ "/" +:+ table_name).
Proof.
  split.
  - intros H. by apply path_join_absolute.
  - intros H. destruct (tables_path_joinable self) as (Hne & Hend).
    assert (get_table_location self table_name
            = get_tables_path self +:+ "/" +:+ table_name) as Hloc
      by (by apply path_join_relative).
    destruct (tables_path_shape self) as (sep & Hshape & Hsep & _).
    exists sep. split_and!; try done.
    rewrite Hloc, Hshape.
    by rewrite <- !PyFacts.app_assoc.
Qed.

(** X18.  [list_tables] returns the empty list when the tables directory does
    not exist and when listing it raises an instance of [Exception]; it
    raises only what is no such instance.  Otherwise it returns, in listing
    order, the listed names whose table location is a directory. *)
Theorem list_tables_cases (fs : FileSystem) (self : LakehouseMetadata) :
  let tables_path := get_tables_path self in
  (path_exists fs tables_path = false → list_tables fs self = inr [])
  ∧ (∀ e, listdir fs tables_path = inl e →
          Py.isinstance_Exception e = true → list_tables fs self = inr [])
  ∧ (∀ e, list_tables fs self = inl e →
          listdir fs tables_path = inl e
          ∧ Py.isinstance_Exception e = false)
  ∧ (∀ names,
       path_exists fs tables_path = true →
       listdir fs tables_path = inr names →
       ∃ tables,
         list_tables fs self = inr tables
         ∧ tables `sublist_of` names
         ∧ ∀ name,
             name ∈ tables
             ↔ name ∈ names ∧ isdir fs (get_table_location self name) = true).
Proof.
  cbv zeta. unfold list_tables. split_and!.
  - by intros ->.
  - intros e -> ->. by destruct (negb _).
  - intros e. destruct (negb _); [done|].
    destruct (listdir fs (get_tables_path self)) as [e'|names]; [|done].
    destruct (Py.isinstance_Exception e') eqn:He; [done|].
    intros Heq. by injection Heq as ->.
  - intros names -> ->. cbn. eexists. split; [done|]. split.
    + apply sublist_filter.
    + intros name. rewrite list_elem_of_filter. unfold get_table_location.
      tauto.
Qed.

(** X19.  The name of the lakehouse is the constructor's argument unless that is
    [None] or empty; then it is the value of FABRIC_LAKEHOUSE_NAME if the
    environment has the variable, even an empty value, and "default" only if
    it has not.  The path never depends on the argument. *)
Theorem lakehouse_identity (environ : list (string * string)) :
  (∀ name, name ≠ "" → lakehouse_name (init environ (Some name)) = name)
  ∧ init environ (Some "") = init environ None
  ∧ (∀ v, Py.environ_get environ "FABRIC_LAKEHOUSE_NAME" = Some v →
          lakehouse_name (init environ None) = v)
  ∧ (Py.environ_get environ "FABRIC_LAKEHOUSE_NAME" = None →
     lakehouse_name (init environ None) = "default")
  ∧ (∀ name, lakehouse_path (init environ name)
             = Py.getenv environ "FABRIC_LAKEHOUSE_PATH" "/lakehouse/default").
Proof.
  split_and!; try done.
  - intros name H. by apply ConfigFacts.or_str_given.
  - intros v H. cbn. unfold Py.getenv. by rewrite H.
  - intros H. cbn. unfold Py.getenv. by rewrite H.
Qed.

Lemma table_location_witness :
  Py.startswith "orders" "/" = false
  ∧ get_table_location Demo.sales "orders"
    = get_tables_path Demo.sales +:+ "/" +:+ "orders".
Proof.
  split; [reflexivity|].
  destruct (proj2 (table_location_cases Demo.sales "orders") eq_refl)
    as (sep & _ & _ & Hloc).
  exact Hloc.
Defined.

Lemma list_tables_witness :
  path_exists Demo.fs (get_tables_path Demo.sales) = true
  ∧ listdir Demo.fs (get_tables_path Demo.sales)
    = inr ["orders"; "_delta_log.json"; "customers"]
  ∧ ∃ tables,
      list_tables Demo.fs Demo.sales = inr tables
      ∧ tables `sublist_of` ["orders"; "_delta_log.json"; "customers"].
Proof.
  assert (path_exists Demo.fs (get_tables_path Demo.sales) = true) as Hex
    by (vm_compute; reflexivity).
  split; [exact Hex|]. split; [reflexivity|].
  destruct (proj2 (proj2 (proj2 (list_tables_cases Demo.fs Demo.sales)))
              ["orders"; "_delta_log.json"; "customers"] Hex eq_refl)
    as (tables & E & Hsub & _).
  exists tables. split; [exact E|exact Hsub].
Defined.

Lemma lakehouse_identity_witness :
  "sales" ≠ "" ∧ lakehouse_name (init [] (Some "sales")) = "sales".
Proof.
  assert ("sales" ≠ "") as Hne by discriminate.
  split; [exact Hne|].
  exact (proj1 (lakehouse_identity []) "sales" Hne).
Defined.


End LakehouseFacts.

(* ===================================================================== *)
(** * Facts about the runner object *)
(* ===================================================================== *)

Module RunnerObjectFacts.
Import Runner.

(** ** Flags *)

Lemma str_in_char (c d : Ascii.ascii) (s : string) :
  Py.str_in (String c "") (String d s)
  = bool_decide (c = d) || Py.str_in (String c "") s.
Proof.
  cbn. destruct (Ascii.ascii_dec c d) as [->|Hne].
  - rewrite bool_decide_eq_true_2 by done. by destruct s.
  - by rewrite bool_decide_eq_false_2.
Qed.

Lemma replace_char_absent (a b : Ascii.ascii) (s : string) :
  a ≠ b → Py.str_in (String a "") (Py.replace_char a b s) = false.
Proof.
  intros Hne. induction s as [|c s IH]; [done|].
  cbn [Py.replace_char]. rewrite str_in_char, IH, orb_false_r.
  apply bool_decide_eq_false_2.
  destruct (Ascii.eqb c a) eqn:Hc; [done|].
  apply Ascii.eqb_neq in Hc. congruence.
Qed.

Lemma replace_char_back (a b : Ascii.ascii) (s : string) :
  Py.str_in (String b "") s = false →
  Py.replace_char b a (Py.replace_char a b s) = s.
Proof.
  induction s as [|c s IH]; [done|].
  rewrite str_in_char. intros H. apply orb_false_elim in H as [Hc Hs].
  apply bool_decide_eq_false_1 in Hc.
  cbn [Py.replace_char]. rewrite (IH Hs).
  destruct (Ascii.eqb c a) eqn:Hca.
  - apply Ascii.eqb_eq in Hca as ->. by rewrite Ascii.eqb_refl.
  - destruct (Ascii.eqb c b) eqn:Hcb; [|done].
    apply Ascii.eqb_eq in Hcb. congruence.
Qed.

(** X20.  A flag never contains an underscore, and keys without a dash, as all
    Python identifiers are, get different flags when they differ; a key
    with a dash shares its flag with the key that has an underscore there:
    two keys get the same flag exactly when they are equal once every
    underscore is replaced by a dash. *)
Theorem flags_of_identifiers_are_distinct :
  (∀ key, Py.str_in "_" (flag_of key) = false)
  ∧ (∀ key1 key2,
       Py.str_in "-" key1 = false →
       Py.str_in "-" key2 = false →
       flag_of key1 = flag_of key2 → key1 = key2)
  ∧ flag_of "fail-fast" = flag_of "fail_fast"
  ∧ (∀ key1 key2,
       flag_of key1 = flag_of key2
       ↔ Py.replace_char "_" "-" key1 = Py.replace_char "_" "-" key2).
Proof.
  split_and!; [|  |done|].
  - intros key. unfold flag_of.
    change ("--" +:+ ?s) with (String "-" (String "-" s)).
    rewrite !str_in_char.
    rewrite !bool_decide_eq_false_2 by done.
    by apply replace_char_absent.
  - intros key1 key2 H1 H2 Heq. unfold flag_of in Heq.
    apply (String.app_inj "--") in Heq.
    rewrite <- (replace_char_back "_" "-" key1 H1).
    rewrite <- (replace_char_back "_" "-" key2 H2).
    by rewrite Heq.
  - intros key1 key2. unfold flag_of. split.
    + apply (String.app_inj "--").
    + by intros ->.
Qed.

Section Facts.

Variable upper lower : string → string.
Variable environ : list (string * string).
Variable json_loads : string → Py.exception + Py.value.
Variable getcwd : string.
Variable expanduser : string → string.
Variable subprocess_run :
  list string → string → Py.exception + CompletedProcess.

Local Abbreviation init :=
  (Runner.init upper lower environ json_loads getcwd expanduser).
Local Abbreviation _execute_command := (Runner._execute_command subprocess_run).
Local Abbreviation execute_all := (Runner.execute_all subprocess_run).

(** ** Executing a command *)

Lemma execute_command_config (self : DbtRunner) (cmd : list string) :
  config (_execute_command self cmd).1.2 = config self.
Proof.
  unfold Runner._execute_command.
  destruct (subprocess_run cmd _) as [e|result]; [done|].
  by destruct (bool_decide _).
Qed.

Lemma execute_command_last_result (self : DbtRunner) (cmd : list string) :
  get_last_result (_execute_command self cmd).1.2
  = match subprocess_run cmd (Config.project_dir (config self)) with
    | inr result => Some result
    | inl _ => get_last_result self
    end.
Proof.
  unfold Runner._execute_command.
  destruct (subprocess_run cmd _) as [e|result]; [done|].
  by destruct (bool_decide _).
Qed.

(** X21.  [_execute_command] returns the completed process exactly when its exit
    code is 0 and raises [RuntimeError] with the code, the command line and
    the error output when it is not; in both cases the completed process
    becomes the last result.  When the command cannot be started, the
    exception of [subprocess.run] is raised, the last result stays as it
    was and only the "Executing" line has been printed. *)
Theorem execute_command_outcomes (self : DbtRunner) (cmd : list string) :
  let cwd := Config.project_dir (config self) in
  let r := _execute_command self cmd in
  let executing :=
    (Stdout, "Executing: " +:+ Py.join_with " " cmd +:+ Py.newline) in
  (∀ e, subprocess_run cmd cwd = inl e → r = (inl e, self, [executing]))
  ∧ (∀ result, subprocess_run cmd cwd = inr result →
       get_last_result r.1.2 = Some result
       ∧ config r.1.2 = config self
       ∧ head r.2 = Some executing
       ∧ (returncode result = 0%Z → r.1.1 = inr result)
       ∧ (returncode result ≠ 0%Z →
          r.1.1
          = inl (Py.RuntimeError
                   ("dbt command failed with exit code "
                    +:+ Py.str_of_int (returncode result) +:+ Py.newline
                    +:+ "Command: " +:+ Py.join_with " " cmd +:+ Py.newline
                    +:+ "Error: " +:+ stderr result)))).
Proof.
  cbv zeta. unfold Runner._execute_command. split.
  - by intros e ->.
  - intros result ->. split_and!.
    + by destruct (bool_decide _).
    + by destruct (bool_decide _).
    + by destruct (bool_decide _), (Py.str_truthy (stdout result)),
        (Py.str_truthy (stderr result)).
    + intros Hrc. by rewrite bool_decide_eq_false_2 by (by intros H).
    + intros Hrc. by rewrite bool_decide_eq_true_2.
Qed.

(** X22.  After any commands, the last result is the completed process of the
    last command that could be started, failed or not, and what it was
    before if none could. *)
Theorem last_result_tracks_started_commands
    (self : DbtRunner) (cmds : list (list string)) :
  let cwd := Config.project_dir (config self) in
  let started :=
    omap (λ cmd, match subprocess_run cmd cwd with
                 | inr result => Some result
                 | inl _ => None
                 end) cmds in
  get_last_result (execute_all self cmds)
  = match last started with
    | Some result => Some result
    | None => get_last_result self
    end.
Proof.
  cbv zeta. revert self.
  induction cmds as [|cmd cmds IH] using rev_ind; intros self; [done|].
  unfold Runner.execute_all. rewrite foldl_app. cbn [foldl].
  fold (execute_all self cmds).
  rewrite execute_command_last_result, IH.
  assert (config (execute_all self cmds) = config self) as ->.
  { clear. induction cmds as [|c cmds IH] using rev_ind; [done|].
    unfold Runner.execute_all. rewrite foldl_app. cbn [foldl].
    by rewrite execute_command_config. }
  rewrite omap_app. cbn.
  destruct (subprocess_run cmd _) as [e|result]; cbn.
  - by rewrite app_nil_r.
  - by rewrite last_snoc.
Qed.

(** ** Construction *)

Lemma optional_str_of_variable (v : option string) :
  Config.optional_str (Py.PStr <$> v) = Some v.
Proof. by destruct v. Qed.

Lemma from_dict_of_variables (config_dict : gmap string Py.value)
    (pd pr t : option string) :
  config_dict !! "project_dir" = Py.PStr <$> pd →
  config_dict !! "profiles_dir" = Py.PStr <$> pr →
  config_dict !! "target" = Py.PStr <$> t →
  Config.from_dict getcwd expanduser config_dict
  = Some (Config.init getcwd expanduser pd pr t (config_dict !! "vars")).
Proof.
  intros H1 H2 H3. unfold Config.from_dict.
  by rewrite H1, H2, H3, !optional_str_of_variable.
Qed.

(** What the constructor does with the dictionary of [load_dbt_config]:
    the configuration is built from the variables whether the dictionary
    is empty or not. *)
Lemma configure_from_variables (variables : gmap string string)
    (var_config : gmap string Py.value) :
  var_config !! "project_dir" = Py.PStr <$> variables !! "project_dir" →
  var_config !! "profiles_dir" = Py.PStr <$> variables !! "profiles_dir" →
  var_config !! "target" = Py.PStr <$> variables !! "target" →
  (if bool_decide (var_config ≠ ∅)
   then Config.from_dict getcwd expanduser var_config
   else Some (Config.init getcwd expanduser None None None None))
  = Some (Config.init getcwd expanduser
            (variables !! "project_dir") (variables !! "profiles_dir")
            (variables !! "target") (var_config !! "vars")).
Proof.
  intros H1 H2 H3. case_bool_decide as Hne.
  - by apply from_dict_of_variables.
  - subst var_config. rewrite lookup_empty in *.
    symmetry in H1, H2, H3. apply fmap_None in H1, H2, H3.
    by rewrite H1, H2, H3.
Qed.

(** X23.  With a configuration, the constructor uses it as it is and loads
    no variable.  Without one it always builds a runner, unless
    [json.loads] raises something else than [JSONDecodeError], which then
    leaves the constructor: it loads the variables of the library from the
    environment and takes each of the project directory, the profiles
    directory and the target from the variable of that name when that is
    set and not empty, and the default of [DbtConfig] otherwise; [vars] is
    the value parsed from the variable "vars" when that value is truthy,
    whatever its type, and the empty dictionary when the variable is
    missing, is no JSON text or parses to a falsy value.  No result is
    recorded on a new object. *)
Theorem runner_auto_configuration (variable_library lakehouse_name : option string) :
  let manager := VariableLibrary.init variable_library in
  let loaded := VariableLibrary.load_from_fabric upper lower environ manager in
  let variables := loaded.1 in
  let lakehouse := Lakehouse.init environ lakehouse_name in
  let configured (vars : option Py.value) :=
    mkDbtRunner loaded.2 lakehouse
      (Config.init getcwd expanduser
         (variables !! "project_dir") (variables !! "profiles_dir")
         (variables !! "target") vars)
      None in
  (∀ cfg,
     init (Some cfg) variable_library lakehouse_name
     = Some (inr (mkDbtRunner manager lakehouse cfg None)))
  ∧ (variables !! "vars" = None →
     init None variable_library lakehouse_name
     = Some (inr (configured None)))
  ∧ (∀ text parsed,
       variables !! "vars" = Some text →
       json_loads text = inr parsed →
       init None variable_library lakehouse_name
       = Some (inr (configured (Some parsed))))
  ∧ (∀ text msg,
       variables !! "vars" = Some text →
       json_loads text = inl (Py.JSONDecodeError msg) →
       init None variable_library lakehouse_name
       = Some (inr (configured None)))
  ∧ (∀ text e,
       variables !! "vars" = Some text →
       json_loads text = inl e →
       (∀ msg, e ≠ Py.JSONDecodeError msg) →
       init None variable_library lakehouse_name = Some (inl e))
  ∧ (∀ vars,
       let r := configured vars in
       VariableLibrary.get_all_variables (variable_manager r) = variables
       ∧ Config.project_dir (config r)
         = Py.or_str (variables !! "project_dir") getcwd
       ∧ Config.profiles_dir (config r)
         = Py.or_str (variables !! "profiles_dir") (expanduser "~/.dbt")
       ∧ Config.target (config r) = Py.or_str (variables !! "target") "dev"
       ∧ Config.vars (config r)
         = match vars with
           | Some v => if Py.truthy v then v else Py.PDict []
           | None => Py.PDict []
           end
       ∧ get_last_result r = None).
Proof.
  intros manager loaded variables lakehouse configured.
  destruct (VariableLibraryFacts.copied_keys variables) as (H1 & H2 & H3 & H4).
  cbv zeta in H1, H2, H3, H4.
  set (copied :=
         VariableLibrary.copy_key "target" variables
           (VariableLibrary.copy_key "profiles_dir" variables
              (VariableLibrary.copy_key "project_dir" variables ∅))) in *.
  assert (∀ var_config,
            var_config !! "project_dir" = copied !! "project_dir" →
            var_config !! "profiles_dir" = copied !! "profiles_dir" →
            var_config !! "target" = copied !! "target" →
            (if bool_decide (var_config ≠ ∅)
             then config ← Config.from_dict getcwd expanduser var_config;
                  Some (inr (mkDbtRunner loaded.2 lakehouse config None))
             else Some (inr (mkDbtRunner loaded.2 lakehouse
                               (Config.init getcwd expanduser
                                  None None None None) None)))
            = Some (@inr Py.exception DbtRunner
                      (configured (var_config !! "vars")))) as Hbuild.
  { intros var_config E1 E2 E3.
    rewrite H1 in E1. rewrite H2 in E2. rewrite H3 in E3.
    pose proof (configure_from_variables variables var_config E1 E2 E3) as Hc.
    case_bool_decide; [by rewrite Hc|].
    apply (inj Some) in Hc. subst configured. cbv beta. by rewrite Hc. }
  assert (∀ v : Py.value,
            (<["vars" := v]> copied : gmap string Py.value) !! "vars" = Some v)
    as Hvars by (intros v; apply lookup_insert_eq).
  split_and!.
  - done.
  - intros Hnone. unfold Runner.init. fold manager.
    unfold VariableLibrary.load_dbt_config. fold loaded.
    destruct loaded as [vs m] eqn:Hl. cbn [fst snd] in *. subst variables.
    rewrite Hnone.
    etransitivity; [exact (Hbuild copied eq_refl eq_refl eq_refl)|].
    by rewrite (H4 "vars").
  - intros text parsed Htext Hjson. unfold Runner.init. fold manager.
    unfold VariableLibrary.load_dbt_config. fold loaded.
    destruct loaded as [vs m] eqn:Hl. cbn [fst snd] in *. subst variables.
    rewrite Htext, Hjson.
    etransitivity;
      [apply (Hbuild (<["vars" := parsed]> copied));
       by rewrite lookup_insert_ne|].
    by rewrite Hvars.
  - intros text msg Htext Hjson. unfold Runner.init. fold manager.
    unfold VariableLibrary.load_dbt_config. fold loaded.
    destruct loaded as [vs m] eqn:Hl. cbn [fst snd] in *. subst variables.
    rewrite Htext, Hjson.
    etransitivity;
      [apply (Hbuild (<["vars" := Py.PDict []]> copied));
       by rewrite lookup_insert_ne|].
    by rewrite Hvars.
  - intros text e Htext Hjson Hother. unfold Runner.init. fold manager.
    unfold VariableLibrary.load_dbt_config. fold loaded.
    destruct loaded as [vs m] eqn:Hl. cbn [fst snd] in *. subst variables.
    rewrite Htext, Hjson.
    destruct e; try done. by destruct (Hother msg).
  - intros vars r. subst r configured. cbn. by split_and!.
Qed.

(** ** Lakehouse information *)

(** X24.  The information about the lakehouse has the four keys of the lakehouse
    configuration, with its values, and "tables" with the list of tables,
    and no other key.  [get_lakehouse_info] returns whenever listing the
    tables does, so it raises no instance of [Exception]. *)
Theorem lakehouse_info_keys (fs : Lakehouse.FileSystem) (self : DbtRunner) :
  let lh := lakehouse self in
  (∀ e, get_lakehouse_info fs self = inl e →
        Lakehouse.list_tables fs lh = inl e
        ∧ Py.isinstance_Exception e = false)
  ∧ (∀ tables,
       Lakehouse.list_tables fs lh = inr tables →
       ∃ info,
         get_lakehouse_info fs self = inr info
         ∧ dom info
           = ({["lakehouse_name"; "lakehouse_path"; "tables_path";
                "files_path"; "tables"]} : gset string)
         ∧ info !! "lakehouse_name"
           = Some (Py.PStr (Lakehouse.lakehouse_name lh))
         ∧ info !! "lakehouse_path"
           = Some (Py.PStr (Lakehouse.lakehouse_path lh))
         ∧ info !! "tables_path"
           = Some (Py.PStr (Lakehouse.get_tables_path lh))
         ∧ info !! "files_path"
           = Some (Py.PStr (Lakehouse.get_files_path lh))
         ∧ info !! "tables" = Some (Py.PList (Py.PStr <$> tables))).
Proof.
  cbv zeta. unfold get_lakehouse_info. split.
  - intros e He.
    destruct (Lakehouse.list_tables fs (lakehouse self)) as [e'|tables] eqn:Hl;
      [|done].
    injection He as ->. split; [done|].
    unfold Lakehouse.list_tables in Hl.
    destruct (negb _); [done|].
    destruct (Lakehouse.listdir fs _) as [e'|names]; [|done].
    destruct (Py.isinstance_Exception e') eqn:Hi; [done|].
    by injection Hl as <-.
  - intros tables ->. eexists. split; [done|].
    unfold Lakehouse.get_lakehouse_config.
    by split_and!.
Qed.

End Facts.

Lemma distinct_flags_witness :
  Py.str_in "-" "fail_fast" = false
  ∧ Py.str_in "-" "full_refresh" = false
  ∧ flag_of "fail_fast" ≠ flag_of "full_refresh".
Proof.
  split; [reflexivity|]. split; [reflexivity|].
  intros Heq.
  pose proof (proj1 (proj2 flags_of_identifiers_are_distinct)
                "fail_fast" "full_refresh" eq_refl eq_refl Heq) as H.
  discriminate H.
Defined.

Lemma failing_command_witness :
  Demo.subprocess_run ["dbt"; "deps"]
    (Config.project_dir (config Demo.runner))
  = inr (mkCompleted ["dbt"; "deps"] 2 "" "Could not resolve package")
  ∧ returncode (mkCompleted ["dbt"; "deps"] 2 "" "Could not resolve package")
    ≠ 0%Z
  ∧ get_last_result
      (_execute_command Demo.subprocess_run Demo.runner ["dbt"; "deps"]).1.2
    = Some (mkCompleted ["dbt"; "deps"] 2 "" "Could not resolve package")
  ∧ ∃ msg,
      (_execute_command Demo.subprocess_run Demo.runner ["dbt"; "deps"]).1.1
      = inl (Py.RuntimeError msg).
Proof.
  assert (returncode
            (mkCompleted ["dbt"; "deps"] 2 "" "Could not resolve package")
          ≠ 0%Z) as Hrc by (cbn; lia).
  split; [reflexivity|]. split; [exact Hrc|].
  destruct (proj2 (execute_command_outcomes
                     Demo.subprocess_run Demo.runner ["dbt"; "deps"])
              (mkCompleted ["dbt"; "deps"] 2 "" "Could not resolve package")
              eq_refl)
    as (Hlast & _ & _ & _ & Hfail).
  split; [exact Hlast|].
  eexists. exact (Hfail Hrc).
Defined.

Lemma auto_configuration_witness :
  (VariableLibrary.load_from_fabric Py.ascii_upper Py.ascii_lower
     Demo.environ (VariableLibrary.init None)).1 !! "vars"
  = Some "{run_date: today"
  ∧ (λ _ : string, @inr Py.exception Py.value (Py.PInt 7)) "{run_date: today"
    = inr (Py.PInt 7)
  ∧ ∃ r,
      init Py.ascii_upper Py.ascii_lower Demo.environ (λ _, inr (Py.PInt 7))
           "/project" (λ _, "/home/trusted-service-user/.dbt") None None None
      = Some (inr r)
      ∧ Config.target (config r) = "prod"
      ∧ Config.vars (config r) = Py.PInt 7.
Proof.
  assert ((VariableLibrary.load_from_fabric Py.ascii_upper Py.ascii_lower
             Demo.environ (VariableLibrary.init None)).1 !! "vars"
          = Some "{run_date: today") as Hvars by (vm_compute; reflexivity).
  split; [exact Hvars|]. split; [reflexivity|].
  eexists. split.
  - exact (proj1 (proj2 (proj2 (runner_auto_configuration
                                  Py.ascii_upper Py.ascii_lower Demo.environ
                                  (λ _, inr (Py.PInt 7)) "/project"
                                  (λ _, "/home/trusted-service-user/.dbt")
                                  None None)))
             "{run_date: today" (Py.PInt 7) Hvars eq_refl).
  - vm_compute. split; reflexivity.
Defined.

Lemma lakehouse_info_witness :
  Lakehouse.list_tables Demo.fs (lakehouse Demo.runner)
  = inr ["orders"; "customers"]
  ∧ ∃ info,
      get_lakehouse_info Demo.fs Demo.runner = inr info
      ∧ info !! "tables"
        = Some (Py.PList (Py.PStr <$> ["orders"; "customers"])).
Proof.
  assert (Lakehouse.list_tables Demo.fs (lakehouse Demo.runner)
          = inr ["orders"; "customers"]) as Hl by (vm_compute; reflexivity).
  split; [exact Hl|].
  destruct (proj2 (lakehouse_info_keys Demo.fs Demo.runner)
              ["orders"; "customers"] Hl)
    as (info & E & _ & _ & _ & _ & _ & Ht).
  exists info. split; [exact E|exact Ht].
Defined.


End RunnerObjectFacts.
